(** * demo_mnist_svm.ipynb: a shallow embedding of the notebook's own logic

    The notebook is a straight-line script over a Python namespace, a few
    files on disk and three external libraries (numpy, scikit-learn,
    matplotlib).  Each code cell is embedded as a state transformer in a
    small exception/state monad, [cellN] for the N-th cell of the file.

    - numpy's float64 is Rocq's primitive binary64 [float]; integer arrays
      hold [Z]; an n-dimensional array is a nested list (a numpy array is
      rectangular, which [shape2] and [shape3] say where it matters).
    - The namespace is a finite map from names to objects.  An operation
      applied to an object of a kind the notebook never applies it to stops
      with [TypeError].
    - The external capabilities (data loading, random permutations, [fit],
      [predict], the fitted attributes [coef_] and [support_vectors_],
      [confusion_matrix], pickle's codec) are variables of the section
      [Notebook]; what the proofs need of them is stated as hypotheses of
      that section.
    - [import pickle] binds the name [pickle] to a module object and
      [with open(...) as fp] binds [fp] to a file object; a cell that uses
      [pickle] without importing it looks the name up.  The other modules
      (numpy, matplotlib, tensorflow, scikit-learn) are imported by cell 2
      or by the cell that uses them: the cells are taken to run after
      cell 2, and these names are not kept in the namespace.
    - What is handed to [fit] and to [imshow] is logged in the state.
      Printing, figure handles, axis titles and colour bars are left out.
      Of cell 26 the selection of the digit positions is embedded
      ([cell26_select]); the rest of that cell computes correlations with
      [np.sum] and [dot], whose order of summation numpy leaves open, and
      draws them. *)

From Stdlib Require Import ZArith List Lia.
From Stdlib Require Import Floats.PrimFloat Numbers.Cyclic.Int63.Uint63.
From Stdlib Require Import Sorting.Permutation.
From stdpp Require Import gmap strings list.

(** ** Numbers *)

(** Conversion of an integer array entry to float64, as numpy's true
    division does before dividing. *)
Definition float_of_Z (z : Z) : float :=
  if (z <? 0)%Z then PrimFloat.opp (PrimFloat.of_uint63 (Uint63.of_Z (- z)))
  else PrimFloat.of_uint63 (Uint63.of_Z z).

Definition float_of_nat (n : nat) : float := float_of_Z (Z.of_nat n).

(** One entry of [2*(X/255 - 0.5)]. *)
Definition rescale_px (p : Z) : float :=
  (2 * (float_of_Z p / 255 - 0.5))%float.

(** [-1 <= x <= 1] in IEEE comparison. *)
Definition in_unit_range (x : float) : Prop :=
  PrimFloat.leb (-1)%float x = true /\ PrimFloat.leb x 1%float = true.

(** ** Exceptions and results *)

Inductive exn : Type :=
| NameError
| TypeError
| AttributeError
| ValueError
| IndexError
| FileNotFoundError
| UnpicklingError
| NotFittedError
| EOFError.

Inductive result (A : Type) : Type :=
| Ok (a : A)
| Raise (e : exn).

Arguments Ok {A} a.
Arguments Raise {A} e.

Definition result_bind {A B : Type} (r : result A) (k : A -> result B) : result B :=
  match r with
  | Ok a => k a
  | Raise e => Raise e
  end.

#[global] Instance result_mret : MRet result := @Ok.
#[global] Instance result_mbind : MBind result := fun A B k r => result_bind r k.

(** ** numpy array operations used by the notebook *)

(** [X/255 - 0.5] doubled, entry by entry, on an [n x nrow x ncol] array. *)
Definition rescale (a : list (list (list Z))) : list (list (list float)) :=
  map (map (map rescale_px)) a.

(** [n] consecutive rows of [m] entries each, read off a flat buffer. *)
Fixpoint chunks {A : Type} (n m : nat) (flat : list A) : list (list A) :=
  match n with
  | O => []
  | S n' => firstn m flat :: chunks n' m (skipn m flat)
  end.

(** [x.reshape((n,m))] on the C-order buffer of [x]: the element count must
    be [n*m].  (The notebook never passes [-1].) *)
Definition reshape_flat {A : Type} (n m : Z) (flat : list A) : result (list (list A)) :=
  if ((0 <=? n) && (0 <=? m) && (Z.of_nat (length flat) =? n * m))%Z
  then Ok (chunks (Z.to_nat n) (Z.to_nat m) flat)
  else Raise ValueError.

Definition reshape2 {A : Type} (n m : Z) (a : list (list (list A))) : result (list (list A)) :=
  reshape_flat n m (concat (concat a)).

(** numpy index normalisation: [-len <= k < 0] counts from the end. *)
Definition norm_index (len : nat) (k : Z) : result nat :=
  if ((0 <=? k) && (k <? Z.of_nat len))%Z then Ok (Z.to_nat k)
  else if ((- Z.of_nat len <=? k) && (k <? 0))%Z then Ok (Z.to_nat (k + Z.of_nat len))
  else Raise IndexError.

(** [a[k]] along the first axis. *)
Definition getitem {A : Type} (a : list A) (k : Z) : result A :=
  i ← norm_index (length a) k;
  match a !! i with
  | Some x => Ok x
  | None => Raise IndexError
  end.

(** [a[I]] for an integer index array [I]: a gather along the first axis. *)
Fixpoint take_rows {A : Type} (a : list A) (I : list Z) : result (list A) :=
  match I with
  | [] => Ok []
  | k :: I' =>
      x ← getitem a k;
      xs ← take_rows a I';
      Ok (x :: xs)
  end.

(** The slice [l[:n]]. *)
Definition slice_to {A : Type} (n : Z) (l : list A) : list A :=
  if (0 <=? n)%Z then firstn (Z.to_nat n) l
  else firstn (length l - Z.to_nat (- n)) l.

(** [a == b] and [a != b] on one-dimensional integer arrays. *)
Definition eq_elementwise (a b : list Z) : result (list bool) :=
  if (length a =? length b)%nat then Ok (zip_with Z.eqb a b) else Raise ValueError.

Definition ne_elementwise (a b : list Z) : result (list bool) :=
  if (length a =? length b)%nat
  then Ok (zip_with (fun x y => negb (Z.eqb x y)) a b)
  else Raise ValueError.

(** [np.where(b)[0]]: the positions of the true entries, in order. *)
Fixpoint where_from (i : Z) (b : list bool) : list Z :=
  match b with
  | [] => []
  | x :: b' => if x then i :: where_from (i + 1) b' else where_from (i + 1) b'
  end.

Definition np_where (b : list bool) : list Z := where_from 0 b.

(** [np.mean] of a boolean array: the entries are added up as float64 and
    the sum is divided by the number of entries. *)
Definition np_sum_bool (b : list bool) : float :=
  fold_left (fun acc x => (acc + (if x : bool then 1 else 0))%float) b 0%float.

Definition np_mean_bool (b : list bool) : float :=
  (np_sum_bool b / float_of_nat (length b))%float.

(** How many positions of two label arrays agree. *)
Fixpoint count_true (b : list bool) : nat :=
  match b with
  | [] => 0
  | x :: b' => (if x then 1 else 0) + count_true b'
  end.


(** How many positions of two label arrays differ. *)
Definition n_errors (a b : list Z) : nat :=
  count_true (zip_with (fun x y => negb (Z.eqb x y)) a b).

(** [np.sum(C,1)]: one sum per row. *)
Definition np_sum_axis1 (C : list (list Z)) : list Z :=
  map (fun row => fold_right Z.add 0%Z row) C.

(** One row of [C / Csum[None,:]]: numpy broadcasts the [1 x k] array
    [Csum[None,:]] against the row. *)
Definition divide_row (row Csum : list Z) : result (list float) :=
  if (length row =? length Csum)%nat
  then Ok (zip_with (fun c s => (float_of_Z c / float_of_Z s)%float) row Csum)
  else match row, Csum with
       | [c], _ => Ok (map (fun s => (float_of_Z c / float_of_Z s)%float) Csum)
       | _, [s] => Ok (map (fun c => (float_of_Z c / float_of_Z s)%float) row)
       | _, _ => Raise ValueError
       end.

Fixpoint divide_by_row (C : list (list Z)) (Csum : list Z) : result (list (list float)) :=
  match C with
  | [] => Ok []
  | row :: C' =>
      r ← divide_row row Csum;
      rs ← divide_by_row C' Csum;
      Ok (r :: rs)
  end.

Definition row_total (r : list float) : float :=
  fold_left PrimFloat.add r 0%float.

(** ** Dataset invariants of the specification *)

(** An [n x nrow x ncol] array. *)
Definition shape3 {A : Type} (n nrow ncol : nat) (a : list (list (list A))) : Prop :=
  length a = n /\
  Forall (fun img => length img = nrow /\ Forall (fun row => length row = ncol) img) a.

(** An [n x npix] array. *)
Definition shape2 {A : Type} (n npix : nat) (X : list (list A)) : Prop :=
  length X = n /\ Forall (fun r => length r = npix) X.

Definition pixels_ok (a : list (list (list Z))) : Prop :=
  Forall (Forall (Forall (fun p => (0 <= p <= 255)%Z))) a.

Definition labels_ok (y : list Z) : Prop :=
  Forall (fun l => (0 <= l <= 9)%Z) y.

(** The two invariants together, for [n] samples of [npix] entries and
    their labels. *)
Definition dataset_ok (n npix : nat) (X : list (list float)) (y : list Z) : Prop :=
  shape2 n npix X /\ length y = n /\ labels_ok y.

(** Rows and labels drawn through one index array: position [i] of the
    sub-sample holds row [I[i]] of [X] and label [I[i]] of [y], for every
    position [i < n] the index array has. *)
Definition aligned (n : Z) (X : list (list float)) (y I : list Z)
    (X1 : list (list float)) (y1 : list Z) : Prop :=
  forall i : nat, (Z.of_nat i < n)%Z -> i < length I ->
    exists (k : nat) (x : list float) (l : Z),
      I !! i = Some (Z.of_nat k) /\ X !! k = Some x /\ y !! k = Some l /\
      X1 !! i = Some x /\ y1 !! i = Some l.

(** The classifiers the notebook constructs, with the constructor arguments
    it passes. *)
Inductive kernel : Type := Linear | Rbf.

Inductive estimator : Type :=
| LogisticRegression
| SVC (k : kernel).

(** ** Exhaustive float checks

    The notebook's floating-point operations act on small integers (pixel
    values, counts of at most 5000 test samples); over these finite ranges
    their IEEE results are checked by evaluation. *)

Definition px_check (p : Z) : bool :=
  PrimFloat.leb (-1)%float (rescale_px p) &&
  PrimFloat.leb (rescale_px p) 1%float &&
  Bool.eqb (PrimFloat.eqb (rescale_px p) (-1)%float) (p =? 0)%Z &&
  Bool.eqb (PrimFloat.eqb (rescale_px p) 1%float) (p =? 255)%Z.






(** The integers [z], [z + 1], ..., [n] of them. *)
Fixpoint zrange (z : Z) (n : nat) : list Z :=
  match n with
  | O => []
  | S n' => z :: zrange (z + 1) n'
  end.

(** ** The notebook *)

Section Notebook.

(** Fitted models are owned by scikit-learn; [fit] and [predict] are the two
    opaque capabilities of the specification. *)
Variable model : Type.
Variable fit : estimator -> list (list float) -> list Z -> model.
Variable predict : model -> list (list float) -> list Z.
Variable confusion_matrix : list Z -> list Z -> list (list Z).

(** [tf.keras.datasets.mnist.load_data()]: [((Xtr,ytr),(Xts,yts))]. *)
Variable load_data :
  (list (list (list Z)) * list Z) * (list (list (list Z)) * list Z).

(** [np.random.permutation n], threading the generator's state. *)
Variable generator : Type.
Variable permutation : nat -> generator -> list nat * generator.

(** The Python objects the modelled cells bind. *)
Inductive obj : Type :=
| PyInt (n : Z)
| PyFloat (x : float)
| U8Array3 (a : list (list (list Z)))
| F64Array3 (a : list (list (list float)))
| F64Array2 (a : list (list float))
| IntArray2 (a : list (list Z))
| IntArray1 (a : list Z)
| Estimator (e : estimator)
| Fitted (e : estimator) (m : model)
| PyModule (name : string)
| PyFile (path mode : string).

(** File contents, and pickle's codec on the lists the notebook dumps:
    [pickle_loads] returns the pickled list, or raises what the library
    raises on a file it cannot read ([EOFError] on an empty file,
    [UnpicklingError] on foreign contents). *)
Variable bytes : Type.
Variable no_bytes : bytes.
Variable pickle_dumps : list obj -> bytes.
Variable pickle_loads : bytes -> result (list obj).

(** The notebook's state: the kernel's namespace, the files of the working
    directory, the random generator, and two logs of what was handed to the
    external libraries (training data to [fit], images to [imshow]). *)
Record state : Type := mkState {
  env : gmap string obj;
  fs : gmap string bytes;
  rng : generator;
  fit_calls : list (estimator * list (list float) * list Z);
  shown : list (list (list float))
}.

Definition upd_env (f : gmap string obj -> gmap string obj) (s : state) : state :=
  mkState (f (env s)) (fs s) (rng s) (fit_calls s) (shown s).

Definition upd_fs (f : gmap string bytes -> gmap string bytes) (s : state) : state :=
  mkState (env s) (f (fs s)) (rng s) (fit_calls s) (shown s).

(** A cell either finishes or stops at the first exception; what it had
    already bound or written stays. *)
Definition nb (A : Type) : Type := state -> result A * state.

Definition nb_ret {A : Type} (a : A) : nb A := fun s => (Ok a, s).

Definition nb_bind {A B : Type} (m : nb A) (k : A -> nb B) : nb B :=
  fun s =>
    match m s with
    | (Ok a, s') => k a s'
    | (Raise e, s') => (Raise e, s')
    end.

#[local] Instance nb_mret : MRet nb := @nb_ret.
#[local] Instance nb_mbind : MBind nb := fun A B k m => nb_bind m k.

Definition raise {A : Type} (e : exn) : nb A := fun s => (Raise e, s).

Definition lift {A : Type} (r : result A) : nb A := fun s => (r, s).

(** Reading and binding a name. *)
Definition lookup_name (x : string) : nb obj :=
  fun s =>
    match env s !! x with
    | Some v => (Ok v, s)
    | None => (Raise NameError, s)
    end.

Definition assign (x : string) (v : obj) : nb unit :=
  fun s => (Ok tt, upd_env (<[x := v]>) s).

Definition as_int (o : obj) : result Z :=
  match o with PyInt n => Ok n | _ => Raise TypeError end.

Definition as_u8_3 (o : obj) : result (list (list (list Z))) :=
  match o with U8Array3 a => Ok a | _ => Raise TypeError end.

Definition as_f64_3 (o : obj) : result (list (list (list float))) :=
  match o with F64Array3 a => Ok a | _ => Raise TypeError end.

Definition as_f64_2 (o : obj) : result (list (list float)) :=
  match o with F64Array2 a => Ok a | _ => Raise TypeError end.

Definition as_int2 (o : obj) : result (list (list Z)) :=
  match o with IntArray2 a => Ok a | _ => Raise TypeError end.

Definition as_int1 (o : obj) : result (list Z) :=
  match o with IntArray1 a => Ok a | _ => Raise TypeError end.

Definition get_int (x : string) : nb Z := o ← lookup_name x; lift (as_int o).
Definition get_u8_3 (x : string) : nb (list (list (list Z))) := o ← lookup_name x; lift (as_u8_3 o).
Definition get_f64_3 (x : string) : nb (list (list (list float))) := o ← lookup_name x; lift (as_f64_3 o).
Definition get_f64_2 (x : string) : nb (list (list float)) := o ← lookup_name x; lift (as_f64_2 o).
Definition get_int2 (x : string) : nb (list (list Z)) := o ← lookup_name x; lift (as_int2 o).
Definition get_int1 (x : string) : nb (list Z) := o ← lookup_name x; lift (as_int1 o).

(** [X[I,:]]: rows of an array with at least two axes. *)
Definition getitem_rows (o : obj) (I : list Z) : result obj :=
  match o with
  | U8Array3 a => a' ← take_rows a I; Ok (U8Array3 a')
  | F64Array3 a => a' ← take_rows a I; Ok (F64Array3 a')
  | F64Array2 a => a' ← take_rows a I; Ok (F64Array2 a')
  | IntArray2 a => a' ← take_rows a I; Ok (IntArray2 a')
  | IntArray1 _ => Raise IndexError
  | _ => Raise TypeError
  end.

(** [y[I]]: a gather along the first axis of any array. *)
Definition getitem_index (o : obj) (I : list Z) : result obj :=
  match o with
  | IntArray1 a => a' ← take_rows a I; Ok (IntArray1 a')
  | PyInt _ | PyFloat _ | Estimator _ | Fitted _ _ => Raise TypeError
  | _ => getitem_rows o I
  end.

(** [X[ind,:]] on a two-dimensional float array. *)
Definition getitem_row (o : obj) (ind : Z) : result (list float) :=
  X ← as_f64_2 o; getitem X ind.

(** [ax.imshow(img)], and [plt_digit(ax, x)]: reshape to 28 x 28 and show. *)
Definition imshow (img : list (list float)) : nb unit :=
  fun s => (Ok tt, mkState (env s) (fs s) (rng s) (fit_calls s) (shown s ++ [img])).

Definition plt_digit (x : list float) : nb unit :=
  xsq ← lift (reshape_flat 28 28 x);
  imshow xsq.

(** [range(n)] and the [for i in range(n)] loop, which binds [i]. *)
Definition range (n : Z) : list Z := map Z.of_nat (seq 0 (Z.to_nat n)).

Fixpoint for_each (l : list Z) (body : Z -> nb unit) : nb unit :=
  match l with
  | [] => mret tt
  | i :: l' => assign "i" (PyInt i);; body i;; for_each l' body
  end.

(** [np.random.permutation(n)]. *)
Definition random_permutation (n : Z) : nb (list Z) :=
  fun s =>
    let '(p, g) := permutation (Z.to_nat n) (rng s) in
    (Ok (map Z.of_nat p), mkState (env s) (fs s) g (fit_calls s) (shown s)).

(** [est.fit(X, y)]: the estimator object becomes a fitted one. *)
Definition estimator_of (o : obj) : result estimator :=
  match o with
  | Estimator e => Ok e
  | Fitted e _ => Ok e
  | _ => Raise AttributeError
  end.

Definition log_fit (e : estimator) (X : list (list float)) (y : list Z) : nb unit :=
  fun s => (Ok tt, mkState (env s) (fs s) (rng s) (fit_calls s ++ [(e, X, y)]) (shown s)).

Definition call_fit (est xn yn : string) : nb unit :=
  o ← lookup_name est;
  e ← lift (estimator_of o);
  X ← get_f64_2 xn;
  y ← get_int1 yn;
  log_fit e X y;;
  assign est (Fitted e (fit e X y)).

(** [est.predict(X)]. *)
Definition call_predict (est xn : string) : nb (list Z) :=
  o ← lookup_name est;
  _ ← lift (estimator_of o);
  Xo ← lookup_name xn;
  match o with
  | Fitted _ m => X ← lift (as_f64_2 Xo); mret (predict m X)
  | _ => raise NotFittedError
  end.

(** [import pickle], and the attribute references [pickle.dump] and
    [pickle.load]: the name must be bound, and to the module. *)
Definition import_pickle : nb unit := assign "pickle" (PyModule "pickle").

Definition pickle_attr : nb unit :=
  o ← lookup_name "pickle";
  match o with
  | PyModule name => if String.eqb name "pickle" then mret tt else raise AttributeError
  | _ => raise AttributeError
  end.

(** [with open(f, "wb") as fp: pickle.dump([x1, ..., xn], fp)]: opening
    truncates the file and [fp] is bound to the file object; then
    [pickle.dump] is looked up, the list is built, and it is written to the
    file [fp] refers to. *)
Fixpoint lookup_all (names : list string) : nb (list obj) :=
  match names with
  | [] => mret []
  | x :: ns => o ← lookup_name x; os ← lookup_all ns; mret (o :: os)
  end.

Definition open_wb (f : string) : nb unit :=
  fun s => (Ok tt, upd_fs (<[f := no_bytes]>) s).

Definition write_file (f : string) (b : bytes) : nb unit :=
  fun s => (Ok tt, upd_fs (<[f := b]>) s).

Definition pickle_dump (f : string) (names : list string) : nb unit :=
  open_wb f;;
  assign "fp" (PyFile f "wb");;
  pickle_attr;;
  os ← lookup_all names;
  fp ← lookup_name "fp";
  match fp with
  | PyFile path _ => write_file path (pickle_dumps os)
  | _ => raise TypeError
  end.

(** [with open(f, "rb") as fp: x1, ..., xn = pickle.load(fp)]: the file is
    opened and [fp] bound; then [pickle.load] is looked up and called on
    [fp]; the names are bound only after the loaded list was unpacked into
    exactly [n] values. *)
Definition open_rb (f : string) : nb bytes :=
  fun s =>
    match fs s !! f with
    | Some b => (Ok b, s)
    | None => (Raise FileNotFoundError, s)
    end.

Fixpoint assign_all (names : list string) (vs : list obj) : nb unit :=
  match names, vs with
  | x :: ns, v :: vs' => assign x v;; assign_all ns vs'
  | _, _ => mret tt
  end.

Definition pickle_load (f : string) (names : list string) : nb unit :=
  b ← open_rb f;
  assign "fp" (PyFile f "rb");;
  pickle_attr;;
  _ ← lookup_name "fp";
  match pickle_loads b with
  | Raise e => raise e
  | Ok vs =>
      if (length names =? length vs)%nat then assign_all names vs
      else raise ValueError
  end.

(** [acc = np.mean(a == b)]. *)
Definition accuracy (yhat yts1 : list Z) : result float :=
  eqs ← eq_elementwise yhat yts1; Ok (np_mean_bool eqs).

Definition assign_accuracy (a b : string) : nb unit :=
  yhat ← get_int1 a;
  yts1 ← get_int1 b;
  acc ← lift (accuracy yhat yts1);
  assign "acc" (PyFloat acc).

(** [Xs = X[I[:n],:]; ys = y[I[:n]]]. *)
Definition subsample (Xs ys X y I n : string) : nb unit :=
  Xo ← lookup_name X;
  Io ← get_int1 I;
  k ← get_int n;
  X1 ← lift (getitem_rows Xo (slice_to k Io));
  assign Xs X1;;
  yo ← lookup_name y;
  Io ← get_int1 I;
  k ← get_int n;
  y1 ← lift (getitem_index yo (slice_to k Io));
  assign ys y1.

(** The error plots of cells 19 and 61: the body of the loop, which reads
    [Ierr[i]] and then the image and the two labels at that position, and
    the loop itself. *)
Definition plot_error (yhat : string) (i : Z) : nb unit :=
  Ierr ← get_int1 "Ierr";
  ind ← lift (getitem Ierr i);
  assign "ind" (PyInt ind);;
  Xts1 ← lookup_name "Xts1";
  ind ← get_int "ind";
  x ← lift (getitem_row Xts1 ind);
  plt_digit x;;
  yts1 ← get_int1 "yts1";
  _ ← lift (getitem yts1 ind);
  yh ← get_int1 yhat;
  _ ← lift (getitem yh ind);
  mret tt.

Definition plot_errors (yhat : string) : nb unit :=
  nplt ← get_int "nplt";
  for_each (range nplt) (plot_error yhat).

(** *** The cells, numbered as in the notebook file *)

Definition cell4 : nb unit :=
  let '((Xtr, ytr), (Xts, yts)) := load_data in
  assign "Xtr" (U8Array3 Xtr);;
  assign "ytr" (IntArray1 ytr);;
  assign "Xts" (U8Array3 Xts);;
  assign "yts" (IntArray1 yts);;
  assign "ntr" (PyInt (Z.of_nat (length Xtr)));;
  assign "nts" (PyInt (Z.of_nat (length Xts)));;
  assign "nrow" (PyInt (Z.of_nat (length (hd [] Xtr))));;
  assign "ncol" (PyInt (Z.of_nat (length (hd [] (hd [] Xtr))))).

Definition cell6 : nb unit :=
  nrow ← get_int "nrow";
  ncol ← get_int "ncol";
  assign "npix" (PyInt (nrow * ncol));;
  X ← get_u8_3 "Xtr";
  assign "Xtr" (F64Array3 (rescale X));;
  X ← get_f64_3 "Xtr";
  ntr ← get_int "ntr";
  npix ← get_int "npix";
  X2 ← lift (reshape2 ntr npix X);
  assign "Xtr" (F64Array2 X2);;
  X ← get_u8_3 "Xts";
  assign "Xts" (F64Array3 (rescale X));;
  X ← get_f64_3 "Xts";
  nts ← get_int "nts";
  npix ← get_int "npix";
  X2 ← lift (reshape2 nts npix X);
  assign "Xts" (F64Array2 X2).

Definition cell7 : nb unit :=
  assign "nplt" (PyInt 8);;
  ntr ← get_int "ntr";
  p ← random_permutation ntr;
  assign "Iperm" (IntArray1 p);;
  nplt ← get_int "nplt";
  for_each (range nplt) (fun i =>
    Iperm ← get_int1 "Iperm";
    ind ← lift (getitem Iperm i);
    assign "ind" (PyInt ind);;
    Xtr ← lookup_name "Xtr";
    ind ← get_int "ind";
    x ← lift (getitem_row Xtr ind);
    plt_digit x).

Definition cell9 : nb unit :=
  assign "ntr1" (PyInt 5000);;
  subsample "Xtr1" "ytr1" "Xtr" "ytr" "Iperm" "ntr1".

Definition cell11 : nb unit :=
  assign "logreg" (Estimator LogisticRegression);;
  call_fit "logreg" "Xtr1" "ytr1".

Definition cell13 : nb unit :=
  import_pickle;;
  pickle_dump "mnist_logreg.p" ["logreg"; "Xtr1"; "ytr1"; "Iperm"].

Definition cell15 : nb unit :=
  pickle_load "mnist_logreg.p" ["logreg"; "Xtr1"; "ytr1"; "Iperm"].

Definition cell17 : nb unit :=
  assign "nts1" (PyInt 5000);;
  nts ← get_int "nts";
  p ← random_permutation nts;
  assign "Iperm_ts" (IntArray1 p);;
  subsample "Xts1" "yts1" "Xts" "yts" "Iperm_ts" "nts1";;
  yhat ← call_predict "logreg" "Xts1";
  assign "yhat" (IntArray1 yhat);;
  assign_accuracy "yhat" "yts1".

Definition cell19 : nb unit :=
  assign "nplt" (PyInt 4);;
  yts1 ← get_int1 "yts1";
  yhat ← get_int1 "yhat";
  ne ← lift (ne_elementwise yts1 yhat);
  assign "Ierr" (IntArray1 (np_where ne));;
  plot_errors "yhat".

Definition cell21 : nb unit :=
  yts1 ← get_int1 "yts1";
  yhat ← get_int1 "yhat";
  assign "C" (IntArray2 (confusion_matrix yts1 yhat));;
  C ← get_int2 "C";
  assign "Csum" (IntArray1 (np_sum_axis1 C));;
  C ← get_int2 "C";
  Csum ← get_int1 "Csum";
  Cn ← lift (divide_by_row C Csum);
  assign "C" (F64Array2 Cn);;
  imshow Cn.

Definition cell31 : nb unit :=
  assign "svc" (Estimator (SVC Linear)).

Definition cell34 : nb unit :=
  assign "ntr1" (PyInt 5000);;
  assign "nts1" (PyInt 5000);;
  subsample "Xtr1" "ytr1" "Xtr" "ytr" "Iperm" "ntr1";;
  subsample "Xts1" "yts1" "Xts" "yts" "Iperm_ts" "nts1".

Definition cell35 : nb unit :=
  call_fit "svc" "Xtr" "ytr".

Definition cell37 : nb unit :=
  import_pickle;;
  pickle_dump "mnist_svc.p" ["svc"; "Xtr1"; "ytr1"].

Definition cell39 : nb unit :=
  import_pickle;;
  pickle_load "mnist_svc.p" ["svc"; "Xtr1"; "ytr1"].

Definition cell41 : nb unit :=
  yhat ← call_predict "svc" "Xts1";
  assign "yhat_ts" (IntArray1 yhat).

Definition cell43 : nb unit :=
  pickle_dump "mnist_svc_test.p" ["Xts1"; "yts1"; "yhat_ts"].

Definition cell44 : nb unit :=
  pickle_load "mnist_svc_test.p" ["Xts1"; "yts1"; "yhat_ts"].


Definition cell53 : nb unit :=
  assign "svcrbf" (Estimator (SVC Rbf)).

Definition cell54 : nb unit :=
  call_fit "svcrbf" "Xtr1" "ytr1";;
  import_pickle;;
  pickle_dump "mnist_svcrbf.p" ["svcrbf"; "Xtr1"; "ytr1"].

Definition cell55 : nb unit :=
  import_pickle;;
  pickle_load "mnist_svcrbf.p" ["svcrbf"; "Xtr1"; "ytr1"].

Definition cell57 : nb unit :=
  yhat ← call_predict "svcrbf" "Xts1";
  assign "yhat_ts" (IntArray1 yhat);;
  pickle_dump "mnist_svcrbf_test.p" ["yhat_ts"; "yts1"; "Xts1"].

Definition cell58 : nb unit :=
  pickle_load "mnist_svcrbf_test.p" ["yhat_ts"; "yts1"; "Xts1"].


Definition cell61 : nb unit :=
  yhat_ts ← get_int1 "yhat_ts";
  yts1 ← get_int1 "yts1";
  ne ← lift (ne_elementwise yhat_ts yts1);
  assign "Ierr" (IntArray1 (np_where ne));;
  assign "nplt" (PyInt 4);;
  plot_errors "yhat_ts".

(** *** The cells that draw weights, digit selections and support vectors *)

(** The attributes of a fitted model the drawing cells read; an object that
    is not a fitted estimator has neither. *)
Variable coef_ : model -> list (list float).
Variable support_vectors_ : model -> list (list float).

Definition get_fitted_attr (attr : model -> list (list float)) (x : string) :
    nb (list (list float)) :=
  o ← lookup_name x;
  match o with
  | Fitted _ m => mret (attr m)
  | _ => raise AttributeError
  end.

(** The body of the loops of cells 7, 50 and 66: [ind = I[i]] and then
    [plt_digit(ax[i], X[ind,:])]. *)
Definition plot_row (In Xn : string) (i : Z) : nb unit :=
  I ← get_int1 In;
  ind ← lift (getitem I i);
  assign "ind" (PyInt ind);;
  X ← lookup_name Xn;
  ind ← get_int "ind";
  x ← lift (getitem_row X ind);
  plt_digit x.

(** [ax[irow,icol]] on the [nrows x ncols] grid of axes that
    [plt.subplots(nrows,ncols)] returns. *)
Definition axes_item (nrows ncols : nat) (irow icol : Z) : result (nat * nat) :=
  r ← norm_index nrows irow;
  c ← norm_index ncols icol;
  Ok (r, c).

(** The body of the loop of cell 23: [irow = i // 5; icol = i % 5] and then
    [plt_digit(ax[irow,icol], W[i,:])]. *)
Definition plot_weight (i : Z) : nb unit :=
  assign "irow" (PyInt (i / 5));;
  assign "icol" (PyInt (i mod 5));;
  irow ← get_int "irow";
  icol ← get_int "icol";
  _ ← lift (axes_item 2 5 irow icol);
  W ← lookup_name "W";
  x ← lift (getitem_row W i);
  plt_digit x.

Definition cell23 : nb unit :=
  W ← get_fitted_attr coef_ "logreg";
  assign "W" (F64Array2 W);;
  W ← get_f64_2 "W";
  assign "ndigit" (PyInt (Z.of_nat (length W)));;
  ndigit ← get_int "ndigit";
  for_each (range ndigit) plot_weight.

(** [a == c] and [a != c] for an integer array and a scalar. *)
Definition eq_scalar (a : list Z) (c : Z) : list bool := map (fun x => Z.eqb x c) a.

Definition ne_scalar (a : list Z) (c : Z) : list bool :=
  map (fun x => negb (Z.eqb x c)) a.

(** [n = len(x); x = x[np.random.permutation(n)]]. *)
Definition shuffle (x : string) : nb unit :=
  a ← get_int1 x;
  assign "n" (PyInt (Z.of_nat (length a)));;
  a ← lookup_name x;
  n ← get_int "n";
  p ← random_permutation n;
  a' ← lift (getitem_index a p);
  assign x a'.

(** The first seven statements of cell 26, which select and shuffle the
    positions of the digit 2 and of the other digits.  (The rest of the cell
    computes correlations with [np.sum] and [dot] and draws them.) *)
Definition cell26_select : nb unit :=
  assign "idig" (PyInt 2);;
  ytr ← get_int1 "ytr";
  idig ← get_int "idig";
  assign "Idig" (IntArray1 (np_where (eq_scalar ytr idig)));;
  ytr ← get_int1 "ytr";
  idig ← get_int "idig";
  assign "Inodig" (IntArray1 (np_where (ne_scalar ytr idig)));;
  shuffle "Idig";;
  shuffle "Inodig".

Definition cell48 : nb unit :=
  sv ← get_fitted_attr support_vectors_ "svc";
  assign "S" (F64Array2 sv).

(** Cells 50 and 66 have the same text. *)
Definition plot_support_vectors : nb unit :=
  assign "nplt" (PyInt 4);;
  sv ← get_f64_2 "S";
  assign "nsv" (PyInt (Z.of_nat (length sv)));;
  nsv ← get_int "nsv";
  p ← random_permutation nsv;
  assign "Iperms" (IntArray1 p);;
  nplt ← get_int "nplt";
  for_each (range nplt) (plot_row "Iperms" "S").

Definition cell50 : nb unit := plot_support_vectors.

Definition cell64 : nb unit :=
  sv ← get_fitted_attr support_vectors_ "svcrbf";
  assign "S" (F64Array2 sv).

Definition cell66 : nb unit := plot_support_vectors.

(** *** Predicates and states the statements below are written with *)

(** The namespace after cell 6, cell 17 and a fit. *)
Definition after_cell6 (A B : list (list (list Z))) (nrow ncol : nat)
    (e : gmap string obj) : gmap string obj :=
  <["Xts" := F64Array2 (map (fun img => map rescale_px (concat img)) B)]>
    (<["Xts" := F64Array3 (rescale B)]>
      (<["Xtr" := F64Array2 (map (fun img => map rescale_px (concat img)) A)]>
        (<["Xtr" := F64Array3 (rescale A)]>
          (<["npix" := PyInt (Z.of_nat nrow * Z.of_nat ncol)]> e)))).

Definition after_cell17 (I : list Z) (X1 : list (list float)) (y1 yhat : list Z)
    (e : gmap string obj) : gmap string obj :=
  <["acc" := PyFloat (np_mean_bool (zip_with Z.eqb yhat y1))]>
    (<["yhat" := IntArray1 yhat]>
      (<["yts1" := IntArray1 y1]>
        (<["Xts1" := F64Array2 X1]>
          (<["Iperm_ts" := IntArray1 I]>
            (<["nts1" := PyInt 5000]> e))))).

(** The names [names] are bound to the values [vs], in order. *)
Definition bound (names : list string) (vs : list obj) (s : state) : Prop :=
  Forall2 (fun x v => env s !! x = Some v) names vs.

(** Loading after dumping.  Once the dump cell has finished, the file holds
    the pickle of the values [vs] the names are bound to, and [pickle] is
    imported.  The load cell, run right away or at any later point of a
    session that still has the file and the import (whatever the names are
    bound to by then), finishes and binds the names to [vs], in order; it
    rebinds [fp] and changes nothing else. *)
Definition restores (dump load : nb unit) (f : string) (names : list string) : Prop :=
  forall s s1 : state,
    dump s = (Ok tt, s1) ->
    exists vs : list obj,
      bound names vs s1 /\
      fs s1 !! f = Some (pickle_dumps vs) /\
      env s1 !! "pickle" = Some (PyModule "pickle") /\
      forall s2 : state,
        fs s2 !! f = fs s1 !! f ->
        env s2 !! "pickle" = Some (PyModule "pickle") ->
        exists s3 : state,
          load s2 = (Ok tt, s3) /\
          bound names vs s3 /\
          (forall x : string, x ∉ "fp" :: names -> env s3 !! x = env s2 !! x) /\
          fs s3 = fs s2 /\ rng s3 = rng s2 /\ fit_calls s3 = fit_calls s2 /\
          shown s3 = shown s2.

(** The state a finished dump of the values [vs] leaves of [s]. *)
Definition after_dump (f : string) (vs : list obj) (s : state) : state :=
  mkState (<["fp" := PyFile f "wb"]> (env s)) (<[f := pickle_dumps vs]> (fs s))
    (rng s) (fit_calls s) (shown s).






Definition after_fit (est : string) (e : estimator) (X : list (list float)) (y : list Z)
    (s : state) : state :=
  mkState (<[est := Fitted e (fit e X y)]> (env s)) (fs s) (rng s)
    (fit_calls s ++ [(e, X, y)]) (shown s).

(** A classifier object, fitted or not, and a list holding one. *)
Definition is_classifier (o : obj) : bool :=
  match o with
  | Estimator _ | Fitted _ _ => true
  | _ => false
  end.

Definition has_classifier (vs : list obj) : bool := existsb is_classifier vs.

(** The cell finishes and leaves the pickled list [vs] in file [f]. *)
Definition writes (c : nb unit) (s : state) (f : string) (vs : list obj) : Prop :=
  exists s1 : state, c s = (Ok tt, s1) /\ fs s1 !! f = Some (pickle_dumps vs).

(** The reading of the specification: whatever a dumping cell writes
    includes a classifier. *)
Definition dumps_a_classifier (c : nb unit) (f : string) : Prop :=
  forall s s1 : state,
    c s = (Ok tt, s1) ->
    exists vs : list obj, fs s1 !! f = Some (pickle_dumps vs) /\ has_classifier vs = true.

(** The names the loop reads; it binds only [i] and [ind]. *)
Definition plot_ready (yhat : string) (Ie : list Z) (X : list (list float))
    (t p : list Z) (s : state) : Prop :=
  env s !! "Ierr" = Some (IntArray1 Ie) /\
  env s !! "Xts1" = Some (F64Array2 X) /\
  env s !! "yts1" = Some (IntArray1 t) /\
  env s !! yhat = Some (IntArray1 p).

(** True division of two integer entries. *)
Definition fdiv (c s : Z) : float := (float_of_Z c / float_of_Z s)%float.

(** A count divided by a row sum of zero: not a number for the count 0,
    plus infinity for a positive count. *)
Definition zero_sum_ok (c : Z) : bool :=
  if (c =? 0)%Z then PrimFloat.is_nan (fdiv c 0)
  else PrimFloat.eqb (fdiv c 0) PrimFloat.infinity.

(** Writing a snapshot and reading it back keeps the sample array [Xn] and
    the label array [yn] within the invariants. *)
Definition roundtrip_keeps (dump load : nb unit) (Xn yn : string) : Prop :=
  forall (s s1 : state) (n npix : nat) (X : list (list float)) (y : list Z),
    dump s = (Ok tt, s1) ->
    env s !! Xn = Some (F64Array2 X) ->
    env s !! yn = Some (IntArray1 y) ->
    dataset_ok n npix X y ->
    exists (s2 : state) (X' : list (list float)) (y' : list Z),
      load s1 = (Ok tt, s2) /\
      env s2 !! Xn = Some (F64Array2 X') /\
      env s2 !! yn = Some (IntArray1 y') /\
      dataset_ok n npix X' y'.

(** What a drawing loop leaves of the state [s0]: it binds the names [Ns]
    only, touches neither the files, the generator nor the fits, and adds
    the images [imgs] to what was shown. *)
Definition drew (Ns : list string) (imgs : list (list (list float))) (s0 s : state) : Prop :=
  (forall x : string, x ∉ Ns -> env s !! x = env s0 !! x) /\
  fs s = fs s0 /\ rng s = rng s0 /\ fit_calls s = fit_calls s0 /\
  shown s = shown s0 ++ imgs.

(** The state after [j] iterations of a loop over [plot_row In Xn] that
    started in [s] and is to draw [imgs]. *)
Definition rows_after (In Xn : string) (I : list Z) (X : list (list float))
    (imgs : list (list (list float))) (s : state) (j : nat) (s1 : state) : Prop :=
  env s1 !! In = Some (IntArray1 I) /\ env s1 !! Xn = Some (F64Array2 X) /\
  drew ["i"; "ind"] (take j imgs) s s1.

(** Position [i] of [imgs] is row [ks[i]] of [X], reshaped to 28 x 28. *)
Definition rows_drawn (X : list (list float)) (ks : list nat)
    (imgs : list (list (list float))) : Prop :=
  Forall2 (fun k img => exists x, X !! k = Some x /\ img = chunks 28 28 x) ks imgs.

(** The sub-sample [X1], [y1] holds the rows and labels of [X], [y] at the
    positions [ks], and no position is drawn twice. *)
Definition drawn_from (X : list (list float)) (y : list Z) (ks : list nat)
    (X1 : list (list float)) (y1 : list Z) : Prop :=
  NoDup ks /\
  Forall2 (fun k x => X !! k = Some x) ks X1 /\
  Forall2 (fun k l => y !! k = Some l) ks y1.

(** A load cell that imports [pickle] itself, run in any kernel that has the
    file a dump cell wrote: the names are bound to the values they had when
    the dump was made; besides them only [pickle] and [fp] are bound. *)
Definition restores_anywhere (dump load : nb unit) (f : string) (names : list string) : Prop :=
  forall s s1 s2 : state,
    dump s = (Ok tt, s1) ->
    fs s2 !! f = fs s1 !! f ->
    exists s3 : state,
      load s2 = (Ok tt, s3) /\
      (forall x : string, x ∈ names -> env s3 !! x = env s1 !! x) /\
      (forall x : string, x ∉ "pickle" :: "fp" :: names -> env s3 !! x = env s2 !! x) /\
      env s3 !! "pickle" = Some (PyModule "pickle") /\
      fs s3 = fs s2 /\ rng s3 = rng s2 /\ fit_calls s3 = fit_calls s2 /\
      shown s3 = shown s2.

(** A load cell that does not import [pickle], run where the file exists
    and [pickle] is unbound: the file is opened, [fp] is bound, and the
    reference to [pickle] stops the cell with [NameError]. *)
Definition needs_pickle (load : nb unit) (f : string) : Prop :=
  forall s : state,
    is_Some (fs s !! f) -> env s !! "pickle" = None ->
    load s = (Raise NameError, upd_env (<["fp" := PyFile f "rb"]>) s).


(** *** What is assumed of the external libraries *)

(** What the notebook relies on from the external libraries: a random
    permutation of [range(n)] is a permutation of it, and [predict] returns
    one label per sample. *)
Hypothesis permutation_spec :
  forall (n : nat) (g : generator), Permutation (fst (permutation n g)) (seq 0 n).
Hypothesis predict_length :
  forall (m : model) (X : list (list float)), length (predict m X) = length X.

(** pickle returns the list it was given, and finds no pickle in an empty
    file. *)
Hypothesis pickle_roundtrip :
  forall vs : list obj, pickle_loads (pickle_dumps vs) = Ok vs.
Hypothesis pickle_empty : pickle_loads no_bytes = Raise EOFError.

(** ** Running the monad, one operation at a time *)

Lemma run_bind {A B : Type} (m : nb A) (k : A -> nb B) (s : state) :
  (m ≫= k) s =
  match m s with
  | (Ok a, s') => k a s'
  | (Raise e, s') => (Raise e, s')
  end.
Proof. reflexivity. Qed.

Lemma run_lookup {B : Type} (x : string) (v : obj) (k : obj -> nb B) (s : state) :
  env s !! x = Some v -> (lookup_name x ≫= k) s = k v s.
Proof. intros H. rewrite run_bind. unfold lookup_name. rewrite H. reflexivity. Qed.

Lemma run_assign {B : Type} (x : string) (v : obj) (k : unit -> nb B) (s : state) :
  (assign x v ≫= k) s = k tt (upd_env (<[x := v]>) s).
Proof. reflexivity. Qed.

Lemma run_lift {A B : Type} (a : A) (r : result A) (k : A -> nb B) (s : state) :
  r = Ok a -> (lift r ≫= k) s = k a s.
Proof. intros ->. reflexivity. Qed.

Lemma run_get_int {B : Type} (x : string) (n : Z) (k : Z -> nb B) (s : state) :
  env s !! x = Some (PyInt n) -> (get_int x ≫= k) s = k n s.
Proof. intros H. unfold get_int. rewrite !run_bind. unfold lookup_name. rewrite H. reflexivity. Qed.

Lemma run_get_int1 {B : Type} (x : string) (a : list Z) (k : list Z -> nb B) (s : state) :
  env s !! x = Some (IntArray1 a) -> (get_int1 x ≫= k) s = k a s.
Proof. intros H. unfold get_int1. rewrite !run_bind. unfold lookup_name. rewrite H. reflexivity. Qed.

Lemma run_get_int2 {B : Type} (x : string) (a : list (list Z)) (k : list (list Z) -> nb B) (s : state) :
  env s !! x = Some (IntArray2 a) -> (get_int2 x ≫= k) s = k a s.
Proof. intros H. unfold get_int2. rewrite !run_bind. unfold lookup_name. rewrite H. reflexivity. Qed.

Lemma run_get_u8_3 {B : Type} (x : string) (a : list (list (list Z)))
    (k : list (list (list Z)) -> nb B) (s : state) :
  env s !! x = Some (U8Array3 a) -> (get_u8_3 x ≫= k) s = k a s.
Proof. intros H. unfold get_u8_3. rewrite !run_bind. unfold lookup_name. rewrite H. reflexivity. Qed.

Lemma run_get_f64_3 {B : Type} (x : string) (a : list (list (list float)))
    (k : list (list (list float)) -> nb B) (s : state) :
  env s !! x = Some (F64Array3 a) -> (get_f64_3 x ≫= k) s = k a s.
Proof. intros H. unfold get_f64_3. rewrite !run_bind. unfold lookup_name. rewrite H. reflexivity. Qed.

Lemma run_get_f64_2 {B : Type} (x : string) (a : list (list float))
    (k : list (list float) -> nb B) (s : state) :
  env s !! x = Some (F64Array2 a) -> (get_f64_2 x ≫= k) s = k a s.
Proof. intros H. unfold get_f64_2. rewrite !run_bind. unfold lookup_name. rewrite H. reflexivity. Qed.

(** Looking a name up in a namespace built by assignments. *)
Ltac env_lookup :=
  cbn [env fs rng fit_calls shown upd_env upd_fs];
  repeat first [ rewrite lookup_insert_eq | rewrite lookup_insert_ne by done ];
  first [ reflexivity | eassumption ].

Ltac nb_step :=
  first
    [ rewrite run_assign
    | erewrite run_get_int by env_lookup
    | erewrite run_get_int1 by env_lookup
    | erewrite run_get_int2 by env_lookup
    | erewrite run_get_u8_3 by env_lookup
    | erewrite run_get_f64_3 by env_lookup
    | erewrite run_get_f64_2 by env_lookup
    | erewrite run_lookup by env_lookup
    | erewrite run_lift by (first [ eassumption | reflexivity ]) ].

(** ** Arrays *)

Lemma concat_concat_map {A : Type} (a : list (list (list A))) :
  concat (concat a) = concat (map (@concat A) a).
Proof.
  induction a as [|img a IH]; [reflexivity|].
  cbn [concat map]. rewrite concat_app, IH. reflexivity.
Qed.

Lemma chunks_concat {A : Type} (m : nat) (rows : list (list A)) :
  Forall (fun r => length r = m) rows ->
  chunks (length rows) m (concat rows) = rows.
Proof.
  induction 1 as [|r rows Hr _ IH]; [reflexivity|].
  cbn [length chunks concat].
  rewrite take_app_length', drop_app_length' by (symmetry; exact Hr).
  rewrite IH. reflexivity.
Qed.

Lemma chunks_shape {A : Type} (n m : nat) (flat : list A) :
  length flat = n * m -> shape2 n m (chunks n m flat).
Proof.
  revert flat. induction n as [|n IH]; intros flat H.
  - split; [reflexivity | constructor].
  - cbn [chunks]. destruct (IH (skipn m flat)) as [Hl Hf].
    { rewrite length_drop. lia. }
    split; [cbn [length]; congruence|].
    constructor; [|exact Hf]. rewrite length_take. lia.
Qed.

Lemma length_concat_rect {A : Type} (m : nat) (rows : list (list A)) :
  Forall (fun r => length r = m) rows -> length (concat rows) = length rows * m.
Proof.
  induction 1 as [|r rows Hr _ IH]; [reflexivity|].
  cbn [concat length]. rewrite length_app, IH, Hr. lia.
Qed.

Lemma reshape2_rect {A : Type} (n nrow ncol : nat) (a : list (list (list A))) :
  shape3 n nrow ncol a ->
  reshape2 (Z.of_nat n) (Z.of_nat nrow * Z.of_nat ncol) a = Ok (map (@concat A) a) /\
  shape2 n (nrow * ncol) (map (@concat A) a).
Proof.
  intros [Hn Ha].
  assert (Hrows : Forall (fun r => length r = nrow * ncol) (map (@concat A) a)).
  { apply Forall_map. eapply Forall_impl; [exact Ha|].
    intros img [Hi Hr]. cbn beta. rewrite (length_concat_rect ncol) by exact Hr. congruence. }
  split.
  - unfold reshape2, reshape_flat. rewrite concat_concat_map.
    rewrite (length_concat_rect (nrow * ncol)) by exact Hrows.
    rewrite length_map, Hn.
    replace ((0 <=? Z.of_nat n)%Z) with true by (symmetry; apply Z.leb_le; lia).
    replace ((0 <=? Z.of_nat nrow * Z.of_nat ncol)%Z) with true by (symmetry; apply Z.leb_le; lia).
    replace ((Z.of_nat (n * (nrow * ncol)) =? Z.of_nat n * (Z.of_nat nrow * Z.of_nat ncol))%Z)
      with true by (symmetry; apply Z.eqb_eq; lia).
    cbn [andb]. rewrite <- Nat2Z.inj_mul, !Nat2Z.id.
    rewrite <- Hn, <- (length_map (@concat A) a). rewrite chunks_concat by exact Hrows.
    reflexivity.
  - split; [rewrite length_map; exact Hn | exact Hrows].
Qed.

(** ** Cell 6: rescaling and flattening *)

Lemma px_table : forallb px_check (map Z.of_nat (seq 0 256)) = true.
Proof. vm_compute. reflexivity. Qed.

Lemma px_check_ok (p : Z) : (0 <= p <= 255)%Z -> px_check p = true.
Proof.
  intros Hp. pose proof px_table as H.
  rewrite forallb_forall in H. apply H.
  apply in_map_iff. exists (Z.to_nat p). split; [lia|].
  apply in_seq. lia.
Qed.

Lemma rescale_px_range (p : Z) : (0 <= p <= 255)%Z -> in_unit_range (rescale_px p).
Proof.
  intros Hp. apply px_check_ok in Hp. unfold px_check in Hp.
  rewrite !andb_true_iff in Hp. destruct Hp as [[[Hlo Hhi] _] _].
  split; [exact Hlo | exact Hhi].
Qed.

Lemma rescale_px_ends (p : Z) :
  (0 <= p <= 255)%Z ->
  (PrimFloat.eqb (rescale_px p) (-1)%float = true <-> p = 0%Z) /\
  (PrimFloat.eqb (rescale_px p) 1%float = true <-> p = 255%Z).
Proof.
  intros Hp. apply px_check_ok in Hp. unfold px_check in Hp.
  rewrite !andb_true_iff in Hp. destruct Hp as [[_ H0] H1].
  apply Bool.eqb_prop in H0, H1. rewrite H0, H1.
  split; [apply Z.eqb_eq | apply Z.eqb_eq].
Qed.

Lemma rescale_shape (n nrow ncol : nat) (a : list (list (list Z))) :
  shape3 n nrow ncol a -> shape3 n nrow ncol (rescale a).
Proof.
  intros [Hn Ha]. unfold rescale. split; [rewrite length_map; exact Hn|].
  apply Forall_map. eapply Forall_impl; [exact Ha|].
  intros img [Hi Hr]. cbn beta. split; [rewrite length_map; exact Hi|].
  apply Forall_map. eapply Forall_impl; [exact Hr|].
  intros row Hrow. cbn beta. rewrite length_map. exact Hrow.
Qed.

Lemma flatten_rescale (a : list (list (list Z))) :
  map (@concat float) (rescale a) = map (fun img => map rescale_px (concat img)) a.
Proof.
  unfold rescale. rewrite map_map. apply map_ext.
  intros img. symmetry. apply concat_map.
Qed.

Lemma flatten_rescale_range (a : list (list (list Z))) :
  pixels_ok a ->
  Forall (Forall in_unit_range) (map (fun img => map rescale_px (concat img)) a).
Proof.
  intros Ha. apply Forall_map. eapply Forall_impl; [exact Ha|].
  intros img Himg. cbn beta. apply Forall_map.
  apply Forall_concat in Himg.
  eapply Forall_impl; [exact Himg|]. intros p Hp. apply rescale_px_range. exact Hp.
Qed.

Lemma cell6_spec (s : state) (A B : list (list (list Z))) (n nt nrow ncol : nat) :
  env s !! "Xtr" = Some (U8Array3 A) ->
  env s !! "Xts" = Some (U8Array3 B) ->
  env s !! "ntr" = Some (PyInt (Z.of_nat n)) ->
  env s !! "nts" = Some (PyInt (Z.of_nat nt)) ->
  env s !! "nrow" = Some (PyInt (Z.of_nat nrow)) ->
  env s !! "ncol" = Some (PyInt (Z.of_nat ncol)) ->
  shape3 n nrow ncol A ->
  shape3 nt nrow ncol B ->
  cell6 s = (Ok tt, upd_env (after_cell6 A B nrow ncol) s).
Proof.
  intros HA HB Hn Hnt Hr Hc SA SB.
  destruct (reshape2_rect n nrow ncol (rescale A) (rescale_shape _ _ _ _ SA)) as [RA _].
  destruct (reshape2_rect nt nrow ncol (rescale B) (rescale_shape _ _ _ _ SB)) as [RB _].
  rewrite flatten_rescale in RA, RB.
  unfold cell6.
  repeat nb_step.
  unfold assign, after_cell6. reflexivity.
Qed.

(** C1.  Cell 6 on arrays of pixels in [0, 255]: the cell finishes, [Xtr]
    and [Xts] are bound to the flattened arrays of the rescaled pixels
    [2*(p/255 - 0.5)], every entry of both lies in [-1, 1], and a pixel is
    mapped to -1 exactly when it is 0 and to 1 exactly when it is 255. *)
Theorem rescaled_pixels_in_unit_range
    (s : state) (A B : list (list (list Z))) (n nt nrow ncol : nat) :
  env s !! "Xtr" = Some (U8Array3 A) ->
  env s !! "Xts" = Some (U8Array3 B) ->
  env s !! "ntr" = Some (PyInt (Z.of_nat n)) ->
  env s !! "nts" = Some (PyInt (Z.of_nat nt)) ->
  env s !! "nrow" = Some (PyInt (Z.of_nat nrow)) ->
  env s !! "ncol" = Some (PyInt (Z.of_nat ncol)) ->
  shape3 n nrow ncol A ->
  shape3 nt nrow ncol B ->
  pixels_ok A ->
  pixels_ok B ->
  exists (s' : state) (Xtr' Xts' : list (list float)),
    cell6 s = (Ok tt, s') /\
    env s' !! "Xtr" = Some (F64Array2 Xtr') /\
    env s' !! "Xts" = Some (F64Array2 Xts') /\
    Xtr' = map (fun img => map rescale_px (concat img)) A /\
    Xts' = map (fun img => map rescale_px (concat img)) B /\
    Forall (Forall in_unit_range) Xtr' /\
    Forall (Forall in_unit_range) Xts' /\
    (forall p : Z, (0 <= p <= 255)%Z ->
       (PrimFloat.eqb (rescale_px p) (-1)%float = true <-> p = 0%Z) /\
       (PrimFloat.eqb (rescale_px p) 1%float = true <-> p = 255%Z)).
Proof.
  intros HA HB Hn Hnt Hr Hc SA SB PA PB.
  eexists _, _, _. split; [eapply cell6_spec; eassumption|].
  unfold after_cell6.
  split; [env_lookup|]. split; [env_lookup|].
  split; [reflexivity|]. split; [reflexivity|].
  split; [apply flatten_rescale_range; exact PA|].
  split; [apply flatten_rescale_range; exact PB|].
  apply rescale_px_ends.
Qed.

(** ** Gathers *)

Lemma result_bind_ok {A B : Type} (r : result A) (k : A -> result B) (a : A) :
  r = Ok a -> (r ≫= k) = k a.
Proof. intros ->. reflexivity. Qed.

Lemma result_bind_inv {A B : Type} (r : result A) (k : A -> result B) (b : B) :
  (r ≫= k) = Ok b -> exists a, r = Ok a /\ k a = Ok b.
Proof. destruct r as [a|e]; [eauto | discriminate]. Qed.

Lemma norm_index_nonneg (len : nat) (k : Z) :
  (0 <= k < Z.of_nat len)%Z -> norm_index len k = Ok (Z.to_nat k).
Proof.
  intros H. unfold norm_index.
  replace ((0 <=? k)%Z) with true by (symmetry; apply Z.leb_le; lia).
  replace ((k <? Z.of_nat len)%Z) with true by (symmetry; apply Z.ltb_lt; lia).
  reflexivity.
Qed.

Lemma norm_index_lt (len : nat) (k : Z) (j : nat) :
  norm_index len k = Ok j -> j < len.
Proof.
  unfold norm_index. intros H.
  destruct ((0 <=? k)%Z) eqn:E1; destruct ((k <? Z.of_nat len)%Z) eqn:E2; cbn [andb] in H;
    try (injection H as <-; apply Z.leb_le in E1; apply Z.ltb_lt in E2; lia).
  all: destruct ((- Z.of_nat len <=? k)%Z) eqn:E3; destruct ((k <? 0)%Z) eqn:E4;
    cbn [andb] in H; try discriminate H.
  all: injection H as <-; apply Z.leb_le in E3; apply Z.ltb_lt in E4; lia.
Qed.

Lemma getitem_inv {A : Type} (a : list A) (k : Z) (x : A) :
  getitem a k = Ok x ->
  exists j, norm_index (length a) k = Ok j /\ a !! j = Some x.
Proof.
  unfold getitem. intros H. apply result_bind_inv in H as (j & Hj & H).
  exists j. split; [exact Hj|]. destruct (a !! j); [congruence | discriminate].
Qed.

Lemma getitem_nonneg {A : Type} (a : list A) (k : Z) :
  (0 <= k < Z.of_nat (length a))%Z ->
  exists x, getitem a k = Ok x /\ a !! Z.to_nat k = Some x.
Proof.
  intros H. unfold getitem. rewrite (result_bind_ok _ _ _ (norm_index_nonneg _ _ H)).
  destruct (a !! Z.to_nat k) as [x|] eqn:E; [eauto|].
  apply lookup_ge_None in E. lia.
Qed.

(** A gather with valid indices succeeds, and its [i]-th entry is the entry
    of the source at the [i]-th index. *)
Lemma take_rows_valid {A : Type} (a : list A) (I : list Z) :
  Forall (fun k => (0 <= k < Z.of_nat (length a))%Z) I ->
  exists xs, take_rows a I = Ok xs /\ length xs = length I /\
    forall i k, I !! i = Some k -> is_Some (a !! Z.to_nat k) /\ xs !! i = a !! Z.to_nat k.
Proof.
  induction 1 as [|k I Hk _ (xs & Hxs & Hl & Hnth)].
  - exists []. split; [reflexivity|]. split; [reflexivity|]. intros i k H. discriminate H.
  - destruct (getitem_nonneg a k Hk) as (x & Hx & Hax).
    exists (x :: xs). cbn [take_rows].
    rewrite (result_bind_ok _ _ _ Hx), (result_bind_ok _ _ _ Hxs).
    split; [reflexivity|]. split; [cbn [length]; congruence|].
    intros [|i] k' H; cbn in H.
    + injection H as <-. rewrite Hax. split; [eauto | reflexivity].
    + apply Hnth. exact H.
Qed.

(** Whatever a gather returns was taken from the source. *)
Lemma take_rows_inv {A : Type} (a : list A) (I : list Z) (xs : list A) :
  take_rows a I = Ok xs ->
  length xs = length I /\ Forall (fun x => In x a) xs.
Proof.
  revert xs. induction I as [|k I IH]; intros xs H; cbn [take_rows] in H.
  - injection H as <-. split; [reflexivity | constructor].
  - apply result_bind_inv in H as (x & Hx & H).
    apply result_bind_inv in H as (xs' & Hxs & H). injection H as <-.
    destruct (IH xs' Hxs) as [Hl Hin]. split; [cbn [length]; congruence|].
    constructor; [|exact Hin].
    apply getitem_inv in Hx as (j & _ & Hj).
    apply list_elem_of_In. eapply list_elem_of_lookup_2. exact Hj.
Qed.

Lemma take_rows_Forall {A : Type} (P : A -> Prop) (a : list A) (I : list Z) (xs : list A) :
  Forall P a -> take_rows a I = Ok xs -> Forall P xs.
Proof.
  intros Ha H. apply take_rows_inv in H as [_ Hin].
  rewrite Forall_forall in Ha. eapply Forall_impl; [exact Hin|].
  intros x Hx. apply Ha. apply list_elem_of_In. exact Hx.
Qed.

Lemma slice_to_nonneg {A : Type} (n : Z) (l : list A) :
  (0 <= n)%Z -> slice_to n l = firstn (Z.to_nat n) l.
Proof. intros H. unfold slice_to. apply Z.leb_le in H. rewrite H. reflexivity. Qed.

Lemma slice_to_Forall {A : Type} (P : A -> Prop) (n : Z) (l : list A) :
  Forall P l -> Forall P (slice_to n l).
Proof. intros H. unfold slice_to. destruct ((0 <=? n)%Z); apply Forall_take; exact H. Qed.

Lemma length_slice_5000 {A : Type} (l : list A) :
  length (slice_to 5000 l) = Nat.min (Z.to_nat 5000) (length l).
Proof. rewrite slice_to_nonneg by lia. apply length_take. Qed.

(** ** Sub-sampling (cells 9, 17 and 34) *)

Lemma subsample_spec (Xs ys X y I n : string) (s : state)
    (Xv X1 : list (list float)) (yv Iv y1 : list Z) (k : Z) :
  env s !! X = Some (F64Array2 Xv) ->
  env s !! y = Some (IntArray1 yv) ->
  env s !! I = Some (IntArray1 Iv) ->
  env s !! n = Some (PyInt k) ->
  Xs <> y -> Xs <> I -> Xs <> n ->
  take_rows Xv (slice_to k Iv) = Ok X1 ->
  take_rows yv (slice_to k Iv) = Ok y1 ->
  subsample Xs ys X y I n s =
  (Ok tt, upd_env (fun e => <[ys := IntArray1 y1]> (<[Xs := F64Array2 X1]> e)) s).
Proof.
  intros HX Hy HI Hn N1 N2 N3 TX Ty. unfold subsample.
  do 3 nb_step.
  erewrite run_lift by (cbn [getitem_rows]; rewrite (result_bind_ok _ _ _ TX); reflexivity).
  do 4 nb_step.
  erewrite run_lift by (cbn [getitem_index]; rewrite (result_bind_ok _ _ _ Ty); reflexivity).
  reflexivity.
Qed.

Lemma take_rows_aligned (n : Z) (X X1 : list (list float)) (y I y1 : list Z) :
  (0 <= n)%Z ->
  length y = length X ->
  Forall (fun k => (0 <= k < Z.of_nat (length X))%Z) I ->
  take_rows X (slice_to n I) = Ok X1 ->
  take_rows y (slice_to n I) = Ok y1 ->
  aligned n X y I X1 y1.
Proof.
  intros Hn Hlen HI HX Hy i Hi HiI.
  rewrite slice_to_nonneg in HX, Hy by exact Hn.
  assert (Hv : Forall (fun k => (0 <= k < Z.of_nat (length X))%Z) (firstn (Z.to_nat n) I))
    by (apply Forall_take; exact HI).
  destruct (take_rows_valid X _ Hv) as (X1' & E1 & _ & A1).
  rewrite <- Hlen in Hv.
  destruct (take_rows_valid y _ Hv) as (y1' & E2 & _ & A2).
  assert (X1' = X1) by congruence. assert (y1' = y1) by congruence. subst X1' y1'.
  destruct (lookup_lt_is_Some_2 I i HiI) as [k Hk].
  assert (Hk' : firstn (Z.to_nat n) I !! i = Some k).
  { rewrite lookup_take_lt by lia. exact Hk. }
  destruct (A1 i k Hk') as [[x Hx] Ex]. destruct (A2 i k Hk') as [[l Hl] El].
  assert (0 <= k)%Z.
  { rewrite Forall_forall in HI. apply (HI k). eapply list_elem_of_lookup_2. exact Hk. }
  exists (Z.to_nat k), x, l. rewrite Z2Nat.id by assumption.
  repeat split; congruence.
Qed.

Lemma cell9_spec (s : state) (X X1 : list (list float)) (y I y1 : list Z) :
  env s !! "Xtr" = Some (F64Array2 X) ->
  env s !! "ytr" = Some (IntArray1 y) ->
  env s !! "Iperm" = Some (IntArray1 I) ->
  take_rows X (slice_to 5000 I) = Ok X1 ->
  take_rows y (slice_to 5000 I) = Ok y1 ->
  cell9 s =
  (Ok tt, upd_env (fun e => <["ytr1" := IntArray1 y1]>
                     (<["Xtr1" := F64Array2 X1]> (<["ntr1" := PyInt 5000]> e))) s).
Proof.
  intros HX Hy HI TX Ty. unfold cell9. rewrite run_assign.
  erewrite subsample_spec; [reflexivity | try env_lookup; try done ..].
Qed.

(** With valid indices both gathers of a sub-sampling step succeed. *)
Lemma valid_indices_sub (X : list (list float)) (y I : list Z) :
  length y = length X ->
  Forall (fun k => (0 <= k < Z.of_nat (length X))%Z) I ->
  exists X1 y1,
    take_rows X (slice_to 5000 I) = Ok X1 /\
    take_rows y (slice_to 5000 I) = Ok y1 /\
    length X1 = length (slice_to 5000 I) /\
    length y1 = length (slice_to 5000 I).
Proof.
  intros Hlen HI.
  assert (Hv : Forall (fun k => (0 <= k < Z.of_nat (length X))%Z) (slice_to 5000 I))
    by (apply slice_to_Forall; exact HI).
  destruct (take_rows_valid X _ Hv) as (X1 & E1 & L1 & _).
  rewrite <- Hlen in Hv.
  destruct (take_rows_valid y _ Hv) as (y1 & E2 & L2 & _).
  exists X1, y1. auto.
Qed.

(** ** Accuracy (cells 17, 45 and 59) *)

Lemma zrange_lookup (n k : nat) (z : Z) :
  k < n -> zrange z n !! k = Some (z + Z.of_nat k)%Z.
Proof.
  revert z k. induction n as [|n IH]; intros z k Hk; [lia|].
  destruct k as [|k]; cbn [zrange].
  - cbn. f_equal. lia.
  - change ((z :: zrange (z + 1) n) !! S k) with (zrange (z + 1) n !! k).
    rewrite IH by lia. f_equal. lia.
Qed.
















Lemma accuracy_value (p t : list Z) :
  length p = length t -> accuracy p t = Ok (np_mean_bool (zip_with Z.eqb p t)).
Proof.
  intros H. unfold accuracy, eq_elementwise.
  rewrite H, Nat.eqb_refl. reflexivity.
Qed.

Lemma assign_accuracy_spec (a b : string) (s : state) (p t : list Z) :
  env s !! a = Some (IntArray1 p) ->
  env s !! b = Some (IntArray1 t) ->
  length p = length t ->
  assign_accuracy a b s =
  (Ok tt, upd_env (<["acc" := PyFloat (np_mean_bool (zip_with Z.eqb p t))]>) s).
Proof.
  intros Ha Hb Hl. unfold assign_accuracy.
  do 2 nb_step. erewrite run_lift by (apply accuracy_value; exact Hl).
  reflexivity.
Qed.



(** ** Cell 17: the test sub-sample and its predictions *)

Lemma run_ok {A B : Type} (m : nb A) (k : A -> nb B) (s s' : state) (a : A) :
  m s = (Ok a, s') -> (m ≫= k) s = k a s'.
Proof. intros H. rewrite run_bind, H. reflexivity. Qed.

Lemma run_permutation {B : Type} (n : Z) (k : list Z -> nb B) (s : state)
    (p : list nat) (g : generator) :
  permutation (Z.to_nat n) (rng s) = (p, g) ->
  (random_permutation n ≫= k) s =
  k (map Z.of_nat p) (mkState (env s) (fs s) g (fit_calls s) (shown s)).
Proof. intros H. rewrite run_bind. unfold random_permutation. rewrite H. reflexivity. Qed.

Lemma run_predict {B : Type} (est xn : string) (k : list Z -> nb B) (s : state)
    (e : estimator) (m : model) (X : list (list float)) :
  env s !! est = Some (Fitted e m) ->
  env s !! xn = Some (F64Array2 X) ->
  (call_predict est xn ≫= k) s = k (predict m X) s.
Proof.
  intros He HX. unfold call_predict at 1.
  rewrite run_bind. rewrite (run_lookup _ _ _ _ He).
  rewrite run_lift with (a := e) by reflexivity.
  rewrite (run_lookup _ _ _ _ HX).
  rewrite run_lift with (a := X) by reflexivity.
  reflexivity.
Qed.

Lemma permutation_valid (n : nat) (g : generator) :
  Forall (fun k => (0 <= k < Z.of_nat n)%Z) (map Z.of_nat (fst (permutation n g))).
Proof.
  apply Forall_map. apply Forall_forall. intros k Hk.
  apply list_elem_of_In in Hk.
  apply (Permutation_in _ (permutation_spec n g)) in Hk.
  apply in_seq in Hk. cbn beta. lia.
Qed.

Lemma permutation_length (n : nat) (g : generator) :
  length (map Z.of_nat (fst (permutation n g))) = n.
Proof.
  rewrite length_map, (Permutation_length (permutation_spec n g)). apply length_seq.
Qed.

Lemma cell17_spec (s : state) (X X1 : list (list float)) (y y1 : list Z)
    (e : estimator) (m : model) :
  env s !! "Xts" = Some (F64Array2 X) ->
  env s !! "yts" = Some (IntArray1 y) ->
  env s !! "nts" = Some (PyInt (Z.of_nat (length X))) ->
  env s !! "logreg" = Some (Fitted e m) ->
  let I := map Z.of_nat (fst (permutation (length X) (rng s))) in
  take_rows X (slice_to 5000 I) = Ok X1 ->
  take_rows y (slice_to 5000 I) = Ok y1 ->
  cell17 s =
  (Ok tt, mkState (after_cell17 I X1 y1 (predict m X1) (env s)) (fs s)
            (snd (permutation (length X) (rng s))) (fit_calls s) (shown s)).
Proof.
  intros HX Hy Hn Hm I TX Ty. unfold cell17.
  do 2 nb_step.
  erewrite run_permutation by (rewrite Nat2Z.id; apply surjective_pairing).
  nb_step.
  erewrite run_ok by (eapply subsample_spec; try env_lookup; try done).
  erewrite run_predict by env_lookup.
  nb_step.
  erewrite assign_accuracy_spec; [reflexivity | env_lookup | env_lookup |].
  rewrite predict_length.
  apply take_rows_inv in TX as [-> _]. apply take_rows_inv in Ty as [-> _]. reflexivity.
Qed.

(** C9.  Sub-sampling keeps images and labels aligned.  Cell 9 (training
    set, with [Iperm] holding valid row numbers, as the permutation of cell 7
    does) and cell 17 (test set, with the permutation it draws itself) finish
    and bind the sub-sample arrays so that, for every [i < 5000] within the
    index array, [ytr1[i]] is the label and [Xtr1[i,:]] the image of one and
    the same row [Iperm[i]] of the full dataset; likewise [yts1], [Xts1] and
    [Iperm_ts]. *)
Theorem sub_samples_stay_aligned :
  (forall (s : state) (X : list (list float)) (y I : list Z),
     env s !! "Xtr" = Some (F64Array2 X) ->
     env s !! "ytr" = Some (IntArray1 y) ->
     env s !! "Iperm" = Some (IntArray1 I) ->
     length y = length X ->
     Forall (fun k => (0 <= k < Z.of_nat (length X))%Z) I ->
     exists (s' : state) (X1 : list (list float)) (y1 : list Z),
       cell9 s = (Ok tt, s') /\
       env s' !! "Xtr1" = Some (F64Array2 X1) /\
       env s' !! "ytr1" = Some (IntArray1 y1) /\
       length X1 = Nat.min (Z.to_nat 5000) (length I) /\
       length y1 = Nat.min (Z.to_nat 5000) (length I) /\
       aligned 5000 X y I X1 y1) /\
  (forall (s : state) (X : list (list float)) (y : list Z) (e : estimator) (m : model),
     env s !! "Xts" = Some (F64Array2 X) ->
     env s !! "yts" = Some (IntArray1 y) ->
     env s !! "nts" = Some (PyInt (Z.of_nat (length X))) ->
     env s !! "logreg" = Some (Fitted e m) ->
     length y = length X ->
     exists (s' : state) (I : list Z) (X1 : list (list float)) (y1 : list Z),
       cell17 s = (Ok tt, s') /\
       env s' !! "Iperm_ts" = Some (IntArray1 I) /\
       env s' !! "Xts1" = Some (F64Array2 X1) /\
       env s' !! "yts1" = Some (IntArray1 y1) /\
       length I = length X /\
       length X1 = Nat.min (Z.to_nat 5000) (length I) /\
       length y1 = Nat.min (Z.to_nat 5000) (length I) /\
       aligned 5000 X y I X1 y1).
Proof.
  split.
  - intros s X y I HX Hy HI Hl Hv.
    destruct (valid_indices_sub X y I Hl Hv) as (X1 & y1 & TX & Ty & L1 & L2).
    eexists _, X1, y1. split; [eapply cell9_spec; eassumption|].
    split; [env_lookup|]. split; [env_lookup|].
    rewrite <- length_slice_5000. split; [exact L1|]. split; [exact L2|].
    eapply take_rows_aligned; [lia | eassumption ..].
  - intros s X y e m HX Hy Hn Hm Hl.
    set (I := map Z.of_nat (fst (permutation (length X) (rng s)))).
    assert (Hv : Forall (fun k => (0 <= k < Z.of_nat (length X))%Z) I)
      by apply permutation_valid.
    destruct (valid_indices_sub X y I Hl Hv) as (X1 & y1 & TX & Ty & L1 & L2).
    eexists _, I, X1, y1. split; [eapply cell17_spec; eassumption|].
    unfold after_cell17.
    split; [env_lookup|]. split; [env_lookup|]. split; [env_lookup|].
    split; [apply permutation_length|].
    rewrite <- length_slice_5000. split; [exact L1|]. split; [exact L2|].
    eapply take_rows_aligned; [lia | eassumption ..].
Qed.

(** ** Snapshots: [pickle.dump] and [pickle.load] *)

Lemma state_eta (s : state) :
  mkState (env s) (fs s) (rng s) (fit_calls s) (shown s) = s.
Proof. destruct s. reflexivity. Qed.

Lemma run_inv {A B : Type} (m : nb A) (k : A -> nb B) (s s1 : state) (b : B) :
  (m ≫= k) s = (Ok b, s1) -> exists a s', m s = (Ok a, s') /\ k a s' = (Ok b, s1).
Proof.
  rewrite run_bind. destruct (m s) as [[a|e] s']; [eauto | discriminate].
Qed.

(** The reference to [pickle]. *)
Lemma run_pickle_attr {B : Type} (k : unit -> nb B) (s : state) :
  env s !! "pickle" = Some (PyModule "pickle") -> (pickle_attr ≫= k) s = k tt s.
Proof.
  intros H. rewrite run_bind. unfold pickle_attr.
  rewrite (run_lookup _ _ _ _ H). reflexivity.
Qed.

Lemma pickle_attr_unbound {B : Type} (k : unit -> nb B) (s : state) :
  env s !! "pickle" = None -> (pickle_attr ≫= k) s = (Raise NameError, s).
Proof.
  intros H. rewrite run_bind. unfold pickle_attr.
  rewrite run_bind. unfold lookup_name. rewrite H. reflexivity.
Qed.

Lemma pickle_attr_inv (s s' : state) :
  pickle_attr s = (Ok tt, s') ->
  s' = s /\ env s !! "pickle" = Some (PyModule "pickle").
Proof.
  unfold pickle_attr. rewrite run_bind. unfold lookup_name.
  destruct (env s !! "pickle") as [o|]; [|discriminate].
  destruct o as [| | | | | | | | |name|]; try discriminate.
  destruct (String.eqb_spec name "pickle") as [->|_]; [|discriminate].
  intros H. injection H as <-. split; reflexivity.
Qed.

Lemma import_pickle_id {B : Type} (k : unit -> nb B) (s : state) :
  env s !! "pickle" = Some (PyModule "pickle") -> (import_pickle ≫= k) s = k tt s.
Proof.
  intros H. unfold import_pickle. rewrite run_assign.
  unfold upd_env. rewrite (insert_id _ _ _ H), state_eta. reflexivity.
Qed.

Lemma lookup_all_state (names : list string) (s s' : state) (r : result (list obj)) :
  lookup_all names s = (r, s') -> s' = s.
Proof.
  revert r s'. induction names as [|x ns IH]; intros r s' H; cbn [lookup_all] in H.
  - injection H as _ <-. reflexivity.
  - rewrite run_bind in H. unfold lookup_name at 1 in H.
    destruct (env s !! x) as [o|]; [|injection H as _ <-; reflexivity].
    rewrite run_bind in H.
    destruct (lookup_all ns s) as [[os|e] s''] eqn:E;
      specialize (IH _ _ eq_refl); subst s''; injection H as _ <-; reflexivity.
Qed.

Lemma lookup_all_spec (names : list string) (vs : list obj) (s : state) :
  bound names vs s -> lookup_all names s = (Ok vs, s).
Proof.
  induction 1 as [|x v ns vs' Hx _ IH]; [reflexivity|].
  cbn [lookup_all]. rewrite (run_lookup _ _ _ _ Hx).
  rewrite (run_ok _ _ _ _ _ IH). reflexivity.
Qed.

Lemma lookup_all_inv (names : list string) (vs : list obj) (s s' : state) :
  lookup_all names s = (Ok vs, s') -> bound names vs s.
Proof.
  revert vs s'. induction names as [|x ns IH]; intros vs s' H; cbn [lookup_all] in H.
  - injection H as <- _. constructor.
  - rewrite run_bind in H. unfold lookup_name at 1 in H.
    destruct (env s !! x) as [o|] eqn:Ex; [|discriminate H].
    rewrite run_bind in H. destruct (lookup_all ns s) as [[os|e] s''] eqn:E; [|discriminate H].
    injection H as <- _. constructor; [exact Ex|]. apply (IH _ s''). reflexivity.
Qed.

Lemma bound_agree (names : list string) (vs : list obj) (s s' : state) :
  bound names vs s -> bound names vs s' ->
  forall x : string, x ∈ names -> env s !! x = env s' !! x.
Proof.
  unfold bound. intros H. revert s'.
  induction H as [|n v ns vs Hn _ IH]; intros s' H' x Hx.
  - apply elem_of_nil in Hx as [].
  - inversion H' as [|n' v' ns' vs' Hn' H'']; subst.
    apply elem_of_cons in Hx as [-> | Hx]; [congruence | exact (IH s' H'' x Hx)].
Qed.

(** A dump in a kernel where [pickle] is imported: [fp] is bound and the
    file holds the pickle of what the names are bound to. *)
Lemma pickle_dump_spec (f : string) (names : list string) (vs : list obj) (s : state) :
  env s !! "pickle" = Some (PyModule "pickle") ->
  bound names vs (upd_env (<["fp" := PyFile f "wb"]>) s) ->
  pickle_dump f names s = (Ok tt, after_dump f vs s).
Proof.
  intros Hp Hb. unfold pickle_dump. rewrite run_bind. unfold open_wb.
  rewrite run_assign. rewrite run_pickle_attr by env_lookup.
  erewrite run_ok by (apply lookup_all_spec; exact Hb).
  erewrite run_lookup by env_lookup.
  unfold write_file, after_dump, upd_fs, upd_env. cbn [env fs rng fit_calls shown].
  rewrite insert_insert_eq. reflexivity.
Qed.

Lemma pickle_dump_inv (f : string) (names : list string) (s s1 : state) :
  pickle_dump f names s = (Ok tt, s1) ->
  exists vs, bound names vs s1 /\ env s !! "pickle" = Some (PyModule "pickle") /\
    s1 = after_dump f vs s.
Proof.
  intros H. unfold pickle_dump in H. rewrite run_bind in H. unfold open_wb in H.
  rewrite run_assign in H.
  apply run_inv in H as ([] & s' & Ha & H).
  apply pickle_attr_inv in Ha as [-> Hp].
  cbn [env upd_env upd_fs] in Hp. rewrite lookup_insert_ne in Hp by done.
  apply run_inv in H as (vs & s' & H1 & H2).
  pose proof (lookup_all_state _ _ _ _ H1) as ->.
  apply lookup_all_inv in H1.
  erewrite run_lookup in H2 by env_lookup.
  unfold write_file in H2. injection H2 as <-.
  exists vs. split; [exact H1|]. split; [exact Hp|].
  unfold after_dump, upd_fs, upd_env. cbn [env fs rng fit_calls shown].
  rewrite insert_insert_eq. reflexivity.
Qed.

Lemma pickle_dump_env (f : string) (names : list string) (s s1 : state) :
  pickle_dump f names s = (Ok tt, s1) ->
  forall x : string, x <> "fp" -> env s1 !! x = env s !! x.
Proof.
  intros H x Hx. apply pickle_dump_inv in H as (vs & _ & _ & ->).
  cbn [env after_dump]. apply lookup_insert_ne. congruence.
Qed.

Lemma assign_all_spec (names : list string) :
  forall (vs : list obj) (s : state),
    length names = length vs -> NoDup names ->
    exists s', assign_all names vs s = (Ok tt, s') /\ bound names vs s' /\
      (forall x : string, x ∉ names -> env s' !! x = env s !! x) /\
      fs s' = fs s /\ rng s' = rng s /\ fit_calls s' = fit_calls s /\
      shown s' = shown s.
Proof.
  induction names as [|x ns IH]; intros vs s Hl Hnd.
  - destruct vs; [|discriminate Hl]. exists s.
    split; [reflexivity|]. split; [constructor|]. auto 10.
  - destruct vs as [|v vs]; [discriminate Hl|].
    apply NoDup_cons in Hnd as [Hx Hnd].
    destruct (IH vs (upd_env (<[x := v]>) s)) as (s' & E & Hb & Hf & H1 & H2 & H3 & H4);
      [cbn [length] in Hl; lia | exact Hnd |].
    exists s'. split; [cbn [assign_all]; rewrite run_assign; exact E|].
    split.
    { constructor; [|exact Hb]. rewrite (Hf x Hx). cbn [env upd_env].
      apply lookup_insert_eq. }
    split.
    { intros y Hy. apply not_elem_of_cons in Hy as [Hy1 Hy2].
      rewrite (Hf y Hy2). cbn [env upd_env]. apply lookup_insert_ne. congruence. }
    auto.
Qed.

(** A load of a file that holds a pickled list with one entry per name, in
    a kernel where [pickle] is imported. *)
Lemma pickle_load_ok (f : string) (names : list string) (vs : list obj) (b : bytes)
    (s : state) :
  fs s !! f = Some b -> pickle_loads b = Ok vs ->
  env s !! "pickle" = Some (PyModule "pickle") ->
  length names = length vs -> NoDup names ->
  exists s', pickle_load f names s = (Ok tt, s') /\ bound names vs s' /\
    (forall x : string, x ∉ "fp" :: names -> env s' !! x = env s !! x) /\
    fs s' = fs s /\ rng s' = rng s /\ fit_calls s' = fit_calls s /\
    shown s' = shown s.
Proof.
  intros Hf Hl Hp Hn Hnd. unfold pickle_load. rewrite run_bind. unfold open_rb.
  rewrite Hf. rewrite run_assign. rewrite run_pickle_attr by env_lookup.
  erewrite run_lookup by env_lookup.
  rewrite Hl, Hn, Nat.eqb_refl.
  destruct (assign_all_spec names vs (upd_env (<["fp" := PyFile f "rb"]>) s) Hn Hnd)
    as (s' & E & Hb & Hfr & H1 & H2 & H3 & H4).
  exists s'. split; [exact E|]. split; [exact Hb|].
  split; [|auto].
  intros x Hx. apply not_elem_of_cons in Hx as [Hx1 Hx2].
  rewrite (Hfr x Hx2). cbn [env upd_env]. apply lookup_insert_ne. congruence.
Qed.

Lemma dump_then_load (f : string) (names : list string) :
  NoDup names ->
  restores (pickle_dump f names) (pickle_load f names) f names.
Proof.
  intros Hnd s s1 H. apply pickle_dump_inv in H as (vs & Hb & Hp & ->).
  exists vs. split; [exact Hb|].
  split; [cbn [fs after_dump]; apply lookup_insert_eq|].
  split; [cbn [env after_dump]; rewrite lookup_insert_ne by done; exact Hp|].
  intros s2 Hf Hp2. cbn [fs after_dump] in Hf. rewrite lookup_insert_eq in Hf.
  exact (pickle_load_ok f names vs _ s2 Hf (pickle_roundtrip vs) Hp2
           (Forall2_length _ _ _ Hb) Hnd).
Qed.

(** What runs before the dump, and an [import pickle] before the load, do
    not matter. *)
Lemma restores_after {A : Type} (m : nb A) (dump : A -> nb unit) (load : nb unit)
    (f : string) (names : list string) :
  (forall a : A, restores (dump a) load f names) ->
  restores (m ≫= dump) load f names.
Proof.
  intros H s s1 Hd. apply run_inv in Hd as (a & s' & _ & Hd). eapply H. exact Hd.
Qed.

Lemma restores_import (dump load : nb unit) (f : string) (names : list string) :
  restores dump load f names -> restores dump (import_pickle;; load) f names.
Proof.
  intros H s s1 Hd. destruct (H s s1 Hd) as (vs & Hb & Hf & Hp & Hl).
  exists vs. split; [exact Hb|]. split; [exact Hf|]. split; [exact Hp|].
  intros s2 Hf2 Hp2. rewrite (import_pickle_id _ _ Hp2). exact (Hl s2 Hf2 Hp2).
Qed.

Ltac listed := repeat first [ apply list_elem_of_here | apply list_elem_of_further ].

Ltac distinct_names :=
  repeat (apply NoDup_cons_2; [rewrite ?not_elem_of_cons; repeat split;
                               first [discriminate | apply not_elem_of_nil]|]);
  apply NoDup_nil_2.

Lemma restores_cell13 :
  restores cell13 cell15 "mnist_logreg.p" ["logreg"; "Xtr1"; "ytr1"; "Iperm"].
Proof.
  unfold cell13, cell15. apply restores_after. intros _.
  apply dump_then_load. distinct_names.
Qed.

Lemma restores_cell37 :
  restores cell37 (pickle_load "mnist_svc.p" ["svc"; "Xtr1"; "ytr1"])
    "mnist_svc.p" ["svc"; "Xtr1"; "ytr1"].
Proof.
  unfold cell37. apply restores_after. intros _.
  apply dump_then_load. distinct_names.
Qed.

Lemma restores_cell43 :
  restores cell43 cell44 "mnist_svc_test.p" ["Xts1"; "yts1"; "yhat_ts"].
Proof. unfold cell43, cell44. apply dump_then_load. distinct_names. Qed.

Lemma restores_cell54 :
  restores cell54 (pickle_load "mnist_svcrbf.p" ["svcrbf"; "Xtr1"; "ytr1"])
    "mnist_svcrbf.p" ["svcrbf"; "Xtr1"; "ytr1"].
Proof.
  unfold cell54. apply restores_after. intros _. apply restores_after. intros _.
  apply dump_then_load. distinct_names.
Qed.

Lemma restores_cell57 :
  restores cell57 cell58 "mnist_svcrbf_test.p" ["yhat_ts"; "yts1"; "Xts1"].
Proof.
  unfold cell57, cell58. apply restores_after. intros yhat.
  apply restores_after. intros _. apply dump_then_load. distinct_names.
Qed.

(** C3.  For each of the five snapshots the notebook writes, once the
    dumping cell has finished, the file holds the pickle of the values the
    dumped names are bound to, and the loading cell that follows it, run
    immediately or later in the session, finishes and binds the names to
    exactly these values, in the order of the dumped list: the classifier,
    the sample array, the label array and the permutation come back as they
    were written.  The load binds [fp] besides and changes nothing else:
    dump followed by load is the identity on the saved state. *)
Theorem load_after_dump_is_identity :
  restores cell13 cell15 "mnist_logreg.p" ["logreg"; "Xtr1"; "ytr1"; "Iperm"] /\
  restores cell37 cell39 "mnist_svc.p" ["svc"; "Xtr1"; "ytr1"] /\
  restores cell43 cell44 "mnist_svc_test.p" ["Xts1"; "yts1"; "yhat_ts"] /\
  restores cell54 cell55 "mnist_svcrbf.p" ["svcrbf"; "Xtr1"; "ytr1"] /\
  restores cell57 cell58 "mnist_svcrbf_test.p" ["yhat_ts"; "yts1"; "Xts1"].
Proof.
  split; [exact restores_cell13|].
  split; [unfold cell39; apply restores_import, restores_cell37|].
  split; [exact restores_cell43|].
  split; [unfold cell55; apply restores_import, restores_cell54|].
  exact restores_cell57.
Qed.












(** ** Fitting (cells 11, 35 and 54) *)

Lemma call_fit_spec (est xn yn : string) (s : state) (o : obj) (e : estimator)
    (X : list (list float)) (y : list Z) :
  env s !! est = Some o ->
  estimator_of o = Ok e ->
  env s !! xn = Some (F64Array2 X) ->
  env s !! yn = Some (IntArray1 y) ->
  call_fit est xn yn s = (Ok tt, after_fit est e X y s).
Proof.
  intros Ho He HX Hy. unfold call_fit.
  rewrite (run_lookup _ _ _ _ Ho), (run_lift _ _ _ _ He).
  rewrite (run_get_f64_2 _ _ _ _ HX), (run_get_int1 _ _ _ _ Hy).
  reflexivity.
Qed.

Lemma cell34_spec (s : state) (X X1 Xt Xt1 : list (list float))
    (y I y1 yt It yt1 : list Z) :
  env s !! "Xtr" = Some (F64Array2 X) ->
  env s !! "ytr" = Some (IntArray1 y) ->
  env s !! "Iperm" = Some (IntArray1 I) ->
  env s !! "Xts" = Some (F64Array2 Xt) ->
  env s !! "yts" = Some (IntArray1 yt) ->
  env s !! "Iperm_ts" = Some (IntArray1 It) ->
  take_rows X (slice_to 5000 I) = Ok X1 ->
  take_rows y (slice_to 5000 I) = Ok y1 ->
  take_rows Xt (slice_to 5000 It) = Ok Xt1 ->
  take_rows yt (slice_to 5000 It) = Ok yt1 ->
  cell34 s =
  (Ok tt,
   upd_env (fun e =>
     <["yts1" := IntArray1 yt1]> (<["Xts1" := F64Array2 Xt1]>
       (<["ytr1" := IntArray1 y1]> (<["Xtr1" := F64Array2 X1]>
         (<["nts1" := PyInt 5000]> (<["ntr1" := PyInt 5000]> e)))))) s).
Proof.
  intros HX Hy HI HXt Hyt HIt TX Ty TXt Tyt. unfold cell34.
  do 2 nb_step.
  erewrite run_ok by (eapply subsample_spec; try env_lookup; try done).
  erewrite subsample_spec; [reflexivity | try env_lookup; try done ..].
Qed.

(** The training data each of the three fits receives: logistic regression
    (cell 11) and the RBF machine (cell 54) are handed what [Xtr1], [ytr1]
    are bound to; the linear machine (cell 35) is handed what [Xtr], [ytr]
    are bound to. *)
Lemma fit_arguments (s : state) (o : obj) (e : estimator)
    (X X1 : list (list float)) (y y1 : list Z) :
  env s !! "Xtr" = Some (F64Array2 X) ->
  env s !! "ytr" = Some (IntArray1 y) ->
  env s !! "Xtr1" = Some (F64Array2 X1) ->
  env s !! "ytr1" = Some (IntArray1 y1) ->
  (exists s', cell11 s = (Ok tt, s') /\
     fit_calls s' = fit_calls s ++ [(LogisticRegression, X1, y1)]) /\
  (env s !! "svc" = Some o -> estimator_of o = Ok e ->
   exists s', cell35 s = (Ok tt, s') /\ fit_calls s' = fit_calls s ++ [(e, X, y)]) /\
  (env s !! "svcrbf" = Some o -> estimator_of o = Ok e ->
   exists s', cell54 s = (Ok tt, s') /\ fit_calls s' = fit_calls s ++ [(e, X1, y1)]).
Proof.
  intros HX Hy HX1 Hy1. split; [|split].
  - eexists. unfold cell11. rewrite run_assign.
    erewrite call_fit_spec; [| env_lookup | reflexivity | env_lookup | env_lookup].
    split; reflexivity.
  - intros Ho He. eexists. unfold cell35.
    erewrite call_fit_spec by eassumption. split; reflexivity.
  - intros Ho He. eexists. unfold cell54.
    erewrite run_ok by (eapply call_fit_spec; eassumption).
    unfold import_pickle. rewrite run_assign.
    erewrite pickle_dump_spec
      with (vs := [Fitted e (fit e X1 y1); F64Array2 X1; IntArray1 y1]).
    + split; reflexivity.
    + env_lookup.
    + unfold after_fit. repeat (constructor; [env_lookup|]). constructor.
Qed.

(** ** What the snapshots contain *)

Lemma pickle_dump_writes (f : string) (names : list string) (vs : list obj) (s : state) :
  env s !! "pickle" = Some (PyModule "pickle") ->
  bound names vs (upd_env (<["fp" := PyFile f "wb"]>) s) ->
  writes (pickle_dump f names) s f vs.
Proof.
  intros Hp Hb. exists (after_dump f vs s). split; [apply pickle_dump_spec; assumption|].
  cbn [fs after_dump]. apply lookup_insert_eq.
Qed.

Lemma import_dump_writes (f : string) (names : list string) (vs : list obj) (s : state) :
  bound names vs
    (upd_env (<["fp" := PyFile f "wb"]>) (upd_env (<["pickle" := PyModule "pickle"]>) s)) ->
  writes (import_pickle;; pickle_dump f names) s f vs.
Proof.
  intros Hb. unfold writes, import_pickle. rewrite run_assign.
  apply pickle_dump_writes; [env_lookup | exact Hb].
Qed.

Ltac bound_names := repeat (constructor; [env_lookup|]); constructor.

(** C6, as the code has it.  The three model snapshots hold the fitted
    classifier followed by the training sub-sample [Xtr1], [ytr1] (and
    [Iperm] in the first); the two test snapshots hold the test sub-sample
    [Xts1], its labels [yts1] and the predicted labels [yhat_ts], and no
    classifier.  Cells 43 and 57 do not import [pickle] themselves: they
    write their snapshot in a kernel where an earlier cell imported it. *)
Theorem snapshot_contents
    (s : state) (e : estimator) (m : model)
    (X1 Xt1 : list (list float)) (y1 I yt1 p : list Z) :
  env s !! "Xtr1" = Some (F64Array2 X1) ->
  env s !! "ytr1" = Some (IntArray1 y1) ->
  env s !! "Xts1" = Some (F64Array2 Xt1) ->
  env s !! "yts1" = Some (IntArray1 yt1) ->
  (env s !! "logreg" = Some (Fitted e m) -> env s !! "Iperm" = Some (IntArray1 I) ->
   writes cell13 s "mnist_logreg.p"
     [Fitted e m; F64Array2 X1; IntArray1 y1; IntArray1 I]) /\
  (env s !! "svc" = Some (Fitted e m) ->
   writes cell37 s "mnist_svc.p" [Fitted e m; F64Array2 X1; IntArray1 y1]) /\
  (env s !! "svcrbf" = Some (Estimator e) ->
   writes cell54 s "mnist_svcrbf.p"
     [Fitted e (fit e X1 y1); F64Array2 X1; IntArray1 y1]) /\
  (env s !! "yhat_ts" = Some (IntArray1 p) ->
   env s !! "pickle" = Some (PyModule "pickle") ->
   writes cell43 s "mnist_svc_test.p" [F64Array2 Xt1; IntArray1 yt1; IntArray1 p] /\
   has_classifier [F64Array2 Xt1; IntArray1 yt1; IntArray1 p] = false) /\
  (env s !! "svcrbf" = Some (Fitted e m) ->
   env s !! "pickle" = Some (PyModule "pickle") ->
   writes cell57 s "mnist_svcrbf_test.p"
     [IntArray1 (predict m Xt1); IntArray1 yt1; F64Array2 Xt1] /\
   has_classifier [IntArray1 (predict m Xt1); IntArray1 yt1; F64Array2 Xt1] = false).
Proof.
  intros HX1 Hy1 HXt1 Hyt1.
  split; [|split; [|split; [|split]]].
  - intros Hm HI. apply import_dump_writes. bound_names.
  - intros Hm. apply import_dump_writes. bound_names.
  - intros Hm. unfold writes, cell54.
    erewrite run_ok by (eapply call_fit_spec; [exact Hm | reflexivity | exact HX1 | exact Hy1]).
    apply import_dump_writes. unfold after_fit. bound_names.
  - intros Hp Hk. split; [|reflexivity]. apply pickle_dump_writes; [exact Hk | bound_names].
  - intros Hm Hk. split; [|reflexivity]. unfold writes, cell57.
    erewrite run_predict by eassumption. rewrite run_assign.
    apply pickle_dump_writes; [env_lookup | bound_names].
Qed.

(** ** The error plots (cells 19 and 61) *)

Lemma where_from_spec (b : list bool) (i : Z) :
  length (where_from i b) = count_true b /\
  Forall (fun k => (i <= k < i + Z.of_nat (length b))%Z) (where_from i b).
Proof.
  revert i. induction b as [|x b IH]; intros i; cbn [where_from count_true length].
  - split; [reflexivity | constructor].
  - destruct (IH (i + 1)%Z) as [Hl Hf].
    assert (Hf' : Forall (fun k => (i <= k < i + Z.of_nat (S (length b)))%Z)
                    (where_from (i + 1) b)).
    { eapply Forall_impl; [exact Hf|]. intros k Hk. cbn beta in *. lia. }
    destruct x.
    + split; [cbn [length]; lia|]. constructor; [lia | exact Hf'].
    + split; [exact Hl | exact Hf'].
Qed.

Lemma ne_elementwise_value (a b : list Z) :
  length a = length b ->
  ne_elementwise a b = Ok (zip_with (fun x y => negb (Z.eqb x y)) a b).
Proof. intros H. unfold ne_elementwise. rewrite H, Nat.eqb_refl. reflexivity. Qed.

Lemma np_where_errors (a b : list Z) :
  length a = length b ->
  let Ierr := np_where (zip_with (fun x y => negb (Z.eqb x y)) a b) in
  length Ierr = n_errors a b /\
  Forall (fun k => (0 <= k < Z.of_nat (length a))%Z) Ierr.
Proof.
  intros Hl. cbn zeta. unfold np_where, n_errors.
  destruct (where_from_spec (zip_with (fun x y => negb (Z.eqb x y)) a b) 0) as [H1 H2].
  split; [exact H1|]. rewrite length_zip_with_l_eq in H2 by exact Hl. exact H2.
Qed.

Lemma plt_digit_spec (x : list float) (s : state) :
  length x = 784 ->
  plt_digit x s =
  (Ok tt, mkState (env s) (fs s) (rng s) (fit_calls s) (shown s ++ [chunks 28 28 x])).
Proof.
  intros H. unfold plt_digit.
  erewrite run_lift; [reflexivity|].
  unfold reshape_flat. rewrite H. reflexivity.
Qed.

Section ErrorPlot.

Variable yhat : string.
Variable Ie : list Z.
Variable X : list (list float).
Variables t p : list Z.
Hypothesis yhat_not_i : "i" <> yhat.
Hypothesis yhat_not_ind : "ind" <> yhat.
Hypothesis Ie_valid : Forall (fun k => (0 <= k < Z.of_nat (length t))%Z) Ie.
Hypothesis X_rows : Forall (fun r => length r = 784) X.
Hypothesis X_length : length X = length t.
Hypothesis p_length : length p = length t.

Lemma plot_iteration_ok (i : Z) (s : state) :
  plot_ready yhat Ie X t p s ->
  (0 <= i < Z.of_nat (length Ie))%Z ->
  exists s', (assign "i" (PyInt i) ≫= fun _ => plot_error yhat i) s = (Ok tt, s') /\
    plot_ready yhat Ie X t p s'.
Proof.
  intros (H1 & H2 & H3 & H4) Hi.
  destruct (getitem_nonneg Ie i Hi) as (k & Gk & Lk).
  assert (Hk : (0 <= k < Z.of_nat (length t))%Z).
  { rewrite Forall_forall in Ie_valid. apply Ie_valid.
    eapply list_elem_of_lookup_2. exact Lk. }
  assert (HkX : (0 <= k < Z.of_nat (length X))%Z) by (rewrite X_length; exact Hk).
  assert (Hkp : (0 <= k < Z.of_nat (length p))%Z) by (rewrite p_length; exact Hk).
  destruct (getitem_nonneg X k HkX) as (x & Gx & Lx).
  destruct (getitem_nonneg t k Hk) as (l & Gl & _).
  destruct (getitem_nonneg p k Hkp) as (l' & Gl' & _).
  assert (Hx : length x = 784).
  { rewrite Forall_forall in X_rows. apply X_rows. eapply list_elem_of_lookup_2. exact Lx. }
  eexists. split.
  - rewrite run_assign. unfold plot_error.
    nb_step. erewrite run_lift by exact Gk.
    do 3 nb_step.
    rewrite run_lift with (a := x) by exact Gx.
    erewrite run_ok by (apply plt_digit_spec; exact Hx).
    nb_step. erewrite run_lift by exact Gl.
    nb_step. erewrite run_lift by exact Gl'.
    reflexivity.
  - unfold plot_ready. repeat split; env_lookup.
Qed.

Lemma plot_iteration_fault (i : Z) (s : state) :
  plot_ready yhat Ie X t p s ->
  (Z.of_nat (length Ie) <= i)%Z ->
  exists s', (assign "i" (PyInt i) ≫= fun _ => plot_error yhat i) s = (Raise IndexError, s').
Proof.
  intros (H1 & H2 & H3 & H4) Hi.
  assert (G : getitem Ie i = Raise IndexError).
  { unfold getitem, norm_index.
    replace ((i <? Z.of_nat (length Ie))%Z) with false by (symmetry; apply Z.ltb_ge; lia).
    replace ((i <? 0)%Z) with false by (symmetry; apply Z.ltb_ge; lia).
    rewrite !andb_false_r. reflexivity. }
  eexists. rewrite run_assign. unfold plot_error.
  nb_step. rewrite run_bind. unfold lift at 1. rewrite G. reflexivity.
Qed.

Lemma for_each_ok (l : list Z) (s : state) :
  plot_ready yhat Ie X t p s ->
  Forall (fun i => (0 <= i < Z.of_nat (length Ie))%Z) l ->
  exists s', for_each l (plot_error yhat) s = (Ok tt, s') /\ plot_ready yhat Ie X t p s'.
Proof.
  intros Hs Hl. revert s Hs. induction Hl as [|i l Hi _ IH]; intros s Hs.
  - exists s. split; [reflexivity | exact Hs].
  - destruct (plot_iteration_ok i s Hs Hi) as (s1 & E1 & Hs1).
    destruct (IH s1 Hs1) as (s2 & E2 & Hs2).
    exists s2. split; [|exact Hs2].
    cbn [for_each]. rewrite run_assign.
    rewrite run_assign in E1. rewrite (run_ok _ _ _ _ _ E1). exact E2.
Qed.

Lemma for_each_fault (l1 l2 : list Z) (i : Z) (s : state) :
  plot_ready yhat Ie X t p s ->
  Forall (fun i => (0 <= i < Z.of_nat (length Ie))%Z) l1 ->
  (Z.of_nat (length Ie) <= i)%Z ->
  exists s', for_each (l1 ++ i :: l2) (plot_error yhat) s = (Raise IndexError, s').
Proof.
  intros Hs Hl Hi. revert s Hs. induction Hl as [|j l Hj _ IH]; intros s Hs.
  - destruct (plot_iteration_fault i s Hs Hi) as (s1 & E1).
    exists s1. cbn [app for_each]. rewrite run_assign.
    rewrite run_assign in E1. rewrite run_bind, E1. reflexivity.
  - destruct (plot_iteration_ok j s Hs Hj) as (s1 & E1 & Hs1).
    destruct (IH s1 Hs1) as (s2 & E2).
    exists s2. cbn [app for_each]. rewrite run_assign.
    rewrite run_assign in E1. rewrite (run_ok _ _ _ _ _ E1). exact E2.
Qed.

Lemma range_four : range 4 = [0; 1; 2; 3]%Z.
Proof. reflexivity. Qed.

(** The loop over [range(4)] finishes when [Ierr] has four entries and
    stops with an [IndexError] when it has fewer. *)
Lemma plot_loop (s : state) :
  plot_ready yhat Ie X t p s ->
  (4 <= length Ie -> exists s', for_each (range 4) (plot_error yhat) s = (Ok tt, s')) /\
  (length Ie < 4 ->
   exists s', for_each (range 4) (plot_error yhat) s = (Raise IndexError, s')).
Proof.
  intros Hs. rewrite range_four. split; intros Hn.
  - destruct (for_each_ok [0; 1; 2; 3]%Z s Hs) as (s' & E & _); [|eauto].
    repeat (constructor; [lia|]). constructor.
  - destruct (length Ie) as [|[|[|[|n]]]] eqn:E; [| | | |lia].
    + apply (for_each_fault [] [1; 2; 3]%Z 0%Z s Hs); [constructor | lia].
    + apply (for_each_fault [0]%Z [2; 3]%Z 1%Z s Hs); [|lia].
      repeat (constructor; [lia|]). constructor.
    + apply (for_each_fault [0; 1]%Z [3]%Z 2%Z s Hs); [|lia].
      repeat (constructor; [lia|]). constructor.
    + apply (for_each_fault [0; 1; 2]%Z [] 3%Z s Hs); [|lia].
      repeat (constructor; [lia|]). constructor.
Qed.

End ErrorPlot.

Lemma four_reads_in_bounds (Ie : list Z) :
  Forall (fun i => exists k, getitem Ie i = Ok k) (range 4) <-> 4 <= length Ie.
Proof.
  rewrite range_four. split.
  - intros H. rewrite Forall_forall in H.
    destruct (H 3%Z) as [k Hk]; [repeat constructor|].
    apply getitem_inv in Hk as (j & Hj & Hl).
    apply lookup_lt_Some in Hl.
    unfold norm_index in Hj.
    destruct ((0 <=? 3)%Z && (3 <? Z.of_nat (length Ie))%Z) eqn:E.
    + apply andb_true_iff in E as [_ E]. apply Z.ltb_lt in E. lia.
    + rewrite andb_false_r in Hj. discriminate Hj.
  - intros H. repeat (constructor; [|]); try constructor.
    all: match goal with |- exists k, getitem _ ?i = _ =>
           destruct (getitem_nonneg Ie i ltac:(lia)) as (k & Hk & _); eauto end.
Qed.

(** C10.  The error plots of cells 19 and 61 read [Ierr[i]] for
    [i = 0, 1, 2, 3] unguarded.  With the test sub-sample bound (images of 784
    entries, one true and one predicted label each), the four reads are in
    bounds exactly when at least 4 predictions are wrong; then the cell
    finishes, and with fewer than 4 wrong predictions it stops with an
    [IndexError]. *)
Theorem error_plots_need_four_errors
    (s : state) (X : list (list float)) (t p : list Z) :
  env s !! "Xts1" = Some (F64Array2 X) ->
  env s !! "yts1" = Some (IntArray1 t) ->
  length p = length t ->
  length X = length t ->
  Forall (fun r => length r = 784) X ->
  (env s !! "yhat" = Some (IntArray1 p) ->
   let Ierr := np_where (zip_with (fun x y => negb (Z.eqb x y)) t p) in
   (Forall (fun i => exists k, getitem Ierr i = Ok k) (range 4) <-> 4 <= n_errors t p) /\
   (4 <= n_errors t p -> exists s', cell19 s = (Ok tt, s')) /\
   (n_errors t p < 4 -> exists s', cell19 s = (Raise IndexError, s'))) /\
  (env s !! "yhat_ts" = Some (IntArray1 p) ->
   let Ierr := np_where (zip_with (fun x y => negb (Z.eqb x y)) p t) in
   (Forall (fun i => exists k, getitem Ierr i = Ok k) (range 4) <-> 4 <= n_errors p t) /\
   (4 <= n_errors p t -> exists s', cell61 s = (Ok tt, s')) /\
   (n_errors p t < 4 -> exists s', cell61 s = (Raise IndexError, s'))).
Proof.
  intros HX Ht Hl HlX Hrows. split; intros Hp Ierr.
  - destruct (np_where_errors t p (eq_sym Hl)) as [Hn Hv]. fold Ierr in Hn, Hv.
    split; [rewrite <- Hn; apply four_reads_in_bounds|].
    assert (E : forall r, for_each (range 4) (plot_error "yhat")
                  (upd_env (fun e => <["Ierr" := IntArray1 Ierr]> (<["nplt" := PyInt 4]> e)) s) = r ->
                cell19 s = r).
    { intros r <-. unfold cell19. do 3 nb_step.
      erewrite run_lift by (apply ne_elementwise_value; symmetry; exact Hl).
      nb_step. unfold plot_errors. nb_step. reflexivity. }
    assert (R : plot_ready "yhat" Ierr X t p
                  (upd_env (fun e => <["Ierr" := IntArray1 Ierr]> (<["nplt" := PyInt 4]> e)) s)).
    { unfold plot_ready. repeat split; env_lookup. }
    destruct (plot_loop "yhat" Ierr X t p ltac:(done) ltac:(done) Hv Hrows HlX Hl _ R)
      as [Hok Hfault].
    rewrite Hn in Hok, Hfault.
    split; intros H4; [destruct (Hok H4) as [s' Hs'] | destruct (Hfault H4) as [s' Hs']];
      exists s'; apply E; exact Hs'.
  - destruct (np_where_errors p t Hl) as [Hn Hv]. fold Ierr in Hn, Hv.
    rewrite Hl in Hv.
    split; [rewrite <- Hn; apply four_reads_in_bounds|].
    assert (E : forall r, for_each (range 4) (plot_error "yhat_ts")
                  (upd_env (fun e => <["nplt" := PyInt 4]> (<["Ierr" := IntArray1 Ierr]> e)) s) = r ->
                cell61 s = r).
    { intros r <-. unfold cell61. do 2 nb_step.
      erewrite run_lift by (apply ne_elementwise_value; exact Hl).
      do 2 nb_step. unfold plot_errors. nb_step. reflexivity. }
    assert (R : plot_ready "yhat_ts" Ierr X t p
                  (upd_env (fun e => <["nplt" := PyInt 4]> (<["Ierr" := IntArray1 Ierr]> e)) s)).
    { unfold plot_ready. repeat split; env_lookup. }
    destruct (plot_loop "yhat_ts" Ierr X t p ltac:(done) ltac:(done) Hv Hrows HlX Hl _ R)
      as [Hok Hfault].
    rewrite Hn in Hok, Hfault.
    split; intros H4; [destruct (Hok H4) as [s' Hs'] | destruct (Hfault H4) as [s' Hs']];
      exists s'; apply E; exact Hs'.
Qed.

(** ** The confusion matrix (cell 21) *)

Lemma divide_row_same (row Csum : list Z) :
  length row = length Csum -> divide_row row Csum = Ok (zip_with fdiv row Csum).
Proof. intros H. unfold divide_row. rewrite H, Nat.eqb_refl. reflexivity. Qed.

Lemma divide_by_row_square (C : list (list Z)) (Csum : list Z) :
  Forall (fun r => length r = length Csum) C ->
  divide_by_row C Csum = Ok (map (fun row => zip_with fdiv row Csum) C).
Proof.
  induction 1 as [|row C Hrow _ IH]; [reflexivity|].
  cbn [divide_by_row map].
  rewrite (result_bind_ok _ _ _ (divide_row_same _ _ Hrow)).
  rewrite (result_bind_ok _ _ _ IH). reflexivity.
Qed.

Lemma normalised_entry (C : list (list Z)) (i j : nat) (ri rj : list Z) (cij : Z) :
  C !! i = Some ri -> ri !! j = Some cij -> C !! j = Some rj ->
  exists r, map (fun row => zip_with fdiv row (np_sum_axis1 C)) C !! i = Some r /\
    r !! j = Some (fdiv cij (fold_right Z.add 0%Z rj)).
Proof.
  intros Hi Hij Hj. eexists. split.
  - change (map ?f C) with (f <$> C). rewrite list_lookup_fmap, Hi. reflexivity.
  - rewrite lookup_zip_with, Hij. unfold np_sum_axis1.
    change (map ?f C) with (f <$> C). rewrite list_lookup_fmap, Hj. reflexivity.
Qed.

Lemma cell21_spec (s : state) (t p : list Z) (n : nat) :
  env s !! "yts1" = Some (IntArray1 t) ->
  env s !! "yhat" = Some (IntArray1 p) ->
  shape2 n n (confusion_matrix t p) ->
  let C := confusion_matrix t p in
  let Cn := map (fun row => zip_with fdiv row (np_sum_axis1 C)) C in
  cell21 s =
  (Ok tt,
   mkState (<["C" := F64Array2 Cn]> (<["Csum" := IntArray1 (np_sum_axis1 C)]>
              (<["C" := IntArray2 C]> (env s))))
     (fs s) (rng s) (fit_calls s) (shown s ++ [Cn])).
Proof.
  intros Ht Hp [Hn Hrows] C Cn. unfold cell21.
  do 7 nb_step.
  erewrite run_lift; [reflexivity|].
  apply divide_by_row_square. fold C.
  unfold np_sum_axis1. rewrite length_map.
  eapply Forall_impl; [exact Hrows|]. intros r Hr. cbn beta. fold C in Hn. congruence.
Qed.

(** C8.  Cell 21 on a square confusion matrix [C]: the cell finishes,
    [Csum] is the vector of row sums, and the entry of the normalised matrix
    at [(i, j)] is [C[i,j]] divided by the sum of row [j] (not of row [i]).
    The rows of the result need not add up to 1: for [C = [[1,0],[1,2]]],
    whose row sums are 1 and 3, the second row of the result adds up to
    [1/1 + 2/3]. *)
Theorem confusion_matrix_divided_by_row_sum_of_column_index
    (s : state) (t p : list Z) (n : nat) :
  env s !! "yts1" = Some (IntArray1 t) ->
  env s !! "yhat" = Some (IntArray1 p) ->
  shape2 n n (confusion_matrix t p) ->
  (exists (s' : state) (Cn : list (list float)),
     cell21 s = (Ok tt, s') /\
     env s' !! "Csum" = Some (IntArray1 (np_sum_axis1 (confusion_matrix t p))) /\
     env s' !! "C" = Some (F64Array2 Cn) /\
     forall (i j : nat) (ri rj : list Z) (cij : Z),
       confusion_matrix t p !! i = Some ri -> ri !! j = Some cij ->
       confusion_matrix t p !! j = Some rj ->
       exists r, Cn !! i = Some r /\
         r !! j = Some (float_of_Z cij / float_of_Z (fold_right Z.add 0%Z rj))%float) /\
  (exists (C0 : list (list Z)) (Cn0 : list (list float)) (r : list float),
     shape2 2 2 C0 /\
     Forall (fun c => c <> 0%Z) (np_sum_axis1 C0) /\
     divide_by_row C0 (np_sum_axis1 C0) = Ok Cn0 /\
     Cn0 !! 1 = Some r /\
     PrimFloat.eqb (row_total r) 1%float = false).
Proof.
  intros Ht Hp Hsq. split.
  - eexists _, _. split; [eapply cell21_spec; eassumption|].
    split; [env_lookup|]. split; [env_lookup|].
    intros i j ri rj cij Hi Hij Hj. apply (normalised_entry _ i j ri rj cij Hi Hij Hj).
  - exists [[1; 0]; [1; 2]]%Z. eexists _, _.
    split; [split; [reflexivity | repeat constructor]|].
    split; [repeat constructor; discriminate|].
    split; [vm_compute; reflexivity|].
    split; [reflexivity|]. vm_compute. reflexivity.
Qed.

(** ** The dataset invariants along the pipeline *)

Lemma lookup_name_inv (x : string) (s s' : state) (o : obj) :
  lookup_name x s = (Ok o, s') -> s' = s /\ env s !! x = Some o.
Proof.
  unfold lookup_name. destruct (env s !! x) as [v|]; [|discriminate].
  intros H. injection H as <- <-. auto.
Qed.

Lemma lift_inv {A : Type} (r : result A) (s s' : state) (a : A) :
  lift r s = (Ok a, s') -> s' = s /\ r = Ok a.
Proof. unfold lift. intros H. injection H as -> <-. auto. Qed.

Lemma getter_inv {A : Type} (f : obj -> result A) (x : string) (s s' : state) (a : A) :
  (lookup_name x ≫= fun o => lift (f o)) s = (Ok a, s') -> s' = s.
Proof.
  intros H. apply run_inv in H as (o & s1 & H1 & H2).
  apply lookup_name_inv in H1 as [-> _]. apply lift_inv in H2 as [-> _]. reflexivity.
Qed.

(** A fit rebinds the estimator's name and nothing else. *)
Lemma call_fit_frame (est xn yn : string) (s s' : state) :
  call_fit est xn yn s = (Ok tt, s') ->
  forall x, x <> est -> env s' !! x = env s !! x.
Proof.
  unfold call_fit. intros H x Hx.
  apply run_inv in H as (o & s1 & H1 & H). apply lookup_name_inv in H1 as [-> _].
  apply run_inv in H as (e & s1 & H1 & H). apply lift_inv in H1 as [-> _].
  apply run_inv in H as (X & s1 & H1 & H). apply getter_inv in H1 as ->.
  apply run_inv in H as (y & s1 & H1 & H). apply getter_inv in H1 as ->.
  rewrite run_bind in H. unfold log_fit, assign in H. injection H as <-.
  cbn [env upd_env]. apply lookup_insert_ne. congruence.
Qed.

Lemma call_predict_state (est xn : string) (s s' : state) (y : list Z) :
  call_predict est xn s = (Ok y, s') -> s' = s.
Proof.
  unfold call_predict. intros H.
  apply run_inv in H as (o & s1 & H1 & H). apply lookup_name_inv in H1 as [-> _].
  apply run_inv in H as (e & s1 & H1 & H). apply lift_inv in H1 as [-> _].
  apply run_inv in H as (Xo & s1 & H1 & H). apply lookup_name_inv in H1 as [-> _].
  destruct o; try discriminate H.
  apply run_inv in H as (X & s1 & H1 & H). apply lift_inv in H1 as [-> _].
  injection H as _ <-. reflexivity.
Qed.

Lemma take_rows_dataset (n npix : nat) (X X1 : list (list float)) (y y1 I : list Z) :
  dataset_ok n npix X y ->
  take_rows X I = Ok X1 ->
  take_rows y I = Ok y1 ->
  dataset_ok (length I) npix X1 y1.
Proof.
  intros ([_ HX] & _ & Hy) TX Ty.
  pose proof (take_rows_inv _ _ _ TX) as [LX _].
  pose proof (take_rows_inv _ _ _ Ty) as [Ly _].
  split; [split; [exact LX | eapply take_rows_Forall; eassumption]|].
  split; [exact Ly | eapply take_rows_Forall; eassumption].
Qed.

Lemma sub_sample_dataset (n npix : nat) (X : list (list float)) (y I : list Z) :
  dataset_ok n npix X y ->
  Forall (fun k => (0 <= k < Z.of_nat n)%Z) I ->
  exists X1 y1,
    take_rows X (slice_to 5000 I) = Ok X1 /\
    take_rows y (slice_to 5000 I) = Ok y1 /\
    dataset_ok (Nat.min (Z.to_nat 5000) (length I)) npix X1 y1.
Proof.
  intros Hd HI. pose proof Hd as ([HlX _] & Hly & _).
  rewrite <- HlX in HI.
  destruct (valid_indices_sub X y I ltac:(congruence) HI) as (X1 & y1 & TX & Ty & _).
  exists X1, y1. split; [exact TX|]. split; [exact Ty|].
  rewrite <- length_slice_5000. eapply take_rows_dataset; eassumption.
Qed.

Lemma roundtrip_keeps_intro (dump load : nb unit) (f : string) (names : list string)
    (Xn yn : string) :
  restores dump load f names ->
  Xn ∈ names -> yn ∈ names ->
  (forall s s1, dump s = (Ok tt, s1) ->
     env s1 !! Xn = env s !! Xn /\ env s1 !! yn = env s !! yn) ->
  roundtrip_keeps dump load Xn yn.
Proof.
  intros Hr HXn Hyn Hf s s1 n npix X y Hd HX Hy Hok.
  destruct (Hr s s1 Hd) as (vs & Hb & _ & Hp & Hl).
  destruct (Hl s1 eq_refl Hp) as (s3 & E & Hb3 & _).
  destruct (Hf s s1 Hd) as [EX Ey].
  exists s3, X, y. split; [exact E|].
  rewrite <- (bound_agree names vs s1 s3 Hb Hb3 Xn HXn), EX.
  rewrite <- (bound_agree names vs s1 s3 Hb Hb3 yn Hyn), Ey. auto.
Qed.

Lemma import_dump_env (f : string) (names : list string) (s s1 : state) :
  (import_pickle;; pickle_dump f names) s = (Ok tt, s1) ->
  forall x : string, x <> "fp" -> x <> "pickle" -> env s1 !! x = env s !! x.
Proof.
  intros H x H1 H2. unfold import_pickle in H. rewrite run_assign in H.
  rewrite (pickle_dump_env _ _ _ _ H x H1). cbn [env upd_env].
  apply lookup_insert_ne. congruence.
Qed.

(** C7.  The dataset invariants (every sample array has its declared
    dimensions, every label is one of the classes 0 to 9) along the pipeline.
    Rescaling and reshaping (cell 6) turn [n x nrow x ncol] arrays into
    [n x npix] arrays with [npix = nrow*ncol] (784 for 28 x 28 images): the
    element count the reshape requires is met, and the labels are untouched.
    Sub-sampling (cell 9; cell 34 for training and test set together) yields
    arrays of [npix] entries per sample with labels among the ten classes.
    Writing a snapshot and reading it back returns arrays within the same
    invariants. *)
Theorem pipeline_keeps_shapes_and_labels :
  (forall (s : state) (A B : list (list (list Z))) (ytr yts : list Z) (n nt nrow ncol : nat),
     env s !! "Xtr" = Some (U8Array3 A) ->
     env s !! "Xts" = Some (U8Array3 B) ->
     env s !! "ytr" = Some (IntArray1 ytr) ->
     env s !! "yts" = Some (IntArray1 yts) ->
     env s !! "ntr" = Some (PyInt (Z.of_nat n)) ->
     env s !! "nts" = Some (PyInt (Z.of_nat nt)) ->
     env s !! "nrow" = Some (PyInt (Z.of_nat nrow)) ->
     env s !! "ncol" = Some (PyInt (Z.of_nat ncol)) ->
     shape3 n nrow ncol A -> length ytr = n -> labels_ok ytr ->
     shape3 nt nrow ncol B -> length yts = nt -> labels_ok yts ->
     exists (s' : state) (Xtr' Xts' : list (list float)),
       cell6 s = (Ok tt, s') /\
       env s' !! "npix" = Some (PyInt (Z.of_nat nrow * Z.of_nat ncol)) /\
       env s' !! "Xtr" = Some (F64Array2 Xtr') /\
       env s' !! "ytr" = Some (IntArray1 ytr) /\
       env s' !! "Xts" = Some (F64Array2 Xts') /\
       env s' !! "yts" = Some (IntArray1 yts) /\
       dataset_ok n (nrow * ncol) Xtr' ytr /\
       dataset_ok nt (nrow * ncol) Xts' yts) /\
  (forall (s : state) (X : list (list float)) (y I : list Z) (n npix : nat),
     env s !! "Xtr" = Some (F64Array2 X) ->
     env s !! "ytr" = Some (IntArray1 y) ->
     env s !! "Iperm" = Some (IntArray1 I) ->
     dataset_ok n npix X y ->
     Forall (fun k => (0 <= k < Z.of_nat n)%Z) I ->
     exists (s' : state) (X1 : list (list float)) (y1 : list Z),
       cell9 s = (Ok tt, s') /\
       env s' !! "Xtr1" = Some (F64Array2 X1) /\
       env s' !! "ytr1" = Some (IntArray1 y1) /\
       dataset_ok (Nat.min (Z.to_nat 5000) (length I)) npix X1 y1) /\
  (forall (s : state) (X Xt : list (list float)) (y I yt It : list Z) (n nt npix : nat),
     env s !! "Xtr" = Some (F64Array2 X) ->
     env s !! "ytr" = Some (IntArray1 y) ->
     env s !! "Iperm" = Some (IntArray1 I) ->
     env s !! "Xts" = Some (F64Array2 Xt) ->
     env s !! "yts" = Some (IntArray1 yt) ->
     env s !! "Iperm_ts" = Some (IntArray1 It) ->
     dataset_ok n npix X y ->
     dataset_ok nt npix Xt yt ->
     Forall (fun k => (0 <= k < Z.of_nat n)%Z) I ->
     Forall (fun k => (0 <= k < Z.of_nat nt)%Z) It ->
     exists (s' : state) (X1 Xt1 : list (list float)) (y1 yt1 : list Z),
       cell34 s = (Ok tt, s') /\
       env s' !! "Xtr1" = Some (F64Array2 X1) /\
       env s' !! "ytr1" = Some (IntArray1 y1) /\
       env s' !! "Xts1" = Some (F64Array2 Xt1) /\
       env s' !! "yts1" = Some (IntArray1 yt1) /\
       dataset_ok (Nat.min (Z.to_nat 5000) (length I)) npix X1 y1 /\
       dataset_ok (Nat.min (Z.to_nat 5000) (length It)) npix Xt1 yt1) /\
  roundtrip_keeps cell13 cell15 "Xtr1" "ytr1" /\
  roundtrip_keeps cell37 cell39 "Xtr1" "ytr1" /\
  roundtrip_keeps cell43 cell44 "Xts1" "yts1" /\
  roundtrip_keeps cell54 cell55 "Xtr1" "ytr1" /\
  roundtrip_keeps cell57 cell58 "Xts1" "yts1".
Proof.
  split; [|split; [|split]].
  - intros s A B ytr yts n nt nrow ncol HA HB Hy Hyt Hn Hnt Hr Hc SA Ly Oy SB Lyt Oyt.
    eexists _, _, _. split; [eapply cell6_spec; eassumption|].
    unfold after_cell6.
    split; [env_lookup|]. split; [env_lookup|]. split; [env_lookup|].
    split; [env_lookup|]. split; [env_lookup|].
    rewrite <- !flatten_rescale.
    split; (split; [apply reshape2_rect, rescale_shape; assumption | split; assumption]).
  - intros s X y I n npix HX Hy HI Hd Hv.
    destruct (sub_sample_dataset n npix X y I Hd Hv) as (X1 & y1 & TX & Ty & Hd1).
    eexists _, X1, y1. split; [eapply cell9_spec; eassumption|].
    split; [env_lookup|]. split; [env_lookup|]. exact Hd1.
  - intros s X Xt y I yt It n nt npix HX Hy HI HXt Hyt HIt Hd Hdt Hv Hvt.
    destruct (sub_sample_dataset n npix X y I Hd Hv) as (X1 & y1 & TX & Ty & Hd1).
    destruct (sub_sample_dataset nt npix Xt yt It Hdt Hvt) as (Xt1 & yt1 & TXt & Tyt & Hdt1).
    eexists _, X1, Xt1, y1, yt1. split; [eapply cell34_spec; eassumption|].
    split; [env_lookup|]. split; [env_lookup|]. split; [env_lookup|]. split; [env_lookup|].
    split; assumption.
  - split; [|split; [|split; [|split]]].
    + eapply roundtrip_keeps_intro; [exact restores_cell13 | listed | listed |].
      intros s s1 H. unfold cell13 in H.
      split; apply (import_dump_env _ _ _ _ H); done.
    + eapply roundtrip_keeps_intro;
        [unfold cell39; apply restores_import, restores_cell37 | listed | listed |].
      intros s s1 H. unfold cell37 in H.
      split; apply (import_dump_env _ _ _ _ H); done.
    + eapply roundtrip_keeps_intro; [exact restores_cell43 | listed | listed |].
      intros s s1 H. unfold cell43 in H.
      split; apply (pickle_dump_env _ _ _ _ H); done.
    + eapply roundtrip_keeps_intro;
        [unfold cell55; apply restores_import, restores_cell54 | listed | listed |].
      intros s s1 H. unfold cell54 in H.
      apply run_inv in H as ([] & s' & Hf & Hd).
      rewrite !(import_dump_env _ _ _ _ Hd) by done.
      split; apply (call_fit_frame _ _ _ _ _ Hf); done.
    + eapply roundtrip_keeps_intro; [exact restores_cell57 | listed | listed |].
      intros s s1 H. unfold cell57 in H.
      apply run_inv in H as (yh & s' & Hp & H). apply call_predict_state in Hp as ->.
      rewrite run_assign in H. rewrite !(pickle_dump_env _ _ _ _ H) by done.
      cbn [env upd_env]. split; apply lookup_insert_ne; done.
Qed.

(** ** The linear machine's training data (cells 34 and 35) *)

(** Cell 34 draws the 5000-row sub-sample [Xtr1], [ytr1]; cell 35 then fits
    the linear machine on [Xtr], [ytr], the arrays the sub-sample was drawn
    from. *)
Lemma linear_svm_fit_on_whole_training_set
    (s : state) (e : estimator) (X Xt : list (list float)) (y I yt It : list Z) :
  env s !! "svc" = Some (Estimator e) ->
  env s !! "Xtr" = Some (F64Array2 X) ->
  env s !! "ytr" = Some (IntArray1 y) ->
  env s !! "Iperm" = Some (IntArray1 I) ->
  env s !! "Xts" = Some (F64Array2 Xt) ->
  env s !! "yts" = Some (IntArray1 yt) ->
  env s !! "Iperm_ts" = Some (IntArray1 It) ->
  length y = length X ->
  length yt = length Xt ->
  Forall (fun k => (0 <= k < Z.of_nat (length X))%Z) I ->
  Forall (fun k => (0 <= k < Z.of_nat (length Xt))%Z) It ->
  exists (s' : state) (X1 : list (list float)) (y1 : list Z),
    (cell34 ≫= fun _ => cell35) s = (Ok tt, s') /\
    env s' !! "Xtr1" = Some (F64Array2 X1) /\
    env s' !! "ytr1" = Some (IntArray1 y1) /\
    length X1 = Nat.min (Z.to_nat 5000) (length I) /\
    fit_calls s' = fit_calls s ++ [(e, X, y)].
Proof.
  intros Hsvc HX Hy HI HXt Hyt HIt Ly Lyt Hv Hvt.
  destruct (valid_indices_sub X y I Ly Hv) as (X1 & y1 & TX & Ty & L1 & _).
  destruct (valid_indices_sub Xt yt It Lyt Hvt) as (Xt1 & yt1 & TXt & Tyt & _).
  eexists _, X1, y1. split.
  - erewrite run_ok by (eapply cell34_spec; eassumption).
    unfold cell35. eapply call_fit_spec; [env_lookup | reflexivity | env_lookup | env_lookup].
  - unfold after_fit. cbn [env fit_calls upd_env].
    split; [env_lookup|]. split; [env_lookup|].
    split; [rewrite <- length_slice_5000; exact L1 | reflexivity].
Qed.

(** ** Reshaping (cell 6 and [plt_digit]) *)

Lemma concat_chunks {A : Type} (n m : nat) (flat : list A) :
  length flat = n * m -> concat (chunks n m flat) = flat.
Proof.
  revert flat. induction n as [|n IH]; intros flat H; cbn [chunks concat].
  - destruct flat; [reflexivity | discriminate H].
  - rewrite IH; [apply firstn_skipn|]. rewrite length_skipn. lia.
Qed.

Lemma chunks_map {A B : Type} (f : A -> B) (n m : nat) (flat : list A) :
  chunks n m (map f flat) = map (map f) (chunks n m flat).
Proof.
  revert flat. induction n as [|n IH]; intros flat; [reflexivity|].
  cbn [chunks map]. rewrite firstn_map, skipn_map, IH. reflexivity.
Qed.

Lemma reshape_flat_inv {A : Type} (n m : Z) (flat : list A) (rows : list (list A)) :
  reshape_flat n m flat = Ok rows ->
  (0 <= n)%Z /\ (0 <= m)%Z /\ length flat = Z.to_nat n * Z.to_nat m /\
  rows = chunks (Z.to_nat n) (Z.to_nat m) flat.
Proof.
  unfold reshape_flat.
  destruct ((0 <=? n)%Z && (0 <=? m)%Z && (Z.of_nat (length flat) =? n * m)%Z) eqn:E;
    [|discriminate].
  apply andb_true_iff in E as [E E3]. apply andb_true_iff in E as [E1 E2].
  apply Z.leb_le in E1, E2. apply Z.eqb_eq in E3.
  intros H. injection H as <-. repeat split; try assumption. nia.
Qed.

(** X1.  [reshape] neither reorders nor drops entries.  Reshaping the
    flattened rows of an [n x m] array to [(n, m)] gives the array back;
    whatever a reshape returns has the requested shape and flattens to the
    buffer it was given; and a buffer whose element count is not [n*m] is
    refused with [ValueError] (for dimensions that are not negative, the
    only ones the notebook passes). *)
Theorem reshape_is_a_round_trip {A : Type} :
  (forall (n m : nat) (rows : list (list A)),
     shape2 n m rows ->
     reshape_flat (Z.of_nat n) (Z.of_nat m) (concat rows) = Ok rows) /\
  (forall (n m : Z) (flat : list A) (rows : list (list A)),
     reshape_flat n m flat = Ok rows ->
     concat rows = flat /\ shape2 (Z.to_nat n) (Z.to_nat m) rows) /\
  (forall (n m : Z) (flat : list A),
     (0 <= n)%Z -> (0 <= m)%Z -> Z.of_nat (length flat) <> (n * m)%Z ->
     reshape_flat n m flat = Raise ValueError).
Proof.
  split; [|split].
  - intros n m rows [Hn Hr]. unfold reshape_flat.
    rewrite (length_concat_rect m rows Hr), Hn.
    replace ((0 <=? Z.of_nat n)%Z) with true by (symmetry; apply Z.leb_le; lia).
    replace ((0 <=? Z.of_nat m)%Z) with true by (symmetry; apply Z.leb_le; lia).
    replace ((Z.of_nat (n * m) =? Z.of_nat n * Z.of_nat m)%Z) with true
      by (symmetry; apply Z.eqb_eq; lia).
    cbn [andb]. rewrite !Nat2Z.id, <- Hn. f_equal. apply chunks_concat. exact Hr.
  - intros n m flat rows H.
    apply reshape_flat_inv in H as (_ & _ & Hl & ->).
    split; [apply concat_chunks | apply chunks_shape]; exact Hl.
  - intros n m flat _ _ H. unfold reshape_flat.
    replace ((Z.of_nat (length flat) =? n * m)%Z) with false
      by (symmetry; apply Z.eqb_neq; exact H).
    rewrite andb_false_r. reflexivity.
Qed.

(** ** Loops *)

Lemma for_each_app (l1 l2 : list Z) (body : Z -> nb unit) (s : state) :
  for_each (l1 ++ l2) body s =
  match for_each l1 body s with
  | (Ok _, s1) => for_each l2 body s1
  | (Raise e, s1) => (Raise e, s1)
  end.
Proof.
  revert s. induction l1 as [|i l1 IH]; intros s; [reflexivity|].
  cbn [app for_each]. rewrite !run_assign, !run_bind.
  destruct (body i (upd_env <["i":=PyInt i]> s)) as [[[]|e] s1]; [apply IH | reflexivity].
Qed.

(** A loop whose every iteration finishes and re-establishes [Inv]. *)
Lemma for_each_inv (body : Z -> nb unit) (l : list Z) :
  forall (Inv : nat -> state -> Prop) (s : state),
    (forall (j : nat) (i : Z) (s1 : state), l !! j = Some i -> Inv j s1 ->
       exists s2, (assign "i" (PyInt i) ≫= fun _ => body i) s1 = (Ok tt, s2) /\
         Inv (S j) s2) ->
    Inv 0 s ->
    exists s', for_each l body s = (Ok tt, s') /\ Inv (length l) s'.
Proof.
  induction l as [|i l IH]; intros Inv s Hstep H0.
  - exists s. split; [reflexivity | exact H0].
  - destruct (Hstep 0 i s eq_refl H0) as (s1 & E1 & H1).
    destruct (IH (fun j => Inv (S j)) s1) as (s2 & E2 & H2).
    + intros j i' s' Hj Hs'. apply (Hstep (S j) i' s' Hj Hs').
    + exact H1.
    + exists s2. split; [|exact H2].
      cbn [for_each]. rewrite run_assign. rewrite run_assign in E1.
      rewrite (run_ok _ _ _ _ _ E1). exact E2.
Qed.

(** A loop that stops with [e] in the iteration after those of [l1]. *)
Lemma for_each_stops (body : Z -> nb unit) (l1 l2 : list Z) (i : Z) (e : exn)
    (Inv : nat -> state -> Prop) (Q : state -> Prop) (s : state) :
  (forall (j : nat) (i' : Z) (s1 : state), l1 !! j = Some i' -> Inv j s1 ->
     exists s2, (assign "i" (PyInt i') ≫= fun _ => body i') s1 = (Ok tt, s2) /\
       Inv (S j) s2) ->
  (forall s1 : state, Inv (length l1) s1 ->
     exists s2, (assign "i" (PyInt i) ≫= fun _ => body i) s1 = (Raise e, s2) /\ Q s2) ->
  Inv 0 s ->
  exists s', for_each (l1 ++ i :: l2) body s = (Raise e, s') /\ Q s'.
Proof.
  intros Hstep Hstop H0.
  destruct (for_each_inv body l1 Inv s Hstep H0) as (s1 & E1 & H1).
  destruct (Hstop s1 H1) as (s2 & E2 & HQ).
  exists s2. split; [|exact HQ].
  rewrite for_each_app, E1. cbn [for_each]. rewrite run_assign.
  rewrite run_assign in E2. rewrite run_bind, E2. reflexivity.
Qed.

Lemma range_of_nat (n : nat) : range (Z.of_nat n) = map Z.of_nat (seq 0 n).
Proof. unfold range. rewrite Nat2Z.id. reflexivity. Qed.

Lemma range_lookup (n j : nat) (i : Z) :
  range (Z.of_nat n) !! j = Some i -> i = Z.of_nat j /\ j < n.
Proof.
  rewrite range_of_nat. change (map ?f ?l) with (f <$> l).
  rewrite list_lookup_fmap. intros H.
  destruct (seq 0 n !! j) as [k|] eqn:E; [|discriminate H].
  apply lookup_seq in E as [-> Hj]. injection H as <-. auto.
Qed.

Lemma length_range (n : nat) : length (range (Z.of_nat n)) = n.
Proof. rewrite range_of_nat, length_map, length_seq. reflexivity. Qed.

Lemma range_split (a b : nat) :
  range (Z.of_nat (a + S b)) =
  range (Z.of_nat a) ++ Z.of_nat a :: map Z.of_nat (seq (S a) b).
Proof.
  rewrite !range_of_nat, seq_app, map_app. reflexivity.
Qed.

Lemma getitem_lookup {A : Type} (a : list A) (j : nat) (x : A) :
  a !! j = Some x -> getitem a (Z.of_nat j) = Ok x.
Proof.
  intros H. pose proof (lookup_lt_Some _ _ _ H) as Hj.
  destruct (getitem_nonneg a (Z.of_nat j) ltac:(lia)) as (x' & G & L).
  rewrite Nat2Z.id in L. congruence.
Qed.

Lemma getitem_beyond {A : Type} (a : list A) (k : Z) :
  (Z.of_nat (length a) <= k)%Z -> getitem a k = Raise IndexError.
Proof.
  intros H. unfold getitem, norm_index.
  replace ((k <? Z.of_nat (length a))%Z) with false by (symmetry; apply Z.ltb_ge; lia).
  replace ((k <? 0)%Z) with false by (symmetry; apply Z.ltb_ge; lia).
  rewrite !andb_false_r. reflexivity.
Qed.

Lemma reshape_flat_mismatch {A : Type} (n m : Z) (flat : list A) :
  Z.of_nat (length flat) <> (n * m)%Z -> reshape_flat n m flat = Raise ValueError.
Proof.
  intros H. unfold reshape_flat.
  replace ((Z.of_nat (length flat) =? n * m)%Z) with false
    by (symmetry; apply Z.eqb_neq; exact H).
  rewrite andb_false_r. reflexivity.
Qed.

Lemma plt_digit_wrong_size (x : list float) (s : state) :
  length x <> 784 -> plt_digit x s = (Raise ValueError, s).
Proof.
  intros H. unfold plt_digit. rewrite run_bind. unfold lift.
  rewrite reshape_flat_mismatch by lia. reflexivity.
Qed.

Lemma drew_nothing (Ns : list string) (s : state) : drew Ns [] s s.
Proof. unfold drew. rewrite app_nil_r. auto. Qed.

(** ** The loops that draw rows of an array (cells 7, 50 and 66) *)

Section PlotRows.

Variables In Xn : string.
Variable I : list Z.
Variable X : list (list float).
Hypothesis In_i : In <> "i".
Hypothesis In_ind : In <> "ind".
Hypothesis Xn_i : Xn <> "i".
Hypothesis Xn_ind : Xn <> "ind".

Lemma plot_row_shows (i k : Z) (x : list float) (s : state) :
  env s !! In = Some (IntArray1 I) ->
  env s !! Xn = Some (F64Array2 X) ->
  getitem I i = Ok k -> getitem X k = Ok x -> length x = 784 ->
  (assign "i" (PyInt i) ≫= fun _ => plot_row In Xn i) s =
  (Ok tt, mkState (<["ind" := PyInt k]> (<["i" := PyInt i]> (env s))) (fs s) (rng s)
            (fit_calls s) (shown s ++ [chunks 28 28 x])).
Proof.
  intros HI HX Gk Gx Hx. rewrite run_assign. unfold plot_row.
  nb_step. erewrite run_lift by exact Gk. do 3 nb_step.
  rewrite run_lift with (a := x) by exact Gx.
  rewrite plt_digit_spec by exact Hx. reflexivity.
Qed.

Lemma plot_row_beyond (i : Z) (s : state) :
  env s !! In = Some (IntArray1 I) ->
  (Z.of_nat (length I) <= i)%Z ->
  (assign "i" (PyInt i) ≫= fun _ => plot_row In Xn i) s =
  (Raise IndexError, upd_env (<["i" := PyInt i]>) s).
Proof.
  intros HI Hi. rewrite run_assign. unfold plot_row.
  nb_step. rewrite run_bind. unfold lift at 1.
  rewrite (getitem_beyond I i Hi). reflexivity.
Qed.

Lemma plot_row_wrong_size (i k : Z) (x : list float) (s : state) :
  env s !! In = Some (IntArray1 I) ->
  env s !! Xn = Some (F64Array2 X) ->
  getitem I i = Ok k -> getitem X k = Ok x -> length x <> 784 ->
  (assign "i" (PyInt i) ≫= fun _ => plot_row In Xn i) s =
  (Raise ValueError,
   upd_env (fun e => <["ind" := PyInt k]> (<["i" := PyInt i]> e)) s).
Proof.
  intros HI HX Gk Gx Hx. rewrite run_assign. unfold plot_row.
  nb_step. erewrite run_lift by exact Gk. do 3 nb_step.
  rewrite run_lift with (a := x) by exact Gx.
  rewrite plt_digit_wrong_size by exact Hx. reflexivity.
Qed.

(** The bindings of [i] and [ind] leave the other names alone. *)
Lemma loop_names_frame (i k : Z) (x : string) (e : gmap string obj) :
  x ∉ ["i"; "ind"] -> <["ind" := PyInt k]> (<["i" := PyInt i]> e) !! x = e !! x.
Proof.
  intros H. rewrite !not_elem_of_cons in H. destruct H as (H1 & H2 & _).
  rewrite !lookup_insert_ne by congruence. reflexivity.
Qed.

Variable imgs : list (list (list float)).

Lemma plot_rows_step (s : state) (n j : nat) (i : Z) (s1 : state) :
  (forall j, j < n ->
     exists k x, getitem I (Z.of_nat j) = Ok k /\ getitem X k = Ok x /\
       length x = 784 /\ imgs !! j = Some (chunks 28 28 x)) ->
  range (Z.of_nat n) !! j = Some i -> rows_after In Xn I X imgs s j s1 ->
  exists s2, (assign "i" (PyInt i) ≫= fun _ => plot_row In Xn i) s1 = (Ok tt, s2) /\
    rows_after In Xn I X imgs s (S j) s2.
Proof.
  intros Himg Hj (HI & HX & Hf & Hfs & Hrng & Hfit & Hsh).
  apply range_lookup in Hj as [-> Hj].
  destruct (Himg j Hj) as (k & x & Gk & Gx & Hx & Hi).
  eexists. split; [apply (plot_row_shows _ k x s1 HI HX Gk Gx Hx)|].
  unfold rows_after, drew. cbn [env fs rng fit_calls shown].
  rewrite !lookup_insert_ne by done.
  split; [exact HI|]. split; [exact HX|].
  split; [intros y Hy; rewrite (loop_names_frame _ _ _ _ Hy); apply Hf; exact Hy|].
  split; [exact Hfs|]. split; [exact Hrng|]. split; [exact Hfit|].
  rewrite Hsh, <- app_assoc. f_equal. symmetry. apply take_S_r. exact Hi.
Qed.

Lemma plot_rows_loop (n : nat) (s : state) :
  env s !! In = Some (IntArray1 I) ->
  env s !! Xn = Some (F64Array2 X) ->
  length imgs = n ->
  (forall j, j < n ->
     exists k x, getitem I (Z.of_nat j) = Ok k /\ getitem X k = Ok x /\
       length x = 784 /\ imgs !! j = Some (chunks 28 28 x)) ->
  exists s', for_each (range (Z.of_nat n)) (plot_row In Xn) s = (Ok tt, s') /\
    drew ["i"; "ind"] imgs s s'.
Proof.
  intros HI HX Hl Himg.
  destruct (for_each_inv (plot_row In Xn) (range (Z.of_nat n))
              (rows_after In Xn I X imgs s) s) as (s' & E & _ & _ & Hd).
  - intros j i s1. apply plot_rows_step. exact Himg.
  - split; [exact HI|]. split; [exact HX|]. apply drew_nothing.
  - exists s'. split; [exact E|].
    rewrite length_range, <- Hl, firstn_all in Hd. exact Hd.
Qed.

(** With fewer index entries than iterations, the loop draws one image per
    entry and then stops at the read of the missing one. *)
Lemma plot_rows_short (n : nat) (s : state) :
  env s !! In = Some (IntArray1 I) ->
  env s !! Xn = Some (F64Array2 X) ->
  length imgs = length I ->
  length I < n ->
  (forall j, j < length I ->
     exists k x, getitem I (Z.of_nat j) = Ok k /\ getitem X k = Ok x /\
       length x = 784 /\ imgs !! j = Some (chunks 28 28 x)) ->
  exists s', for_each (range (Z.of_nat n)) (plot_row In Xn) s = (Raise IndexError, s') /\
    drew ["i"; "ind"] imgs s s'.
Proof.
  intros HI HX Hl Hn Himg.
  replace n with (length I + S (n - length I - 1)) by lia.
  rewrite range_split.
  apply (for_each_stops (plot_row In Xn) _ _ _ IndexError (rows_after In Xn I X imgs s)
           (drew ["i"; "ind"] imgs s)).
  - intros j i s1. apply plot_rows_step. exact Himg.
  - intros s1 (HI1 & _ & Hf & Hfs & Hrng & Hfit & Hsh).
    rewrite length_range, <- Hl, firstn_all in Hsh.
    eexists. split; [apply plot_row_beyond; [exact HI1 | lia]|].
    unfold drew. cbn [env fs rng fit_calls shown upd_env].
    split; [|auto].
    intros y Hy. pose proof Hy as Hy'.
    rewrite not_elem_of_cons in Hy'. destruct Hy' as [Hy1 _].
    rewrite lookup_insert_ne by congruence. apply Hf. exact Hy.
  - split; [exact HI|]. split; [exact HX|]. apply drew_nothing.
Qed.

End PlotRows.

Lemma permutation_nat_length (n : nat) (g : generator) :
  length (fst (permutation n g)) = n.
Proof. rewrite (Permutation_length (permutation_spec n g)). apply length_seq. Qed.

Lemma permutation_nat_valid (n : nat) (g : generator) :
  Forall (fun k => k < n) (fst (permutation n g)).
Proof.
  apply Forall_forall. intros k Hk.
  apply list_elem_of_In in Hk.
  apply (Permutation_in _ (permutation_spec n g)) in Hk.
  apply in_seq in Hk. lia.
Qed.

Lemma rows_drawn_map (X : list (list float)) (ks : list nat) :
  Forall (fun k => k < length X) ks ->
  rows_drawn X ks (map (fun k => chunks 28 28 (nth k X [])) ks).
Proof.
  induction 1 as [|k ks Hk _ IH]; [constructor|].
  cbn [map]. constructor; [|exact IH].
  destruct (lookup_lt_is_Some_2 X k Hk) as [x Hx].
  exists x. split; [exact Hx|]. rewrite (nth_lookup_Some _ _ _ _ Hx). reflexivity.
Qed.

(** What the loop reads in its iteration [j], for a valid index array. *)
Lemma drawn_reads (X : list (list float)) (ks : list nat) (m j : nat) :
  Forall (fun r => length r = 784) X ->
  Forall (fun k => k < length X) ks ->
  j < Nat.min m (length ks) ->
  exists k x, getitem (map Z.of_nat ks) (Z.of_nat j) = Ok k /\ getitem X k = Ok x /\
    length x = 784 /\
    map (fun k => chunks 28 28 (nth k X [])) (take m ks) !! j = Some (chunks 28 28 x).
Proof.
  intros HX Hks Hj.
  destruct (lookup_lt_is_Some_2 ks j ltac:(lia)) as [k Hk].
  assert (Hkl : k < length X).
  { rewrite Forall_forall in Hks. apply Hks. eapply list_elem_of_lookup_2. exact Hk. }
  destruct (lookup_lt_is_Some_2 X k Hkl) as [x Hx].
  exists (Z.of_nat k), x.
  split.
  { apply getitem_lookup. change (map ?f ?l) with (f <$> l).
    rewrite list_lookup_fmap, Hk. reflexivity. }
  split; [apply getitem_lookup; exact Hx|].
  split.
  { rewrite Forall_forall in HX. apply HX. eapply list_elem_of_lookup_2. exact Hx. }
  change (map ?f ?l) with (f <$> l).
  rewrite list_lookup_fmap, lookup_take_lt by lia. rewrite Hk. cbn [fmap option_fmap option_map].
  rewrite (nth_lookup_Some _ _ _ _ Hx). reflexivity.
Qed.

(** The loop of [nplt] iterations over a valid index array of [X]: with at
    least [nplt] indices it draws the rows at the first [nplt] of them, with
    fewer it draws a row for every index and stops at the next read. *)
Lemma random_rows_plot (In Xn : string) (X : list (list float)) (ks : list nat)
    (nplt : nat) (s : state) :
  In <> "i" -> In <> "ind" -> Xn <> "i" -> Xn <> "ind" ->
  env s !! In = Some (IntArray1 (map Z.of_nat ks)) ->
  env s !! Xn = Some (F64Array2 X) ->
  Forall (fun r => length r = 784) X ->
  Forall (fun k => k < length X) ks ->
  (nplt <= length ks ->
   exists s' imgs,
     for_each (range (Z.of_nat nplt)) (plot_row In Xn) s = (Ok tt, s') /\
     drew ["i"; "ind"] imgs s s' /\ rows_drawn X (take nplt ks) imgs) /\
  (length ks < nplt ->
   exists s' imgs,
     for_each (range (Z.of_nat nplt)) (plot_row In Xn) s = (Raise IndexError, s') /\
     drew ["i"; "ind"] imgs s s' /\ rows_drawn X ks imgs).
Proof.
  intros N1 N2 N3 N4 HI HX Hrows Hks. split; intros Hn.
  - destruct (plot_rows_loop In Xn (map Z.of_nat ks) X N1 N2 N3 N4
                (map (fun k => chunks 28 28 (nth k X [])) (take nplt ks)) nplt s HI HX)
      as (s' & E & Hd).
    + rewrite length_map, length_take. lia.
    + intros j Hj. apply drawn_reads; [exact Hrows | exact Hks | lia].
    + eexists s', _. split; [exact E|]. split; [exact Hd|].
      apply rows_drawn_map. apply Forall_take. exact Hks.
  - destruct (plot_rows_short In Xn (map Z.of_nat ks) X N1 N2 N3 N4
                (map (fun k => chunks 28 28 (nth k X [])) ks) nplt s HI HX)
      as (s' & E & Hd).
    + rewrite !length_map. reflexivity.
    + rewrite length_map. exact Hn.
    + rewrite length_map. intros j Hj.
      destruct (drawn_reads X ks (length ks) j Hrows Hks ltac:(lia)) as (k & x & H).
      rewrite firstn_all in H. exists k, x. exact H.
    + eexists s', _. split; [exact E|]. split; [exact Hd|].
      apply rows_drawn_map. exact Hks.
Qed.

(** ** The first plot (cell 7) *)

Lemma cell7_loop (s : state) (n : nat) :
  env s !! "ntr" = Some (PyInt (Z.of_nat n)) ->
  cell7 s =
  for_each (range 8) (plot_row "Iperm" "Xtr")
    (mkState (<["Iperm" := IntArray1 (map Z.of_nat (fst (permutation n (rng s))))]>
                (<["nplt" := PyInt 8]> (env s)))
       (fs s) (snd (permutation n (rng s))) (fit_calls s) (shown s)).
Proof.
  intros Hn. unfold cell7. do 2 nb_step.
  rewrite (run_permutation _ _ _ (fst (permutation n (rng s)))
             (snd (permutation n (rng s)))).
  2: { cbn [rng upd_env]. rewrite Nat2Z.id. apply surjective_pairing. }
  do 2 nb_step. reflexivity.
Qed.

Lemma flat_image_drawn (A : list (list (list Z))) (n : nat) (ks : list nat)
    (imgs : list (list (list float))) :
  shape3 n 28 28 A ->
  rows_drawn (map (fun img => map rescale_px (concat img)) A) ks imgs ->
  Forall2 (fun k img => exists a, A !! k = Some a /\ img = map (map rescale_px) a) ks imgs.
Proof.
  intros [_ HA] H. unfold rows_drawn in H.
  eapply Forall2_impl; [exact H|].
  intros k img (x & Hx & ->).
  change (map ?f A) with (f <$> A) in Hx. rewrite list_lookup_fmap in Hx.
  destruct (A !! k) as [a|] eqn:Ea; [|discriminate Hx].
  injection Hx as <-. exists a. split; [reflexivity|].
  rewrite Forall_forall in HA.
  destruct (HA a (list_elem_of_lookup_2 _ _ _ Ea)) as [La Ra].
  rewrite chunks_map. f_equal.
  pose proof (chunks_concat 28 a Ra) as C. rewrite La in C. exact C.
Qed.

(** X2.  Cell 7 on the training set as cell 6 leaves it ([n >= 8] images of
    28 x 28 pixels, rescaled and flattened): the cell finishes, binds [Iperm]
    to a permutation of [0 .. n-1], and shows the eight images at the first
    eight positions of [Iperm].  Each image shown is the rescaled original:
    reshaping the row to 28 x 28 undoes the flattening of cell 6. *)
Theorem first_plot_shows_eight_training_images
    (s : state) (A : list (list (list Z))) (n : nat) :
  env s !! "Xtr" = Some (F64Array2 (map (fun img => map rescale_px (concat img)) A)) ->
  env s !! "ntr" = Some (PyInt (Z.of_nat n)) ->
  shape3 n 28 28 A ->
  8 <= n ->
  exists (s' : state) (ks : list nat) (imgs : list (list (list float))),
    cell7 s = (Ok tt, s') /\
    env s' !! "Iperm" = Some (IntArray1 (map Z.of_nat ks)) /\
    Permutation ks (seq 0 n) /\
    shown s' = shown s ++ imgs /\
    length imgs = 8 /\
    Forall2 (fun k img => exists a, A !! k = Some a /\ img = map (map rescale_px) a)
      (take 8 ks) imgs.
Proof.
  intros HX Hn HA H8.
  set (ks := fst (permutation n (rng s))).
  set (X := map (fun img => map rescale_px (concat img)) A) in *.
  assert (LX : length X = n) by (unfold X; rewrite length_map; exact (proj1 HA)).
  assert (RX : Forall (fun r => length r = 784) X).
  { unfold X. apply Forall_map. eapply Forall_impl; [exact (proj2 HA)|].
    intros a [La Ra]. cbn beta. rewrite length_map, (length_concat_rect 28 a Ra), La.
    reflexivity. }
  assert (Vk : Forall (fun k => k < length X) ks)
    by (rewrite LX; apply permutation_nat_valid).
  rewrite (cell7_loop s n Hn). fold ks.
  match goal with |- context [for_each _ _ ?s1] => set (s1' := s1) end.
  destruct (random_rows_plot "Iperm" "Xtr" X ks 8 s1') as [Hok _];
    [done | done | done | done | subst s1'; env_lookup | subst s1'; env_lookup
    | exact RX | exact Vk |].
  destruct Hok as (s' & imgs & E & (Hf & _ & _ & _ & Hsh) & Hd).
  { unfold ks. rewrite permutation_nat_length. exact H8. }
  exists s', ks, imgs. split; [exact E|].
  split.
  { rewrite Hf by (rewrite !not_elem_of_cons; repeat split; try done; apply not_elem_of_nil).
    subst s1'. env_lookup. }
  split; [apply permutation_spec|].
  split; [exact Hsh|].
  split.
  { rewrite <- (Forall2_length _ _ _ Hd), length_take.
    unfold ks. rewrite permutation_nat_length. lia. }
  eapply flat_image_drawn; [exact HA | exact Hd].
Qed.

(** X3.  Cell 7 reads [Iperm[i]] for [i = 0, ..., 7] unguarded.  On a
    training set of fewer than eight images it shows them all and then stops
    with [IndexError]; [Iperm] is bound by then, to a permutation of
    [0 .. n-1]. *)
Theorem first_plot_needs_eight_samples
    (s : state) (X : list (list float)) (n : nat) :
  env s !! "Xtr" = Some (F64Array2 X) ->
  env s !! "ntr" = Some (PyInt (Z.of_nat n)) ->
  shape2 n 784 X ->
  n < 8 ->
  exists (s' : state) (ks : list nat) (imgs : list (list (list float))),
    cell7 s = (Raise IndexError, s') /\
    env s' !! "Iperm" = Some (IntArray1 (map Z.of_nat ks)) /\
    Permutation ks (seq 0 n) /\
    shown s' = shown s ++ imgs /\
    rows_drawn X ks imgs.
Proof.
  intros HX Hn [LX RX] H8.
  set (ks := fst (permutation n (rng s))).
  assert (Vk : Forall (fun k => k < length X) ks)
    by (rewrite LX; apply permutation_nat_valid).
  rewrite (cell7_loop s n Hn). fold ks.
  match goal with |- context [for_each _ _ ?s1] => set (s1' := s1) end.
  destruct (random_rows_plot "Iperm" "Xtr" X ks 8 s1') as [_ Hstop];
    [done | done | done | done | subst s1'; env_lookup | subst s1'; env_lookup
    | exact RX | exact Vk |].
  destruct Hstop as (s' & imgs & E & (Hf & _ & _ & _ & Hsh) & Hd).
  { unfold ks. rewrite permutation_nat_length. exact H8. }
  exists s', ks, imgs. split; [exact E|].
  split.
  { rewrite Hf by (rewrite !not_elem_of_cons; repeat split; try done; apply not_elem_of_nil).
    subst s1'. env_lookup. }
  split; [apply permutation_spec|].
  split; [exact Hsh | exact Hd].
Qed.

(** X4.  [plt_digit] reshapes to 28 x 28 whatever the data: on a training
    set whose rows do not have 784 entries, cell 7 stops with [ValueError] at
    its first image, after [Iperm] was bound and with nothing shown. *)
Theorem first_plot_needs_784_pixels
    (s : state) (X : list (list float)) (n npix : nat) :
  env s !! "Xtr" = Some (F64Array2 X) ->
  env s !! "ntr" = Some (PyInt (Z.of_nat n)) ->
  shape2 n npix X ->
  npix <> 784 ->
  0 < n ->
  exists (s' : state) (ks : list nat),
    cell7 s = (Raise ValueError, s') /\
    env s' !! "Iperm" = Some (IntArray1 (map Z.of_nat ks)) /\
    Permutation ks (seq 0 n) /\
    shown s' = shown s.
Proof.
  intros HX Hn [LX RX] Hpix H0.
  set (ks := fst (permutation n (rng s))).
  assert (Lk : length ks = n) by apply permutation_nat_length.
  destruct (lookup_lt_is_Some_2 ks 0 ltac:(lia)) as [k Hk].
  assert (Hkl : k < length X).
  { rewrite LX. pose proof (permutation_nat_valid n (rng s)) as V.
    rewrite Forall_forall in V. apply V. eapply list_elem_of_lookup_2. exact Hk. }
  destruct (lookup_lt_is_Some_2 X k Hkl) as [x Hx].
  assert (Lx : length x <> 784).
  { rewrite Forall_forall in RX. rewrite (RX x (list_elem_of_lookup_2 _ _ _ Hx)).
    exact Hpix. }
  rewrite (cell7_loop s n Hn). fold ks.
  match goal with |- context [for_each _ _ ?s1] => set (s1' := s1) end.
  pose proof (plot_row_wrong_size "Iperm" "Xtr" (map Z.of_nat ks) X
                ltac:(done) ltac:(done) ltac:(done) 0%Z (Z.of_nat k) x s1') as E.
  rewrite run_assign in E.
  eexists _, ks. split.
  { change (range 8) with (0%Z :: map Z.of_nat (seq 1 7)). cbn [for_each].
    rewrite run_assign, run_bind, E; [reflexivity | subst s1'; env_lookup
      | subst s1'; env_lookup | | apply getitem_lookup; exact Hx | exact Lx].
    apply (getitem_lookup _ 0). change (map ?f ?l) with (f <$> l).
    rewrite list_lookup_fmap, Hk. reflexivity. }
  split; [subst s1'; env_lookup|].
  split; [apply permutation_spec | reflexivity].
Qed.

(** ** The positions [np.where] returns (cells 19 and 61) *)

Lemma where_from_elem (b : list bool) (i k : Z) :
  k ∈ where_from i b <-> (i <= k)%Z /\ b !! Z.to_nat (k - i) = Some true.
Proof.
  revert i. induction b as [|x b IH]; intros i; cbn [where_from].
  - rewrite elem_of_nil. split; [intros [] | intros [_ H]; discriminate H].
  - assert (Hs : forall v : bool,
               (i + 1 <= k)%Z ->
               ((x :: b) !! Z.to_nat (k - i) = Some v <->
                b !! Z.to_nat (k - (i + 1)) = Some v)).
    { intros v Hk. replace (Z.to_nat (k - i)) with (S (Z.to_nat (k - (i + 1)))) by lia.
      reflexivity. }
    destruct x.
    + rewrite elem_of_cons, IH. split.
      * intros [-> | [Hk Hl]].
        -- split; [lia|]. rewrite Z.sub_diag. reflexivity.
        -- split; [lia|]. apply Hs; assumption.
      * intros [Hk Hl]. destruct (Z.eq_dec k i) as [->|Hne]; [left; reflexivity|].
        right. split; [lia|]. apply Hs; [lia | exact Hl].
    + rewrite IH. split.
      * intros [Hk Hl]. split; [lia|]. apply Hs; assumption.
      * intros [Hk Hl]. destruct (Z.eq_dec k i) as [->|Hne].
        -- rewrite Z.sub_diag in Hl. discriminate Hl.
        -- split; [lia|]. apply Hs; [lia | exact Hl].
Qed.

Lemma where_from_increasing (b : list bool) (i : Z) (j1 j2 : nat) (a c : Z) :
  j1 < j2 -> where_from i b !! j1 = Some a -> where_from i b !! j2 = Some c ->
  (a < c)%Z.
Proof.
  revert i j1 j2. induction b as [|x b IH]; intros i j1 j2 Hj H1 H2;
    cbn [where_from] in H1, H2; [discriminate H1|].
  destruct x; [|exact (IH _ _ _ Hj H1 H2)].
  destruct j2 as [|j2]; [lia|]. cbn in H2.
  assert (Hc : (i + 1 <= c)%Z).
  { apply list_elem_of_lookup_2 in H2. apply where_from_elem in H2. lia. }
  destruct j1 as [|j1].
  - cbn in H1. injection H1 as <-. lia.
  - cbn in H1. apply (IH (i + 1)%Z j1 j2); [lia | exact H1 | exact H2].
Qed.

Lemma lookup_ne_labels (t p : list Z) (k : nat) :
  zip_with (fun x y => negb (Z.eqb x y)) t p !! k = Some true <->
  exists a c, t !! k = Some a /\ p !! k = Some c /\ a <> c.
Proof.
  rewrite lookup_zip_with_Some. split.
  - intros (a & c & E & Ha & Hc). exists a, c. repeat split; try assumption.
    intros ->. rewrite Z.eqb_refl in E. discriminate E.
  - intros (a & c & Ha & Hc & Hne). exists a, c. repeat split; try assumption.
    symmetry. apply negb_true_iff, Z.eqb_neq. exact Hne.
Qed.

(** X5.  [Ierr = np.where(yts1 != yhat)[0]], for label arrays of one
    length: the comparison does not fail, [Ierr] holds exactly the positions
    at which the two arrays differ, every entry is a valid position, and the
    entries are strictly increasing (so no position is listed twice). *)
Theorem error_positions_are_exact (t p : list Z) :
  length t = length p ->
  exists b : list bool,
    ne_elementwise t p = Ok b /\
    (forall k : nat,
       Z.of_nat k ∈ np_where b <->
       exists a c, t !! k = Some a /\ p !! k = Some c /\ a <> c) /\
    Forall (fun k => (0 <= k < Z.of_nat (length t))%Z) (np_where b) /\
    (forall (i j : nat) (a c : Z), i < j ->
       np_where b !! i = Some a -> np_where b !! j = Some c -> (a < c)%Z).
Proof.
  intros Hl. eexists. split; [apply ne_elementwise_value; exact Hl|].
  split; [|split].
  - intros k. unfold np_where. rewrite where_from_elem, Z.sub_0_r, Nat2Z.id.
    rewrite lookup_ne_labels. split; [intros [_ H]; exact H | intros H; split; [lia | exact H]].
  - exact (proj2 (np_where_errors t p Hl)).
  - intros i j a c. unfold np_where. apply where_from_increasing.
Qed.

(** ** Sampling without replacement (cells 9, 17 and 34) *)

Lemma take_rows_nat {A : Type} (a : list A) (ks : list nat) :
  Forall (fun k => k < length a) ks ->
  exists xs, take_rows a (map Z.of_nat ks) = Ok xs /\
    Forall2 (fun k x => a !! k = Some x) ks xs.
Proof.
  induction 1 as [|k ks Hk _ (xs & E & F)].
  - exists []. split; [reflexivity | constructor].
  - destruct (lookup_lt_is_Some_2 a k Hk) as [x Hx].
    exists (x :: xs). split; [|constructor; assumption].
    cbn [map take_rows].
    rewrite (result_bind_ok _ _ _ (getitem_lookup a k x Hx)).
    rewrite (result_bind_ok _ _ _ E). reflexivity.
Qed.

Lemma gathered_omap {A : Type} (a : list A) (ks : list nat) (xs : list A) :
  Forall2 (fun k x => a !! k = Some x) ks xs -> omap (fun k => a !! k) ks = xs.
Proof.
  induction 1 as [|k x ks xs Hk _ IH]; [reflexivity|].
  cbn. rewrite Hk, IH. reflexivity.
Qed.

Lemma omap_all {A : Type} (a : list A) :
  omap (fun k => a !! k) (seq 0 (length a)) = a.
Proof.
  induction a as [|x a IH]; [reflexivity|].
  cbn [length seq]. cbn. f_equal.
  rewrite <- IH at 2. rewrite <- fmap_S_seq.
  apply list_omap_ext. apply Forall2_fmap_l.
  apply Forall_Forall2_diag. apply Forall_forall. intros k _. reflexivity.
Qed.

(** Rows gathered through a permutation of all positions are a permutation
    of the rows. *)
Lemma gathered_permutation {A : Type} (a : list A) (ks : list nat) (xs : list A) :
  Permutation ks (seq 0 (length a)) ->
  Forall2 (fun k x => a !! k = Some x) ks xs ->
  Permutation xs a.
Proof.
  intros Hp Hg. rewrite <- (gathered_omap a ks xs Hg).
  etransitivity; [apply omap_Permutation; exact Hp|].
  rewrite omap_all. reflexivity.
Qed.

Lemma gathered_zip {A B : Type} (a : list A) (b : list B) (ks : list nat)
    (xs : list A) (ys : list B) :
  Forall2 (fun k x => a !! k = Some x) ks xs ->
  Forall2 (fun k y => b !! k = Some y) ks ys ->
  Forall2 (fun k xy => zip a b !! k = Some xy) ks (zip xs ys).
Proof.
  intros Ha. revert ys. induction Ha as [|k x ks xs Hk _ IH]; intros ys Hb.
  - inversion Hb; subst. constructor.
  - inversion Hb as [|k' y ks' ys' Hy Hb']; subst. cbn [zip zip_with].
    constructor; [|apply IH; exact Hb'].
    apply lookup_zip_Some. split; assumption.
Qed.

Lemma NoDup_take_of {A : Type} (n : nat) (l : list A) : NoDup l -> NoDup (take n l).
Proof.
  intros H. rewrite <- (take_drop n l) in H. apply NoDup_app in H as [H _]. exact H.
Qed.

Lemma slice_of_nats (ks : list nat) :
  slice_to 5000 (map Z.of_nat ks) = map Z.of_nat (take (Z.to_nat 5000) ks).
Proof. rewrite slice_to_nonneg by lia. apply firstn_map. Qed.

(** The sub-sample of [X], [y] through the first 5000 entries of a
    permutation [ks] of all positions. *)
Lemma permuted_sub_sample (X : list (list float)) (y : list Z) (ks : list nat) :
  length y = length X ->
  Permutation ks (seq 0 (length X)) ->
  exists X1 y1,
    take_rows X (slice_to 5000 (map Z.of_nat ks)) = Ok X1 /\
    take_rows y (slice_to 5000 (map Z.of_nat ks)) = Ok y1 /\
    drawn_from X y (take (Z.to_nat 5000) ks) X1 y1 /\
    (Z.of_nat (length X) <= 5000 -> Permutation (zip X1 y1) (zip X y))%Z.
Proof.
  intros Ly Hp.
  assert (Hv : Forall (fun k => k < length X) ks).
  { apply Forall_forall. intros k Hk. apply list_elem_of_In in Hk.
    apply (Permutation_in _ Hp), in_seq in Hk. lia. }
  assert (Hnd : NoDup ks).
  { rewrite Hp. apply NoDup_seq. }
  rewrite slice_of_nats.
  destruct (take_rows_nat X (take (Z.to_nat 5000) ks)) as (X1 & EX & FX);
    [apply Forall_take; exact Hv|].
  destruct (take_rows_nat y (take (Z.to_nat 5000) ks)) as (y1 & Ey & Fy);
    [apply Forall_take; rewrite Ly; exact Hv|].
  exists X1, y1. split; [exact EX|]. split; [exact Ey|].
  split; [split; [apply NoDup_take_of; exact Hnd | split; assumption]|].
  intros Hn.
  assert (Lk : length ks = length X).
  { rewrite (Permutation_length Hp). apply length_seq. }
  rewrite firstn_all2 in FX, Fy by lia.
  apply (gathered_permutation (zip X y) ks).
  - rewrite length_zip. rewrite Ly, Nat.min_id. exact Hp.
  - apply gathered_zip; assumption.
Qed.

(** X6.  The sub-samples are drawn without replacement.  Cell 9, with
    [Iperm] a permutation of all training positions (as cell 7 binds it), and
    cell 17, which draws [Iperm_ts] itself: the sub-sample holds the rows and
    labels at the first 5000 positions of the permutation, no row is drawn
    twice, and when the set has at most 5000 samples the labelled sub-sample
    is the whole labelled set in another order. *)
Theorem sub_samples_are_drawn_without_replacement :
  (forall (s : state) (X : list (list float)) (y : list Z) (ks : list nat),
     env s !! "Xtr" = Some (F64Array2 X) ->
     env s !! "ytr" = Some (IntArray1 y) ->
     env s !! "Iperm" = Some (IntArray1 (map Z.of_nat ks)) ->
     length y = length X ->
     Permutation ks (seq 0 (length X)) ->
     exists (s' : state) (X1 : list (list float)) (y1 : list Z),
       cell9 s = (Ok tt, s') /\
       env s' !! "Xtr1" = Some (F64Array2 X1) /\
       env s' !! "ytr1" = Some (IntArray1 y1) /\
       drawn_from X y (take (Z.to_nat 5000) ks) X1 y1 /\
       (Z.of_nat (length X) <= 5000 -> Permutation (zip X1 y1) (zip X y))%Z) /\
  (forall (s : state) (X : list (list float)) (y : list Z) (e : estimator) (m : model),
     env s !! "Xts" = Some (F64Array2 X) ->
     env s !! "yts" = Some (IntArray1 y) ->
     env s !! "nts" = Some (PyInt (Z.of_nat (length X))) ->
     env s !! "logreg" = Some (Fitted e m) ->
     length y = length X ->
     exists (s' : state) (ks : list nat) (X1 : list (list float)) (y1 : list Z),
       cell17 s = (Ok tt, s') /\
       env s' !! "Iperm_ts" = Some (IntArray1 (map Z.of_nat ks)) /\
       env s' !! "Xts1" = Some (F64Array2 X1) /\
       env s' !! "yts1" = Some (IntArray1 y1) /\
       Permutation ks (seq 0 (length X)) /\
       drawn_from X y (take (Z.to_nat 5000) ks) X1 y1 /\
       (Z.of_nat (length X) <= 5000 -> Permutation (zip X1 y1) (zip X y))%Z).
Proof.
  split.
  - intros s X y ks HX Hy HI Ly Hp.
    destruct (permuted_sub_sample X y ks Ly Hp) as (X1 & y1 & TX & Ty & Hd & Hall).
    eexists _, X1, y1. split; [eapply cell9_spec; eassumption|].
    split; [env_lookup|]. split; [env_lookup|]. split; assumption.
  - intros s X y e m HX Hy Hn Hm Ly.
    pose proof (permutation_spec (length X) (rng s)) as Hp.
    destruct (permuted_sub_sample X y _ Ly Hp) as (X1 & y1 & TX & Ty & Hd & Hall).
    eexists _, _, X1, y1. split; [eapply cell17_spec; eassumption|].
    unfold after_cell17. cbn [env].
    split; [env_lookup|]. split; [env_lookup|]. split; [env_lookup|].
    split; [exact Hp|]. split; assumption.
Qed.

(** ** Snapshots across kernels *)

Lemma load_with_import_anywhere (dump : nb unit) (f : string) (names : list string) :
  restores dump (pickle_load f names) f names ->
  "pickle" ∉ "fp" :: names ->
  restores_anywhere dump (import_pickle;; pickle_load f names) f names.
Proof.
  intros H Hn s s1 s2 Hd Hf.
  destruct (H s s1 Hd) as (vs & Hb & _ & _ & Hl).
  destruct (Hl (upd_env (<["pickle" := PyModule "pickle"]>) s2) Hf (lookup_insert_eq _ _ _))
    as (s3 & E & Hb3 & Hfr & H1 & H2 & H3 & H4).
  exists s3. split; [unfold import_pickle; rewrite run_assign; exact E|].
  split; [intros x Hx; apply (bound_agree names vs); assumption|].
  split.
  { intros x Hx. apply not_elem_of_cons in Hx as [Hx1 Hx2].
    rewrite (Hfr x Hx2). cbn [env upd_env]. apply lookup_insert_ne. congruence. }
  split; [rewrite (Hfr _ Hn); cbn [env upd_env]; apply lookup_insert_eq|].
  auto.
Qed.

Lemma pickle_load_unbound (f : string) (names : list string) :
  needs_pickle (pickle_load f names) f.
Proof.
  intros s [b Hb] Hp. unfold pickle_load. rewrite run_bind. unfold open_rb.
  rewrite Hb. rewrite run_assign. apply pickle_attr_unbound.
  cbn [env upd_env]. rewrite lookup_insert_ne by done. exact Hp.
Qed.

Ltac not_listed :=
  rewrite ?not_elem_of_cons; repeat split; first [discriminate | apply not_elem_of_nil].

(** X7.  Loading a snapshot in a new kernel.  Cells 39 and 55 import
    [pickle] themselves: whatever state they are run in, if the file is the
    one cell 37 (cell 54) wrote, the cell finishes and binds every listed
    name to the value it had when the dump was made; besides these names it
    binds [pickle] and [fp] and changes no other name, no file, and neither
    the generator nor the logs.  Cells 15, 44 and 58 do not import
    [pickle]: run where the file exists and [pickle] is unbound, they open
    the file, bind [fp] and stop with [NameError]; nothing is restored. *)
Theorem loading_snapshots_in_a_new_kernel :
  restores_anywhere cell37 cell39 "mnist_svc.p" ["svc"; "Xtr1"; "ytr1"] /\
  restores_anywhere cell54 cell55 "mnist_svcrbf.p" ["svcrbf"; "Xtr1"; "ytr1"] /\
  needs_pickle cell15 "mnist_logreg.p" /\
  needs_pickle cell44 "mnist_svc_test.p" /\
  needs_pickle cell58 "mnist_svcrbf_test.p".
Proof.
  split; [|split; [|split; [|split]]].
  - unfold cell39. apply load_with_import_anywhere; [exact restores_cell37 | not_listed].
  - unfold cell55. apply load_with_import_anywhere; [exact restores_cell54 | not_listed].
  - apply pickle_load_unbound.
  - apply pickle_load_unbound.
  - apply pickle_load_unbound.
Qed.

Lemma get_int1_inv (x : string) (s s' : state) (a : list Z) :
  get_int1 x s = (Ok a, s') -> s' = s /\ env s !! x = Some (IntArray1 a).
Proof.
  unfold get_int1. intros H.
  apply run_inv in H as (o & s1 & H1 & H2).
  apply lookup_name_inv in H1 as [-> Ho]. apply lift_inv in H2 as [-> Ha].
  split; [reflexivity|]. destruct o; try discriminate Ha.
  injection Ha as <-. exact Ho.
Qed.

Lemma get_f64_2_inv (x : string) (s s' : state) (a : list (list float)) :
  get_f64_2 x s = (Ok a, s') -> s' = s /\ env s !! x = Some (F64Array2 a).
Proof.
  unfold get_f64_2. intros H.
  apply run_inv in H as (o & s1 & H1 & H2).
  apply lookup_name_inv in H1 as [-> Ho]. apply lift_inv in H2 as [-> Ha].
  split; [reflexivity|]. destruct o; try discriminate Ha.
  injection Ha as <-. exact Ho.
Qed.





(** ** Dumps that are interrupted *)








(** ** Cell 54: fit, then dump *)

Lemma bind_cases {A B : Type} (m : nb A) (k : A -> nb B) (s s' : state) (r : result B) :
  (m ≫= k) s = (r, s') ->
  (exists a s1, m s = (Ok a, s1) /\ k a s1 = (r, s')) \/
  (exists e, m s = (Raise e, s') /\ r = Raise e).
Proof.
  rewrite run_bind. destruct (m s) as [[a|e] s1].
  - intros H. left. eauto.
  - intros H. injection H as <- <-. right. eauto.
Qed.

Lemma lookup_name_state (x : string) (s s' : state) (r : result obj) :
  lookup_name x s = (r, s') -> s' = s.
Proof.
  unfold lookup_name. destruct (env s !! x); intros H; injection H as _ <-; reflexivity.
Qed.

Lemma getter_state {A : Type} (f : obj -> result A) (x : string) (s s' : state)
    (r : result A) :
  (lookup_name x ≫= fun o => lift (f o)) s = (r, s') -> s' = s.
Proof.
  intros H. apply bind_cases in H as [(o & s1 & H1 & H2) | (e & H1 & _)].
  - apply lookup_name_state in H1 as ->. unfold lift in H2. injection H2 as _ <-.
    reflexivity.
  - apply lookup_name_state in H1. exact H1.
Qed.

(** A fit that raises has changed nothing. *)
Lemma call_fit_raise (est xn yn : string) (s s' : state) (e : exn) :
  call_fit est xn yn s = (Raise e, s') -> s' = s.
Proof.
  unfold call_fit. intros H.
  apply bind_cases in H as [(o & s1 & H1 & H) | (e1 & H1 & _)];
    [apply lookup_name_state in H1 as -> | exact (lookup_name_state _ _ _ _ H1)].
  apply bind_cases in H as [(e0 & s1 & H1 & H) | (e1 & H1 & _)];
    [apply lift_inv in H1 as [-> _] | unfold lift in H1; injection H1 as _ <-; reflexivity].
  apply bind_cases in H as [(X & s1 & H1 & H) | (e1 & H1 & _)];
    [apply getter_state in H1 as -> | exact (getter_state _ _ _ _ _ H1)].
  apply bind_cases in H as [(y & s1 & H1 & H) | (e1 & H1 & _)];
    [apply getter_state in H1 as -> | exact (getter_state _ _ _ _ _ H1)].
  rewrite run_bind in H. unfold log_fit, assign in H. discriminate H.
Qed.

Lemma call_fit_inv (est xn yn : string) (s s' : state) :
  call_fit est xn yn s = (Ok tt, s') ->
  exists (o : obj) (e : estimator) (X : list (list float)) (y : list Z),
    env s !! est = Some o /\ estimator_of o = Ok e /\
    env s !! xn = Some (F64Array2 X) /\ env s !! yn = Some (IntArray1 y) /\
    s' = after_fit est e X y s.
Proof.
  unfold call_fit. intros H.
  apply run_inv in H as (o & s1 & H1 & H). apply lookup_name_inv in H1 as [-> Ho].
  apply run_inv in H as (e & s1 & H1 & H). apply lift_inv in H1 as [-> He].
  apply run_inv in H as (X & s1 & H1 & H). apply get_f64_2_inv in H1 as [-> HX].
  apply run_inv in H as (y & s1 & H1 & H). apply get_int1_inv in H1 as [-> Hy].
  exists o, e, X, y. rewrite run_bind in H. unfold log_fit, assign in H.
  injection H as <-. auto.
Qed.

(** X10.  Cell 54 cannot leave a truncated snapshot.  The fit comes before
    the file is opened, and a fit that succeeded has bound all three names
    the dump lists: the cell either finishes, with the fitted machine and the
    sub-sample it was fitted on in the file, or raises with the whole state,
    files included, exactly as it was. *)
Theorem fit_and_dump_is_all_or_nothing (s : state) :
  (exists (s' : state) (e : estimator) (X : list (list float)) (y : list Z),
     cell54 s = (Ok tt, s') /\
     env s !! "Xtr1" = Some (F64Array2 X) /\
     env s !! "ytr1" = Some (IntArray1 y) /\
     fs s' !! "mnist_svcrbf.p" =
       Some (pickle_dumps [Fitted e (fit e X y); F64Array2 X; IntArray1 y])) \/
  (exists e : exn, cell54 s = (Raise e, s)).
Proof.
  unfold cell54. rewrite run_bind.
  destruct (call_fit "svcrbf" "Xtr1" "ytr1" s) as [[[]|e] s1] eqn:E.
  - left. apply call_fit_inv in E as (o & e & X & y & Ho & He & HX & Hy & ->).
    eexists _, e, X, y. split.
    + unfold import_pickle. rewrite run_assign.
      apply (pickle_dump_spec _ _ [Fitted e (fit e X y); F64Array2 X; IntArray1 y]);
        [env_lookup | unfold after_fit; bound_names].
    + split; [exact HX|]. split; [exact Hy|]. cbn [fs after_dump]. apply lookup_insert_eq.
  - right. exists e. apply call_fit_raise in E as ->. reflexivity.
Qed.

(** ** A class without test samples (cell 21) *)

Lemma zero_sum_table : forallb zero_sum_ok (zrange 0 (Z.to_nat 5001)) = true.
Proof. vm_compute. reflexivity. Qed.

Lemma zero_sum_spec (c : Z) : (0 <= c <= 5000)%Z -> zero_sum_ok c = true.
Proof.
  intros H. pose proof zero_sum_table as T. rewrite forallb_forall in T.
  apply T. apply list_elem_of_In.
  apply (list_elem_of_lookup_2 _ (Z.to_nat c)).
  rewrite zrange_lookup by lia. f_equal. lia.
Qed.

(** X11.  Cell 21 divides by the row sums without a guard.  On a square
    confusion matrix with a row [j] that adds up to zero (a class that was
    predicted but has no test sample), the cell still finishes, and column [j]
    of the normalised matrix holds no number: the entry at [(i, j)] is NaN
    where the count [C[i,j]] is 0 and plus infinity where it is positive.
    Counts are at most 5000, the size of the test sub-sample. *)
Theorem class_without_samples_gives_nan_or_infinity
    (s : state) (t p : list Z) (n i j : nat) (ri rj : list Z) (cij : Z) :
  env s !! "yts1" = Some (IntArray1 t) ->
  env s !! "yhat" = Some (IntArray1 p) ->
  shape2 n n (confusion_matrix t p) ->
  confusion_matrix t p !! i = Some ri ->
  ri !! j = Some cij ->
  confusion_matrix t p !! j = Some rj ->
  (0 <= cij <= 5000)%Z ->
  fold_right Z.add 0%Z rj = 0%Z ->
  exists (s' : state) (Cn : list (list float)) (r : list float) (q : float),
    cell21 s = (Ok tt, s') /\
    env s' !! "C" = Some (F64Array2 Cn) /\
    Cn !! i = Some r /\ r !! j = Some q /\
    (cij = 0%Z -> PrimFloat.is_nan q = true) /\
    (cij <> 0%Z -> PrimFloat.eqb q PrimFloat.infinity = true).
Proof.
  intros Ht Hp Hsq Hi Hij Hj Hc Hsum.
  destruct (normalised_entry _ i j ri rj cij Hi Hij Hj) as (r & Hr & Hq).
  rewrite Hsum in Hq.
  eexists _, _, r, _. split; [eapply cell21_spec; eassumption|].
  split; [env_lookup|]. split; [exact Hr|]. split; [exact Hq|].
  pose proof (zero_sum_spec cij Hc) as Z. unfold zero_sum_ok in Z.
  split; intros H0.
  - subst cij. exact Z.
  - apply Z.eqb_neq in H0. rewrite H0 in Z. exact Z.
Qed.

(** ** The weights (cell 23) *)

Lemma axes_item_grid (i : Z) :
  (0 <= i < 10)%Z ->
  axes_item 2 5 (i / 5) (i mod 5) = Ok (Z.to_nat (i / 5), Z.to_nat (i mod 5)).
Proof.
  intros H.
  assert (C : (i = 0 \/ i = 1 \/ i = 2 \/ i = 3 \/ i = 4 \/ i = 5 \/ i = 6 \/ i = 7 \/
               i = 8 \/ i = 9)%Z) by lia.
  repeat (destruct C as [-> | C]; [reflexivity|]). subst i. reflexivity.
Qed.

Lemma axes_item_distinct (i i' : Z) :
  (0 <= i < 10)%Z -> (0 <= i' < 10)%Z ->
  axes_item 2 5 (i / 5) (i mod 5) = axes_item 2 5 (i' / 5) (i' mod 5) -> i = i'.
Proof.
  intros H H'. rewrite !axes_item_grid by assumption. intros E.
  injection E as E1 E2.
  pose proof (Z.div_mod i 5 ltac:(lia)) as D.
  pose proof (Z.div_mod i' 5 ltac:(lia)) as D'.
  pose proof (Z.mod_pos_bound i 5 ltac:(lia)).
  pose proof (Z.mod_pos_bound i' 5 ltac:(lia)).
  pose proof (Z.div_pos i 5 ltac:(lia) ltac:(lia)).
  pose proof (Z.div_pos i' 5 ltac:(lia) ltac:(lia)).
  lia.
Qed.

Lemma plot_weight_shows (W : list (list float)) (j : nat) (x : list float) (s : state) :
  env s !! "W" = Some (F64Array2 W) ->
  j < 10 -> W !! j = Some x -> length x = 784 ->
  exists s', (assign "i" (PyInt (Z.of_nat j)) ≫= fun _ => plot_weight (Z.of_nat j)) s =
             (Ok tt, s') /\
    env s' !! "W" = Some (F64Array2 W) /\
    shown s' = shown s ++ [chunks 28 28 x].
Proof.
  intros HW Hj Hx Lx. eexists. split.
  - rewrite run_assign. unfold plot_weight. do 4 nb_step.
    erewrite run_lift by (apply axes_item_grid; lia).
    nb_step. rewrite run_lift with (a := x) by (apply (getitem_lookup W j x Hx)).
    apply plt_digit_spec. exact Lx.
  - cbn [env shown upd_env]. split; [env_lookup | reflexivity].
Qed.

Lemma plot_weight_beyond (s : state) :
  exists s', (assign "i" (PyInt 10) ≫= fun _ => plot_weight 10) s = (Raise IndexError, s') /\
    shown s' = shown s.
Proof.
  eexists. split.
  - rewrite run_assign. unfold plot_weight. do 4 nb_step.
    rewrite run_bind. unfold lift at 1. reflexivity.
  - reflexivity.
Qed.

Lemma run_fitted_attr {B : Type} (attr : model -> list (list float)) (x : string)
    (e : estimator) (m : model) (k : list (list float) -> nb B) (s : state) :
  env s !! x = Some (Fitted e m) -> (get_fitted_attr attr x ≫= k) s = k (attr m) s.
Proof.
  intros H. rewrite run_bind. unfold get_fitted_attr. rewrite run_bind.
  unfold lookup_name. rewrite H. reflexivity.
Qed.

Lemma cell23_loop (s : state) (e : estimator) (m : model) :
  env s !! "logreg" = Some (Fitted e m) ->
  cell23 s =
  for_each (range (Z.of_nat (length (coef_ m)))) plot_weight
    (upd_env (fun en => <["ndigit" := PyInt (Z.of_nat (length (coef_ m)))]>
                          (<["W" := F64Array2 (coef_ m)]> en)) s).
Proof.
  intros Hm. unfold cell23. rewrite (run_fitted_attr _ _ e m _ _ Hm).
  do 4 nb_step. reflexivity.
Qed.

Lemma weights_step (W : list (list float)) (s0 : state) (n j : nat) (i : Z) (s1 : state) :
  Forall (fun r => length r = 784) W -> n <= 10 -> n <= length W ->
  range (Z.of_nat n) !! j = Some i ->
  env s1 !! "W" = Some (F64Array2 W) /\
    shown s1 = shown s0 ++ map (chunks 28 28) (take j W) ->
  exists s2, (assign "i" (PyInt i) ≫= fun _ => plot_weight i) s1 = (Ok tt, s2) /\
    (env s2 !! "W" = Some (F64Array2 W) /\
     shown s2 = shown s0 ++ map (chunks 28 28) (take (S j) W)).
Proof.
  intros HW Hn HnW Hj [H1 H2]. apply range_lookup in Hj as [-> Hj].
  destruct (lookup_lt_is_Some_2 W j ltac:(lia)) as [x Hx].
  assert (Lx : length x = 784).
  { rewrite Forall_forall in HW. apply HW. eapply list_elem_of_lookup_2. exact Hx. }
  destruct (plot_weight_shows W j x s1 H1 ltac:(lia) Hx Lx) as (s2 & E & G1 & G2).
  exists s2. split; [exact E|]. split; [exact G1|].
  rewrite G2, H2, <- app_assoc. f_equal.
  rewrite (take_S_r _ _ _ Hx), map_app. reflexivity.
Qed.

(** X12.  Cell 23 draws weight [i] on the axes at row [i // 5], column
    [i % 5] of a 2 x 5 grid.  For a fitted [logreg] whose weight rows have 784
    entries: with at most ten rows the cell finishes and shows every row as a
    28 x 28 image; with more than ten it shows the first ten and stops with
    [IndexError] at the eleventh; and the ten grid positions used are
    pairwise distinct. *)
Theorem weight_grid_holds_ten_images (s : state) (e : estimator) (m : model) :
  env s !! "logreg" = Some (Fitted e m) ->
  Forall (fun r => length r = 784) (coef_ m) ->
  (length (coef_ m) <= 10 ->
   exists s' : state,
     cell23 s = (Ok tt, s') /\
     shown s' = shown s ++ map (chunks 28 28) (coef_ m)) /\
  (10 < length (coef_ m) ->
   exists s' : state,
     cell23 s = (Raise IndexError, s') /\
     shown s' = shown s ++ map (chunks 28 28) (take 10 (coef_ m))) /\
  (forall i i' : Z, (0 <= i < 10)%Z -> (0 <= i' < 10)%Z ->
     axes_item 2 5 (i / 5) (i mod 5) = axes_item 2 5 (i' / 5) (i' mod 5) -> i = i').
Proof.
  intros Hm HW. rewrite (cell23_loop s e m Hm).
  set (W := coef_ m) in *.
  match goal with |- context [for_each _ _ ?s1] => set (s1' := s1) end.
  split; [|split].
  - intros Hn.
    destruct (for_each_inv plot_weight (range (Z.of_nat (length W)))
                (fun j s1 => env s1 !! "W" = Some (F64Array2 W) /\
                             shown s1 = shown s ++ map (chunks 28 28) (take j W)) s1')
      as (s' & E & _ & Hsh).
    + intros j i s1. apply weights_step; [exact HW | exact Hn | lia].
    + split; [subst s1'; env_lookup | apply eq_sym, app_nil_r].
    + exists s'. split; [exact E|].
      rewrite length_range, firstn_all in Hsh. exact Hsh.
  - intros Hn.
    replace (length W) with (10 + S (length W - 11)) by lia.
    rewrite range_split.
    apply (for_each_stops plot_weight _ _ _ IndexError
             (fun j s1 => env s1 !! "W" = Some (F64Array2 W) /\
                          shown s1 = shown s ++ map (chunks 28 28) (take j W))
             (fun s2 => shown s2 = shown s ++ map (chunks 28 28) (take 10 W))).
    + intros j i s1. apply weights_step; [exact HW | lia | lia].
    + intros s1 [_ Hsh]. rewrite length_range in Hsh.
      destruct (plot_weight_beyond s1) as (s2 & E & G).
      exists s2. split; [exact E|]. rewrite G. exact Hsh.
    + split; [subst s1'; env_lookup | apply eq_sym, app_nil_r].
  - exact axes_item_distinct.
Qed.

(** ** Selecting a digit (cell 26) *)

Lemma where_from_NoDup (b : list bool) (i : Z) : NoDup (where_from i b).
Proof.
  apply NoDup_alt. intros j1 j2 x H1 H2.
  destruct (Nat.lt_total j1 j2) as [Hlt | [Heq | Hlt]]; [|exact Heq|].
  - pose proof (where_from_increasing b i j1 j2 x x Hlt H1 H2). lia.
  - pose proof (where_from_increasing b i j2 j1 x x Hlt H2 H1). lia.
Qed.

Lemma count_scalar_split (y : list Z) (c : Z) :
  count_true (eq_scalar y c) + count_true (ne_scalar y c) = length y.
Proof.
  induction y as [|l y IH]; [reflexivity|].
  cbn [eq_scalar ne_scalar map count_true length].
  unfold eq_scalar, ne_scalar in IH. destruct (l =? c)%Z; cbn [negb]; lia.
Qed.

Lemma shuffle_spec (x : string) (a : list Z) (s : state) :
  x <> "n" ->
  env s !! x = Some (IntArray1 a) ->
  exists a' : list Z,
    shuffle x s =
    (Ok tt, mkState (<[x := IntArray1 a']> (<["n" := PyInt (Z.of_nat (length a))]> (env s)))
              (fs s) (snd (permutation (length a) (rng s))) (fit_calls s) (shown s)) /\
    Permutation a' a.
Proof.
  intros Hx Ha.
  destruct (take_rows_nat a (fst (permutation (length a) (rng s))))
    as (a' & E & F); [apply permutation_nat_valid|].
  exists a'. split.
  - unfold shuffle. do 4 nb_step.
    rewrite (run_permutation _ _ _ (fst (permutation (length a) (rng s)))
               (snd (permutation (length a) (rng s)))).
    2: { cbn [rng upd_env]. rewrite Nat2Z.id. apply surjective_pairing. }
    erewrite run_lift; [reflexivity|].
    cbn [getitem_index]. rewrite (result_bind_ok _ _ _ E). reflexivity.
  - apply (gathered_permutation a _ a' (permutation_spec _ _) F).
Qed.

(** X13.  The selection at the head of cell 26 splits the training
    positions in two.  After [Idig] and [Inodig] were computed and shuffled,
    [Idig] holds exactly the positions labelled 2 and [Inodig] exactly the
    others, each position once: together they have one entry per training
    label. *)
Theorem digit_selection_splits_the_training_set (s : state) (y : list Z) :
  env s !! "ytr" = Some (IntArray1 y) ->
  exists (s' : state) (Id Ino : list Z),
    cell26_select s = (Ok tt, s') /\
    env s' !! "Idig" = Some (IntArray1 Id) /\
    env s' !! "Inodig" = Some (IntArray1 Ino) /\
    NoDup Id /\ NoDup Ino /\
    Forall (fun k => (0 <= k < Z.of_nat (length y))%Z) (Id ++ Ino) /\
    (forall k : nat, Z.of_nat k ∈ Id <-> y !! k = Some 2%Z) /\
    (forall k : nat, Z.of_nat k ∈ Ino <-> exists l, y !! k = Some l /\ l <> 2%Z) /\
    length Id + length Ino = length y.
Proof.
  intros Hy.
  set (D := np_where (eq_scalar y 2)). set (N := np_where (ne_scalar y 2)).
  set (s1 := upd_env (fun en => <["Inodig" := IntArray1 N]>
                        (<["Idig" := IntArray1 D]> (<["idig" := PyInt 2]> en))) s).
  destruct (shuffle_spec "Idig" D s1 ltac:(done) ltac:(subst s1; env_lookup))
    as (Id & E1 & P1).
  match type of E1 with _ = (_, ?s2') => set (s2 := s2') in * end.
  destruct (shuffle_spec "Inodig" N s2 ltac:(done) ltac:(subst s2 s1; env_lookup))
    as (Ino & E2 & P2).
  eexists _, Id, Ino. split.
  { unfold cell26_select. do 7 nb_step. fold D N s1.
    rewrite (run_ok _ _ _ _ _ E1). exact E2. }
  split; [subst s2 s1; env_lookup|]. split; [subst s2 s1; env_lookup|].
  split; [rewrite P1; apply where_from_NoDup|].
  split; [rewrite P2; apply where_from_NoDup|].
  split.
  { rewrite P1, P2. apply Forall_app. unfold D, N, np_where. split.
    - pose proof (proj2 (where_from_spec (eq_scalar y 2) 0)) as H.
      unfold eq_scalar in H. rewrite length_map in H. exact H.
    - pose proof (proj2 (where_from_spec (ne_scalar y 2) 0)) as H.
      unfold ne_scalar in H. rewrite length_map in H. exact H. }
  split.
  { intros k. rewrite P1. unfold D, np_where.
    rewrite where_from_elem, Z.sub_0_r, Nat2Z.id. unfold eq_scalar.
    change (map ?f y) with (f <$> y). rewrite list_lookup_fmap.
    destruct (y !! k) as [l|]; cbn [fmap option_fmap option_map].
    - split.
      + intros [_ H]. injection H as H. apply Z.eqb_eq in H. congruence.
      + intros H. injection H as ->. split; [lia | reflexivity].
    - split; [intros [_ H]; discriminate H | intros H; discriminate H]. }
  split.
  { intros k. rewrite P2. unfold N, np_where.
    rewrite where_from_elem, Z.sub_0_r, Nat2Z.id. unfold ne_scalar.
    change (map ?f y) with (f <$> y). rewrite list_lookup_fmap.
    destruct (y !! k) as [l|]; cbn [fmap option_fmap option_map].
    - split.
      + intros [_ H]. injection H as H. apply negb_true_iff, Z.eqb_neq in H. eauto.
      + intros (l' & H & Hne). injection H as <-. split; [lia|].
        f_equal. apply negb_true_iff, Z.eqb_neq. exact Hne.
    - split; [intros [_ H]; discriminate H | intros (l' & H & _); discriminate H]. }
  rewrite (Permutation_length P1), (Permutation_length P2). unfold D, N, np_where.
  rewrite (proj1 (where_from_spec _ _)), (proj1 (where_from_spec _ _)).
  apply count_scalar_split.
Qed.

(** ** The support vectors (cells 48 and 50, 64 and 66) *)

Lemma support_vectors_loop (s : state) (X : list (list float)) :
  env s !! "S" = Some (F64Array2 X) ->
  plot_support_vectors s =
  for_each (range 4) (plot_row "Iperms" "S")
    (mkState
       (<["Iperms" := IntArray1 (map Z.of_nat (fst (permutation (length X) (rng s))))]>
          (<["nsv" := PyInt (Z.of_nat (length X))]> (<["nplt" := PyInt 4]> (env s))))
       (fs s) (snd (permutation (length X) (rng s))) (fit_calls s) (shown s)).
Proof.
  intros HS. unfold plot_support_vectors. do 4 nb_step.
  rewrite (run_permutation _ _ _ (fst (permutation (length X) (rng s)))
             (snd (permutation (length X) (rng s)))).
  2: { cbn [rng upd_env]. rewrite Nat2Z.id. apply surjective_pairing. }
  do 2 nb_step. reflexivity.
Qed.

Lemma support_vectors_plot (s : state) (X : list (list float)) :
  env s !! "S" = Some (F64Array2 X) ->
  Forall (fun r => length r = 784) X ->
  (4 <= length X ->
   exists (s' : state) (ks : list nat) (imgs : list (list (list float))),
     plot_support_vectors s = (Ok tt, s') /\
     env s' !! "S" = Some (F64Array2 X) /\
     Permutation ks (seq 0 (length X)) /\
     shown s' = shown s ++ imgs /\
     rows_drawn X (take 4 ks) imgs) /\
  (length X < 4 ->
   exists s' : state, plot_support_vectors s = (Raise IndexError, s')).
Proof.
  intros HS HX. rewrite (support_vectors_loop s X HS).
  set (ks := fst (permutation (length X) (rng s))).
  match goal with |- context [for_each _ _ ?s1] => set (s1' := s1) end.
  assert (Vk : Forall (fun k => k < length X) ks) by apply permutation_nat_valid.
  destruct (random_rows_plot "Iperms" "S" X ks 4 s1') as [Hok Hstop];
    [done | done | done | done | subst s1'; env_lookup | subst s1'; env_lookup
    | exact HX | exact Vk |].
  unfold ks in Hok, Hstop. rewrite permutation_nat_length in Hok, Hstop.
  split; intros Hn.
  - destruct (Hok Hn) as (s' & imgs & E & (Hf & _ & _ & _ & Hsh) & Hd).
    exists s', ks, imgs. split; [exact E|].
    split.
    { rewrite Hf by (rewrite !not_elem_of_cons; repeat split; try done;
                     apply not_elem_of_nil).
      subst s1'. env_lookup. }
    split; [apply permutation_spec|]. split; [exact Hsh | exact Hd].
  - destruct (Hstop Hn) as (s' & imgs & E & _). exists s'. exact E.
Qed.

(** X14.  The support-vector plots read [Iperms[i]] for [i = 0, ..., 3]
    unguarded.  For a fitted machine whose support vectors have 784 entries,
    [S] is bound to the support vectors; with at least four of them the plot
    finishes and shows four distinct support vectors, those at the first four
    positions of a permutation of all positions, and with fewer it stops with
    [IndexError].  This holds for the linear machine (cells 48 and 50) and for
    the RBF machine (cells 64 and 66). *)
Theorem support_vector_plots_need_four (s : state) (e : estimator) (m : model) :
  Forall (fun r => length r = 784) (support_vectors_ m) ->
  (env s !! "svc" = Some (Fitted e m) ->
   exists s1 : state,
     cell48 s = (Ok tt, s1) /\
     env s1 !! "S" = Some (F64Array2 (support_vectors_ m)) /\
     (4 <= length (support_vectors_ m) ->
      exists (s' : state) (ks : list nat) (imgs : list (list (list float))),
        cell50 s1 = (Ok tt, s') /\
        Permutation ks (seq 0 (length (support_vectors_ m))) /\
        shown s' = shown s ++ imgs /\
        rows_drawn (support_vectors_ m) (take 4 ks) imgs) /\
     (length (support_vectors_ m) < 4 ->
      exists s' : state, cell50 s1 = (Raise IndexError, s'))) /\
  (env s !! "svcrbf" = Some (Fitted e m) ->
   exists s1 : state,
     cell64 s = (Ok tt, s1) /\
     env s1 !! "S" = Some (F64Array2 (support_vectors_ m)) /\
     (4 <= length (support_vectors_ m) ->
      exists (s' : state) (ks : list nat) (imgs : list (list (list float))),
        cell66 s1 = (Ok tt, s') /\
        Permutation ks (seq 0 (length (support_vectors_ m))) /\
        shown s' = shown s ++ imgs /\
        rows_drawn (support_vectors_ m) (take 4 ks) imgs) /\
     (length (support_vectors_ m) < 4 ->
      exists s' : state, cell66 s1 = (Raise IndexError, s'))).
Proof.
  intros HX.
  assert (G : forall x : string,
             env s !! x = Some (Fitted e m) ->
             (sv ← get_fitted_attr support_vectors_ x; assign "S" (F64Array2 sv)) s =
             (Ok tt, upd_env (<["S" := F64Array2 (support_vectors_ m)]>) s)).
  { intros x Hm. rewrite (run_fitted_attr _ _ e m _ _ Hm). reflexivity. }
  assert (P : forall s1 : state,
             s1 = upd_env (<["S" := F64Array2 (support_vectors_ m)]>) s ->
             env s1 !! "S" = Some (F64Array2 (support_vectors_ m)) /\
             (4 <= length (support_vectors_ m) ->
              exists (s' : state) (ks : list nat) (imgs : list (list (list float))),
                plot_support_vectors s1 = (Ok tt, s') /\
                Permutation ks (seq 0 (length (support_vectors_ m))) /\
                shown s' = shown s ++ imgs /\
                rows_drawn (support_vectors_ m) (take 4 ks) imgs) /\
             (length (support_vectors_ m) < 4 ->
              exists s' : state, plot_support_vectors s1 = (Raise IndexError, s'))).
  { intros s1 ->.
    assert (HS : env (upd_env (<["S" := F64Array2 (support_vectors_ m)]>) s) !! "S" =
                 Some (F64Array2 (support_vectors_ m))) by env_lookup.
    split; [exact HS|].
    destruct (support_vectors_plot _ (support_vectors_ m) HS HX) as [Hok Hstop].
    split; [|exact Hstop]. intros Hn.
    destruct (Hok Hn) as (s' & ks & imgs & E & _ & Hp & Hsh & Hd).
    exists s', ks, imgs. auto. }
  split; intros Hm; eexists; (split; [exact (G _ Hm)|]); apply P; reflexivity.
Qed.

(** ** What the error plots show (cells 19 and 61) *)

Section ErrorImages.

Variable yhat : string.
Variable Ie : list Z.
Variable X : list (list float).
Variables t p : list Z.
Hypothesis yhat_not_i : "i" <> yhat.
Hypothesis yhat_not_ind : "ind" <> yhat.

Lemma plot_error_shows (i k : Z) (x : list float) (l l' : Z) (s : state) :
  plot_ready yhat Ie X t p s ->
  getitem Ie i = Ok k -> getitem X k = Ok x -> length x = 784 ->
  getitem t k = Ok l -> getitem p k = Ok l' ->
  (assign "i" (PyInt i) ≫= fun _ => plot_error yhat i) s =
  (Ok tt, mkState (<["ind" := PyInt k]> (<["i" := PyInt i]> (env s))) (fs s) (rng s)
            (fit_calls s) (shown s ++ [chunks 28 28 x])).
Proof.
  intros (H1 & H2 & H3 & H4) Gk Gx Hx Gl Gl'.
  rewrite run_assign. unfold plot_error.
  nb_step. erewrite run_lift by exact Gk.
  do 3 nb_step.
  rewrite run_lift with (a := x) by exact Gx.
  erewrite run_ok by (apply plt_digit_spec; exact Hx).
  nb_step. erewrite run_lift by exact Gl.
  nb_step. erewrite run_lift by exact Gl'.
  reflexivity.
Qed.

Hypothesis Ie_valid : Forall (fun k => (0 <= k < Z.of_nat (length t))%Z) Ie.
Hypothesis X_rows : Forall (fun r => length r = 784) X.
Hypothesis X_length : length X = length t.
Hypothesis p_length : length p = length t.

Lemma error_loop (s : state) :
  plot_ready yhat Ie X t p s ->
  4 <= length Ie ->
  exists (s' : state) (ks : list nat) (imgs : list (list (list float))),
    for_each (range 4) (plot_error yhat) s = (Ok tt, s') /\
    map Z.of_nat ks = take 4 Ie /\
    shown s' = shown s ++ imgs /\
    rows_drawn X ks imgs.
Proof.
  intros Hs Hn.
  set (ks := map Z.to_nat (take 4 Ie)).
  set (imgs := map (fun k => chunks 28 28 (nth k X [])) ks).
  assert (Vt : Forall (fun k => (0 <= k < Z.of_nat (length t))%Z) (take 4 Ie))
    by (apply Forall_take; exact Ie_valid).
  assert (Hks : map Z.of_nat ks = take 4 Ie).
  { unfold ks. rewrite map_map. rewrite <- (map_id (take 4 Ie)) at 2.
    apply map_ext_Forall. eapply Forall_impl; [exact Vt|].
    intros k Hk. cbn beta in *. lia. }
  assert (Vk : Forall (fun k => k < length X) ks).
  { unfold ks. apply Forall_map. eapply Forall_impl; [exact Vt|].
    intros k Hk. cbn beta in *. lia. }
  destruct (for_each_inv (plot_error yhat) (range (Z.of_nat 4))
              (fun j s1 => plot_ready yhat Ie X t p s1 /\
                           shown s1 = shown s ++ take j imgs) s)
    as (s' & E & _ & Hsh).
  - intros j i s1 Hj [Hr Hsh]. apply range_lookup in Hj as [-> Hj].
    destruct (lookup_lt_is_Some_2 Ie j ltac:(lia)) as [k Hk].
    assert (Hkt : (0 <= k < Z.of_nat (length t))%Z).
    { rewrite Forall_forall in Ie_valid. apply Ie_valid.
      eapply list_elem_of_lookup_2. exact Hk. }
    destruct (getitem_nonneg X k ltac:(lia)) as (x & Gx & Lx).
    destruct (getitem_nonneg t k Hkt) as (l & Gl & _).
    destruct (getitem_nonneg p k ltac:(lia)) as (l' & Gl' & _).
    assert (Hx : length x = 784).
    { rewrite Forall_forall in X_rows. apply X_rows. eapply list_elem_of_lookup_2.
      exact Lx. }
    eexists. split;
      [apply (plot_error_shows _ k x l l' s1 Hr (getitem_lookup Ie j k Hk) Gx Hx Gl Gl')|].
    destruct Hr as (R1 & R2 & R3 & R4).
    split; [unfold plot_ready; repeat split; env_lookup|].
    cbn [shown]. rewrite Hsh, <- app_assoc. f_equal. symmetry. apply take_S_r.
    unfold imgs, ks. rewrite !map_map.
    change (map ?f ?l) with (f <$> l).
    rewrite list_lookup_fmap, lookup_take_lt by lia. rewrite Hk.
    cbn [fmap option_fmap option_map].
    rewrite (nth_lookup_Some _ _ _ _ Lx). reflexivity.
  - split; [exact Hs | apply eq_sym, app_nil_r].
  - exists s', ks, imgs. split; [exact E|]. split; [exact Hks|].
    split; [|apply rows_drawn_map; exact Vk].
    rewrite length_range in Hsh. rewrite Hsh. f_equal. apply firstn_all2.
    unfold imgs, ks. rewrite !length_map, length_take. lia.
Qed.

End ErrorImages.

Lemma listed_errors_differ (a b : list Z) (ks : list nat) (n : nat) :
  map Z.of_nat ks = take n (np_where (zip_with (fun x y => negb (Z.eqb x y)) a b)) ->
  Forall (fun k => exists l l', a !! k = Some l /\ b !! k = Some l' /\ l <> l') ks.
Proof.
  intros H. apply Forall_forall. intros k Hk.
  apply lookup_ne_labels.
  assert (Hin : Z.of_nat k ∈ np_where (zip_with (fun x y => negb (Z.eqb x y)) a b)).
  { assert (Hin : Z.of_nat k ∈ take n (np_where (zip_with (fun x y => negb (Z.eqb x y)) a b)))
      by (rewrite <- H; apply list_elem_of_fmap_2; exact Hk).
    apply elem_of_take in Hin as (i & Hi & _).
    eapply list_elem_of_lookup_2. exact Hi. }
  unfold np_where in Hin. apply where_from_elem in Hin as [_ Hin].
  rewrite Z.sub_0_r, Nat2Z.id in Hin. exact Hin.
Qed.

(** X16.  What the error plots show.  With at least four wrong predictions
    on the test sub-sample (rows of 784 entries, one true and one predicted
    label each), cells 19 and 61 finish and show four images: the test rows at
    the first four entries of [Ierr], reshaped to 28 x 28, and at each of
    these positions the true label and the prediction differ. *)
Theorem error_plots_show_the_first_four_errors
    (s : state) (X : list (list float)) (t p : list Z) :
  env s !! "Xts1" = Some (F64Array2 X) ->
  env s !! "yts1" = Some (IntArray1 t) ->
  length p = length t ->
  length X = length t ->
  Forall (fun r => length r = 784) X ->
  (env s !! "yhat" = Some (IntArray1 p) ->
   4 <= n_errors t p ->
   exists (s' : state) (ks : list nat) (imgs : list (list (list float))),
     cell19 s = (Ok tt, s') /\
     map Z.of_nat ks = take 4 (np_where (zip_with (fun x y => negb (Z.eqb x y)) t p)) /\
     shown s' = shown s ++ imgs /\
     rows_drawn X ks imgs /\
     Forall (fun k => exists l l', t !! k = Some l /\ p !! k = Some l' /\ l <> l') ks) /\
  (env s !! "yhat_ts" = Some (IntArray1 p) ->
   4 <= n_errors p t ->
   exists (s' : state) (ks : list nat) (imgs : list (list (list float))),
     cell61 s = (Ok tt, s') /\
     map Z.of_nat ks = take 4 (np_where (zip_with (fun x y => negb (Z.eqb x y)) p t)) /\
     shown s' = shown s ++ imgs /\
     rows_drawn X ks imgs /\
     Forall (fun k => exists l l', p !! k = Some l /\ t !! k = Some l' /\ l <> l') ks).
Proof.
  intros HX Ht Hl HlX Hrows. split; intros Hp H4.
  - destruct (np_where_errors t p (eq_sym Hl)) as [Hn Hv].
    set (Ierr := np_where (zip_with (fun x y => negb (Z.eqb x y)) t p)) in *.
    set (s1 := upd_env (fun e => <["Ierr" := IntArray1 Ierr]> (<["nplt" := PyInt 4]> e)) s).
    assert (E : cell19 s = for_each (range 4) (plot_error "yhat") s1).
    { unfold cell19. do 3 nb_step.
      erewrite run_lift by (apply ne_elementwise_value; symmetry; exact Hl).
      nb_step. unfold plot_errors. nb_step. reflexivity. }
    assert (R : plot_ready "yhat" Ierr X t p s1).
    { unfold plot_ready, s1. repeat split; env_lookup. }
    destruct (error_loop "yhat" Ierr X t p ltac:(done) ltac:(done) Hv Hrows HlX Hl s1 R)
      as (s' & ks & imgs & E' & Hks & Hsh & Hd); [rewrite Hn; exact H4|].
    exists s', ks, imgs. rewrite E. split; [exact E'|]. split; [exact Hks|].
    split; [exact Hsh|]. split; [exact Hd|].
    apply (listed_errors_differ t p ks 4 Hks).
  - destruct (np_where_errors p t Hl) as [Hn Hv]. rewrite Hl in Hv.
    set (Ierr := np_where (zip_with (fun x y => negb (Z.eqb x y)) p t)) in *.
    set (s1 := upd_env (fun e => <["nplt" := PyInt 4]> (<["Ierr" := IntArray1 Ierr]> e)) s).
    assert (E : cell61 s = for_each (range 4) (plot_error "yhat_ts") s1).
    { unfold cell61. do 2 nb_step.
      erewrite run_lift by (apply ne_elementwise_value; exact Hl).
      do 2 nb_step. unfold plot_errors. nb_step. reflexivity. }
    assert (R : plot_ready "yhat_ts" Ierr X t p s1).
    { unfold plot_ready, s1. repeat split; env_lookup. }
    destruct (error_loop "yhat_ts" Ierr X t p ltac:(done) ltac:(done) Hv Hrows HlX Hl s1 R)
      as (s' & ks & imgs & E' & Hks & Hsh & Hd); [rewrite Hn; exact H4|].
    exists s', ks, imgs. rewrite E. split; [exact E'|]. split; [exact Hks|].
    split; [exact Hsh|]. split; [exact Hd|].
    apply (listed_errors_differ p t ks 4 Hks).
Qed.

(** ** From the fit to the predictions *)

Lemma assign_all_id (names : list string) (vs : list obj) (s : state) :
  bound names vs s -> assign_all names vs s = (Ok tt, s).
Proof.
  induction 1 as [|x v ns vs' Hx _ IH]; [reflexivity|].
  cbn [assign_all]. rewrite run_assign.
  unfold upd_env. rewrite (insert_id _ _ _ Hx), state_eta. exact IH.
Qed.

(** The states a dump and the load that follows it go through. *)
Lemma dump_and_load (f : string) (names : list string) (vs : list obj) (s : state) :
  env s !! "pickle" = Some (PyModule "pickle") ->
  bound names vs (upd_env (<["fp" := PyFile f "wb"]>) s) ->
  bound names vs (upd_env (<["fp" := PyFile f "rb"]>) (after_dump f vs s)) ->
  pickle_dump f names s = (Ok tt, after_dump f vs s) /\
  pickle_load f names (after_dump f vs s) =
    (Ok tt, upd_env (<["fp" := PyFile f "rb"]>) (after_dump f vs s)).
Proof.
  intros Hp Hb Hb'. split; [apply pickle_dump_spec; assumption|].
  unfold pickle_load. rewrite run_bind. unfold open_rb.
  cbn [fs after_dump]. rewrite lookup_insert_eq. rewrite run_assign.
  rewrite run_pickle_attr
    by (cbn [env upd_env after_dump]; rewrite !lookup_insert_ne by done; exact Hp).
  erewrite run_lookup by env_lookup.
  rewrite pickle_roundtrip, (Forall2_length _ _ _ Hb), Nat.eqb_refl.
  apply assign_all_id. exact Hb'.
Qed.

Lemma import_dump_and_load (f : string) (names : list string) (vs : list obj) (s : state) :
  let s0 := upd_env (<["pickle" := PyModule "pickle"]>) s in
  bound names vs (upd_env (<["fp" := PyFile f "wb"]>) s0) ->
  bound names vs (upd_env (<["fp" := PyFile f "rb"]>) (after_dump f vs s0)) ->
  (import_pickle;; pickle_dump f names) s = (Ok tt, after_dump f vs s0) /\
  pickle_load f names (after_dump f vs s0) =
    (Ok tt, upd_env (<["fp" := PyFile f "rb"]>) (after_dump f vs s0)) /\
  (import_pickle;; pickle_load f names) (after_dump f vs s0) =
    (Ok tt, upd_env (<["fp" := PyFile f "rb"]>) (after_dump f vs s0)).
Proof.
  intros s0 Hb Hb'.
  destruct (dump_and_load f names vs s0) as [Ed El];
    [apply lookup_insert_eq | exact Hb | exact Hb' |].
  split; [unfold import_pickle; rewrite run_assign; exact Ed|].
  split; [exact El|].
  rewrite import_pickle_id; [exact El|].
  cbn [env after_dump]. rewrite lookup_insert_ne by done. apply lookup_insert_eq.
Qed.

Ltac bound_after := unfold after_dump, after_fit; bound_names.

(** X15.  Every prediction is made by the machine fitted in the same run,
    also when the machine went through its snapshot.  Cells 11 to 17: [yhat]
    holds the predictions, on the test sub-sample, of the logistic regression
    fitted on [Xtr1], [ytr1].  Cells 31 to 41: [yhat_ts] holds those of the
    linear machine fitted on [Xtr], [ytr].  Cells 53 to 58: [yhat_ts] holds
    those of the RBF machine fitted on [Xtr1], [ytr1]. *)
Theorem predictions_come_from_the_machine_fitted_before :
  (forall (s : state) (X1 Xt : list (list float)) (y1 I yt : list Z),
     env s !! "Xtr1" = Some (F64Array2 X1) ->
     env s !! "ytr1" = Some (IntArray1 y1) ->
     env s !! "Iperm" = Some (IntArray1 I) ->
     env s !! "Xts" = Some (F64Array2 Xt) ->
     env s !! "yts" = Some (IntArray1 yt) ->
     env s !! "nts" = Some (PyInt (Z.of_nat (length Xt))) ->
     length yt = length Xt ->
     exists (s' : state) (Xt1 : list (list float)),
       (cell11;; cell13;; cell15;; cell17) s = (Ok tt, s') /\
       env s' !! "Xts1" = Some (F64Array2 Xt1) /\
       env s' !! "yhat" =
         Some (IntArray1 (predict (fit LogisticRegression X1 y1) Xt1))) /\
  (forall (s : state) (X X1 Xt1 : list (list float)) (y y1 : list Z),
     env s !! "Xtr" = Some (F64Array2 X) ->
     env s !! "ytr" = Some (IntArray1 y) ->
     env s !! "Xtr1" = Some (F64Array2 X1) ->
     env s !! "ytr1" = Some (IntArray1 y1) ->
     env s !! "Xts1" = Some (F64Array2 Xt1) ->
     exists s' : state,
       (cell31;; cell35;; cell37;; cell39;; cell41) s = (Ok tt, s') /\
       env s' !! "yhat_ts" = Some (IntArray1 (predict (fit (SVC Linear) X y) Xt1))) /\
  (forall (s : state) (X1 Xt1 : list (list float)) (y1 yt1 : list Z),
     env s !! "Xtr1" = Some (F64Array2 X1) ->
     env s !! "ytr1" = Some (IntArray1 y1) ->
     env s !! "Xts1" = Some (F64Array2 Xt1) ->
     env s !! "yts1" = Some (IntArray1 yt1) ->
     exists s' : state,
       (cell53;; cell54;; cell55;; cell57;; cell58) s = (Ok tt, s') /\
       env s' !! "yhat_ts" = Some (IntArray1 (predict (fit (SVC Rbf) X1 y1) Xt1))).
Proof.
  split; [|split].
  - intros s X1 Xt y1 I yt HX1 Hy1 HI HXt Hyt Hnt Ly.
    set (s0 := upd_env (<["logreg" := Estimator LogisticRegression]>) s).
    set (s11 := after_fit "logreg" LogisticRegression X1 y1 s0).
    assert (E11 : cell11 s = (Ok tt, s11)).
    { unfold cell11. rewrite run_assign. fold s0.
      apply (call_fit_spec _ _ _ s0 (Estimator LogisticRegression));
        [subst s0; env_lookup | reflexivity | subst s0; env_lookup | subst s0; env_lookup]. }
    destruct (import_dump_and_load "mnist_logreg.p" ["logreg"; "Xtr1"; "ytr1"; "Iperm"]
                [Fitted LogisticRegression (fit LogisticRegression X1 y1);
                 F64Array2 X1; IntArray1 y1; IntArray1 I] s11) as (E13 & E15 & _).
    { unfold s11, s0. bound_after. }
    { unfold s11, s0. bound_after. }
    match type of E15 with _ = (_, ?u) => set (s13 := u) in * end.
    destruct (valid_indices_sub Xt yt
                (map Z.of_nat (fst (permutation (length Xt) (rng s13)))) Ly
                (permutation_valid _ _)) as (Xt1 & yt1 & TX & Ty & _).
    eexists _, Xt1. split.
    { rewrite (run_ok _ _ _ _ _ E11). unfold cell13 at 1. rewrite (run_ok _ _ _ _ _ E13).
      unfold cell15 at 1. rewrite (run_ok _ _ _ _ _ E15).
      apply (cell17_spec s13 Xt Xt1 yt yt1 LogisticRegression
               (fit LogisticRegression X1 y1));
        [subst s13 s11 s0; unfold after_dump, after_fit; env_lookup
        | subst s13 s11 s0; unfold after_dump, after_fit; env_lookup
        | subst s13 s11 s0; unfold after_dump, after_fit; env_lookup
        | subst s13 s11 s0; unfold after_dump, after_fit; env_lookup
        | exact TX | exact Ty]. }
    unfold after_cell17. cbn [env]. split; env_lookup.
  - intros s X X1 Xt1 y y1 HX Hy HX1 Hy1 HXt1.
    set (s31 := upd_env (<["svc" := Estimator (SVC Linear)]>) s).
    set (s35 := after_fit "svc" (SVC Linear) X y s31).
    assert (E35 : cell35 s31 = (Ok tt, s35)).
    { apply (call_fit_spec _ _ _ s31 (Estimator (SVC Linear)));
        [subst s31; env_lookup | reflexivity | subst s31; env_lookup | subst s31; env_lookup]. }
    destruct (import_dump_and_load "mnist_svc.p" ["svc"; "Xtr1"; "ytr1"]
                [Fitted (SVC Linear) (fit (SVC Linear) X y); F64Array2 X1; IntArray1 y1]
                s35) as (E37 & _ & E39).
    { unfold s35, s31. bound_after. }
    { unfold s35, s31. bound_after. }
    match type of E39 with _ = (_, ?u) => set (s37 := u) in * end.
    eexists. split.
    { unfold cell31. rewrite run_assign. fold s31.
      rewrite (run_ok _ _ _ _ _ E35). unfold cell37 at 1. rewrite (run_ok _ _ _ _ _ E37).
      unfold cell39 at 1. rewrite (run_ok _ _ _ _ _ E39).
      unfold cell41.
      rewrite (run_predict "svc" "Xts1" _ s37 (SVC Linear) (fit (SVC Linear) X y) Xt1);
        [reflexivity
        | subst s37 s35 s31; unfold after_dump, after_fit; env_lookup
        | subst s37 s35 s31; unfold after_dump, after_fit; env_lookup]. }
    env_lookup.
  - intros s X1 Xt1 y1 yt1 HX1 Hy1 HXt1 Hyt1.
    set (s53 := upd_env (<["svcrbf" := Estimator (SVC Rbf)]>) s).
    set (sf := after_fit "svcrbf" (SVC Rbf) X1 y1 s53).
    assert (Ef : call_fit "svcrbf" "Xtr1" "ytr1" s53 = (Ok tt, sf)).
    { apply (call_fit_spec _ _ _ s53 (Estimator (SVC Rbf)));
        [subst s53; env_lookup | reflexivity | subst s53; env_lookup | subst s53; env_lookup]. }
    destruct (import_dump_and_load "mnist_svcrbf.p" ["svcrbf"; "Xtr1"; "ytr1"]
                [Fitted (SVC Rbf) (fit (SVC Rbf) X1 y1); F64Array2 X1; IntArray1 y1]
                sf) as (E54 & _ & E55).
    { unfold sf, s53. bound_after. }
    { unfold sf, s53. bound_after. }
    match type of E55 with _ = (_, ?u) => set (s54 := u) in * end.
    set (sp := upd_env (<["yhat_ts" := IntArray1 (predict (fit (SVC Rbf) X1 y1) Xt1)]>) s54).
    destruct (dump_and_load "mnist_svcrbf_test.p" ["yhat_ts"; "yts1"; "Xts1"]
                [IntArray1 (predict (fit (SVC Rbf) X1 y1) Xt1); IntArray1 yt1;
                 F64Array2 Xt1] sp) as [E57 E58].
    { unfold sp, s54, sf, s53. unfold after_dump, after_fit. env_lookup. }
    { unfold sp, s54, sf, s53. bound_after. }
    { unfold sp, s54, sf, s53. bound_after. }
    match type of E58 with _ = (_, ?u) => set (s57 := u) in * end.
    exists s57. split.
    { unfold cell53. rewrite run_assign. fold s53.
      unfold cell54 at 1. rewrite run_bind.
      rewrite (run_ok _ _ _ _ _ Ef), E54.
      unfold cell55 at 1. rewrite (run_ok _ _ _ _ _ E55).
      unfold cell57 at 1. rewrite run_bind.
      rewrite (run_predict "svcrbf" "Xts1" _ s54 (SVC Rbf) (fit (SVC Rbf) X1 y1) Xt1);
        [| subst s54 sf s53; unfold after_dump, after_fit; env_lookup
         | subst s54 sf s53; unfold after_dump, after_fit; env_lookup].
      rewrite run_assign. fold sp. rewrite E57. exact E58. }
    subst s57 sp. unfold after_dump. env_lookup.
Qed.

(** ** Loading, then rescaling (cells 4 and 6) *)

Lemma cell4_spec (s : state) (A B : list (list (list Z))) (ytr yts : list Z) :
  load_data = ((A, ytr), (B, yts)) ->
  cell4 s =
  (Ok tt,
   upd_env (fun e =>
     <["ncol" := PyInt (Z.of_nat (length (hd [] (hd [] A))))]>
       (<["nrow" := PyInt (Z.of_nat (length (hd [] A)))]>
          (<["nts" := PyInt (Z.of_nat (length B))]>
             (<["ntr" := PyInt (Z.of_nat (length A))]>
                (<["yts" := IntArray1 yts]> (<["Xts" := U8Array3 B]>
                   (<["ytr" := IntArray1 ytr]> (<["Xtr" := U8Array3 A]> e)))))))) s).
Proof. intros H. unfold cell4. rewrite H. reflexivity. Qed.

Lemma first_image_shape (A : list (list (list Z))) (n nrow ncol : nat) :
  shape3 n nrow ncol A -> 0 < n -> 0 < nrow ->
  length A = n /\ length (hd [] A) = nrow /\ length (hd [] (hd [] A)) = ncol.
Proof.
  intros [Hn HA] H0 H1. split; [exact Hn|].
  destruct A as [|a A]; [cbn in Hn; lia|].
  apply Forall_cons in HA as [[La Ra] _]. cbn [hd]. split; [exact La|].
  destruct a as [|r a]; [cbn in La; lia|].
  apply Forall_cons in Ra as [Lr _]. exact Lr.
Qed.

(** X17.  Cells 4 and 6 in sequence.  Cell 4 reads [nrow] and [ncol] off
    the training images alone and cell 6 reshapes both sets with
    [npix = nrow*ncol].  When the test images have the shape of the training
    images the two cells finish, with both sets rescaled and flattened and
    the labels as loaded.  When the test images have another number of
    pixels, cell 6 stops with [ValueError] at the reshape of [Xts]: [Xtr] is
    already flattened then, and [Xts] is rescaled but still three-
    dimensional. *)
Theorem loading_then_rescaling
    (s : state) (A B : list (list (list Z))) (ytr yts : list Z) (n nt nrow ncol : nat) :
  load_data = ((A, ytr), (B, yts)) ->
  shape3 n nrow ncol A ->
  0 < n -> 0 < nrow ->
  (shape3 nt nrow ncol B ->
   exists s' : state,
     (cell4;; cell6) s = (Ok tt, s') /\
     env s' !! "npix" = Some (PyInt (Z.of_nat nrow * Z.of_nat ncol)) /\
     env s' !! "Xtr" = Some (F64Array2 (map (fun img => map rescale_px (concat img)) A)) /\
     env s' !! "Xts" = Some (F64Array2 (map (fun img => map rescale_px (concat img)) B)) /\
     env s' !! "ytr" = Some (IntArray1 ytr) /\
     env s' !! "yts" = Some (IntArray1 yts)) /\
  (forall nrow' ncol' : nat,
     shape3 nt nrow' ncol' B -> 0 < nt -> nrow' * ncol' <> nrow * ncol ->
     exists s' : state,
       (cell4;; cell6) s = (Raise ValueError, s') /\
       env s' !! "Xtr" = Some (F64Array2 (map (fun img => map rescale_px (concat img)) A)) /\
       env s' !! "Xts" = Some (F64Array3 (rescale B))).
Proof.
  intros Hload HA H0 H1.
  destruct (first_image_shape A n nrow ncol HA H0 H1) as (Ln & Lr & Lc).
  rewrite (run_ok _ _ _ _ _ (cell4_spec s A B ytr yts Hload)).
  rewrite Ln, Lr, Lc.
  split.
  - intros HB. rewrite (proj1 HB).
    match goal with |- context [cell6 ?u] => set (s4 := u) end.
    eexists. split.
    + apply (cell6_spec s4 A B n nt nrow ncol);
        [subst s4; env_lookup | subst s4; env_lookup | subst s4; env_lookup
        | subst s4; env_lookup | subst s4; env_lookup | subst s4; env_lookup
        | exact HA | exact HB].
    + unfold after_cell6. cbn [env upd_env]. repeat split; subst s4; env_lookup.
  - intros nrow' ncol' HB Hnt Hne. rewrite (proj1 HB).
    match goal with |- context [cell6 ?u] => set (s4 := u) end.
    destruct (reshape2_rect n nrow ncol (rescale A) (rescale_shape _ _ _ _ HA)) as [RA _].
    rewrite flatten_rescale in RA.
    assert (RB : reshape2 (Z.of_nat nt) (Z.of_nat nrow * Z.of_nat ncol) (rescale B) =
                 Raise ValueError).
    { unfold reshape2. apply reshape_flat_mismatch.
      pose proof (rescale_shape _ _ _ _ HB) as [LB FB].
      rewrite concat_concat_map, (length_concat_rect (nrow' * ncol')).
      - rewrite length_map, LB. nia.
      - apply Forall_map. eapply Forall_impl; [exact FB|].
        intros img [Li Ri]. cbn beta. rewrite (length_concat_rect ncol' img Ri), Li.
        reflexivity. }
    eexists. split.
    + unfold cell6. subst s4. do 8 nb_step.
      erewrite run_lift by exact RA.
      do 6 nb_step. rewrite run_bind. unfold lift at 1. rewrite RB. reflexivity.
    + cbn [env upd_env]. split; env_lookup.
Qed.

(** ** Cell 34 after cells 9 and 17 *)

(** X18.  Cell 34 repeats the sub-sampling of cells 9 and 17 and changes
    nothing: run right after these two cells, it finishes and leaves the
    state exactly as it found it; [ntr1], [nts1] and the four sub-sample
    arrays are rebound to the values they already have. *)
Theorem cell34_repeats_the_sub_sampling
    (s : state) (X Xt : list (list float)) (y I yt : list Z) (e : estimator) (m : model) :
  env s !! "Xtr" = Some (F64Array2 X) ->
  env s !! "ytr" = Some (IntArray1 y) ->
  env s !! "Iperm" = Some (IntArray1 I) ->
  env s !! "Xts" = Some (F64Array2 Xt) ->
  env s !! "yts" = Some (IntArray1 yt) ->
  env s !! "nts" = Some (PyInt (Z.of_nat (length Xt))) ->
  env s !! "logreg" = Some (Fitted e m) ->
  length y = length X ->
  length yt = length Xt ->
  Forall (fun k => (0 <= k < Z.of_nat (length X))%Z) I ->
  exists s1 s2 : state,
    cell9 s = (Ok tt, s1) /\ cell17 s1 = (Ok tt, s2) /\ cell34 s2 = (Ok tt, s2).
Proof.
  intros HX Hy HI HXt Hyt Hnt Hm Ly Lyt Hv.
  destruct (valid_indices_sub X y I Ly Hv) as (X1 & y1 & TX & Ty & _).
  pose proof (cell9_spec s X X1 y I y1 HX Hy HI TX Ty) as E9.
  match type of E9 with _ = (_, ?u) => set (s1 := u) in * end.
  destruct (valid_indices_sub Xt yt
              (map Z.of_nat (fst (permutation (length Xt) (rng s1)))) Lyt
              (permutation_valid _ _)) as (Xt1 & yt1 & TXt & Tyt & _).
  pose proof (cell17_spec s1 Xt Xt1 yt yt1 e m
                ltac:(subst s1; env_lookup) ltac:(subst s1; env_lookup)
                ltac:(subst s1; env_lookup) ltac:(subst s1; env_lookup) TXt Tyt) as E17.
  match type of E17 with _ = (_, ?u) => set (s2 := u) in * end.
  exists s1, s2. split; [exact E9|]. split; [exact E17|].
  rewrite (cell34_spec s2 X X1 Xt Xt1 y I y1 yt
             (map Z.of_nat (fst (permutation (length Xt) (rng s1)))) yt1);
    try (subst s2 s1; unfold after_cell17; env_lookup); try assumption.
  f_equal. subst s2 s1. unfold after_cell17, upd_env. cbn [env fs rng fit_calls shown].
  f_equal.
  rewrite (insert_id _ "ntr1") by env_lookup.
  rewrite (insert_id _ "nts1") by env_lookup.
  rewrite (insert_id _ "Xtr1") by env_lookup.
  rewrite (insert_id _ "ytr1") by env_lookup.
  rewrite (insert_id _ "Xts1") by env_lookup.
  rewrite (insert_id _ "yts1") by env_lookup.
  reflexivity.
Qed.

End Notebook.

Arguments PyInt {model} n.
Arguments PyFloat {model} x.
Arguments U8Array3 {model} a.
Arguments F64Array3 {model} a.
Arguments F64Array2 {model} a.
Arguments IntArray2 {model} a.
Arguments IntArray1 {model} a.
Arguments Estimator {model} e.
Arguments Fitted {model} e m.
Arguments PyModule {model} name.
Arguments PyFile {model} path mode.
Arguments mkState {model generator bytes} env fs rng fit_calls shown.
Arguments env {model generator bytes} s.
Arguments fs {model generator bytes} s.
Arguments rng {model generator bytes} s.
Arguments fit_calls {model generator bytes} s.
Arguments shown {model generator bytes} s.
Arguments upd_env {model generator bytes} f s.

(** ** A concrete instance

    A small dataset of 28 x 28 images and stand-ins for the external
    libraries: a classifier that remembers its training set and answers its
    first label, the ten-class confusion matrix, the reversal as the drawn
    permutation, and a pickle that stores the list itself and finds
    nothing to read in an empty file. *)

Module Toy.

Definition model : Type := (list (list float) * list Z)%type.

Definition fit (e : estimator) (X : list (list float)) (y : list Z) : model := (X, y).

Definition predict (m : model) (X : list (list float)) : list Z :=
  map (fun _ => hd 0%Z (snd m)) X.

Definition classes : list Z := [0; 1; 2; 3; 4; 5; 6; 7; 8; 9]%Z.

Definition confusion_matrix (t p : list Z) : list (list Z) :=
  map (fun i =>
         map (fun j =>
                Z.of_nat (count_true (zip_with (fun a b => (a =? i)%Z && (b =? j)%Z) t p)))
             classes)
      classes.

Definition img (p : Z) : list (list Z) := repeat (repeat p 28) 28.

Definition Xtr0 : list (list (list Z)) :=
  [img 0; img 255; img 128; img 7; img 9; img 200; img 1; img 3].

Definition ytr0 : list Z := [0; 1; 2; 3; 4; 5; 6; 7]%Z.

Definition Xts0 : list (list (list Z)) :=
  [img 5; img 250; img 100; img 30; img 60; img 90].

Definition yts0 : list Z := [0; 1; 0; 3; 4; 9]%Z.

Definition load_data :
  (list (list (list Z)) * list Z) * (list (list (list Z)) * list Z) :=
  ((Xtr0, ytr0), (Xts0, yts0)).

Definition permutation (n : nat) (g : unit) : list nat * unit := (rev (seq 0 n), g).

Definition bytes : Type := option (list (obj model)).

Definition pickle_dumps (vs : list (obj model)) : bytes := Some vs.

Definition pickle_loads (b : bytes) : result (list (obj model)) :=
  match b with
  | Some vs => Ok vs
  | None => Raise EOFError
  end.

Definition st : Type := state model unit bytes.

(** The state a cell leaves behind, finished or not. *)
Definition run (c : nb model unit bytes unit) (s : st) : st := snd (c s).

Definition c4 : nb model unit bytes unit := cell4 model load_data unit bytes.
Definition c6 : nb model unit bytes unit := cell6 model unit bytes.
Definition c7 : nb model unit bytes unit := cell7 model unit permutation bytes.
Definition c9 : nb model unit bytes unit := cell9 model unit bytes.
Definition c11 : nb model unit bytes unit := cell11 model fit unit bytes.
Definition c13 : nb model unit bytes unit := cell13 model unit bytes None pickle_dumps.
Definition c15 : nb model unit bytes unit := cell15 model unit bytes pickle_loads.
Definition c17 : nb model unit bytes unit := cell17 model predict unit permutation bytes.
Definition c19 : nb model unit bytes unit := cell19 model unit bytes.
Definition c21 : nb model unit bytes unit := cell21 model confusion_matrix unit bytes.
Definition c31 : nb model unit bytes unit := cell31 model unit bytes.
Definition c34 : nb model unit bytes unit := cell34 model unit bytes.
Definition c35 : nb model unit bytes unit := cell35 model fit unit bytes.
Definition c37 : nb model unit bytes unit := cell37 model unit bytes None pickle_dumps.
Definition c39 : nb model unit bytes unit := cell39 model unit bytes pickle_loads.
Definition c41 : nb model unit bytes unit := cell41 model predict unit bytes.
Definition c43 : nb model unit bytes unit := cell43 model unit bytes None pickle_dumps.
Definition c44 : nb model unit bytes unit := cell44 model unit bytes pickle_loads.
Definition c61 : nb model unit bytes unit := cell61 model unit bytes.

(** The states along a run of the cells in the notebook's order. *)
Definition s0 : st := mkState ∅ ∅ tt [] [].
Definition s4 : st := run c4 s0.
Definition s6 : st := run c6 s4.
Definition s7 : st := run c7 s6.
Definition s9 : st := run c9 s7.
Definition s11 : st := run c11 s9.
Definition s13 : st := run c13 s11.
Definition s15 : st := run c15 s13.
Definition s17 : st := run c17 s15.
Definition s19 : st := run c19 s17.
Definition s21 : st := run c21 s19.
Definition s31 : st := run c31 s21.
Definition s34 : st := run c34 s31.
Definition s35 : st := run c35 s34.
Definition s37 : st := run c37 s35.
Definition s39 : st := run c39 s37.
Definition s41 : st := run c41 s39.
Definition s43 : st := run c43 s41.

(** The arrays cell 6 binds, and the other values the run binds. *)
Definition Xtr6 : list (list float) := map (fun i => map rescale_px (concat i)) Xtr0.
Definition Xts6 : list (list float) := map (fun i => map rescale_px (concat i)) Xts0.
Definition Iperm7 : list Z := [7; 6; 5; 4; 3; 2; 1; 0]%Z.
Definition yts17 : list Z := [9; 4; 3; 0; 1; 0]%Z.
Definition yhat17 : list Z := [7; 7; 7; 7; 7; 7]%Z.
Definition yhat41 : list Z := [0; 0; 0; 0; 0; 0]%Z.


Definition X_two : list (list float) := [[rescale_px 0]; [rescale_px 255]].



(** A test sub-sample on which every prediction is right. *)
Definition s_right : st :=
  mkState
    (<["yhat" := IntArray1 yts17]> (<["yts1" := IntArray1 yts17]>
       (<["Xts1" := F64Array2 Xts6]> ∅))) ∅ tt [] [].

(** 5001 training samples of one pixel each, with the sub-sample indices of
    cell 7 and an untrained linear machine, as cell 34 finds them. *)
Definition big_n : nat := Z.to_nat 5001.
Definition big_X : list (list float) :=
  map (fun k => [rescale_px (Z.of_nat k mod 256)]) (seq 0 big_n).
Definition big_y : list Z := map (fun k => (Z.of_nat k mod 10)%Z) (seq 0 big_n).
Definition big_I : list Z := map Z.of_nat (rev (seq 0 big_n)).
Definition s_big : st :=
  mkState
    (<["svc" := Estimator (SVC Linear)]>
       (<["Iperm_ts" := IntArray1 [1; 0]%Z]>
          (<["yts" := IntArray1 [3; 8]%Z]>
             (<["Xts" := F64Array2 [[rescale_px 0]; [rescale_px 255]]]>
                (<["Iperm" := IntArray1 big_I]>
                   (<["ytr" := IntArray1 big_y]>
                      (<["Xtr" := F64Array2 big_X]> ∅)))))))
    ∅ tt [] [].

Definition pixel_in_range (p : Z) : bool := (0 <=? p)%Z && (p <=? 255)%Z.

(** Cell 34 followed by cell 35. *)
Definition c34_35 : nb model unit bytes unit :=
  nb_bind model unit bytes c34 (fun _ => c35).

(** The weights and the support vectors of the stand-in classifier: the
    training rows it remembers. *)
Definition coef_ (m : model) : list (list float) := fst m.
Definition support_vectors_ (m : model) : list (list float) := fst m.

Definition c23 : nb model unit bytes unit := cell23 model unit bytes coef_.
Definition c26 : nb model unit bytes unit := cell26_select model unit permutation bytes.
Definition c48 : nb model unit bytes unit := cell48 model unit bytes support_vectors_.
Definition c50 : nb model unit bytes unit := cell50 model unit permutation bytes.
Definition c54 : nb model unit bytes unit := cell54 model fit unit bytes None pickle_dumps.

(** A kernel that has imported pickle and holds a test sub-sample of two
    samples with predictions, the states cells 43 and 45 leave from it, and
    two later kernels in the directory cell 43 has left: one that has
    imported pickle and nothing else, and a new one. *)
Definition s_pred : st :=
  mkState
    (<["yhat_ts" := IntArray1 [3; 8]%Z]> (<["yts1" := IntArray1 [3; 5]%Z]>
       (<["Xts1" := F64Array2 [[rescale_px 0]; [rescale_px 255]]]>
          {["pickle" := PyModule "pickle"]}))) ∅ tt [] [].
Definition s_pred43 : st := run c43 s_pred.
Definition s_later_new : st := mkState ∅ (fs s_pred43) tt [] [].

(** A kernel that holds a fitted linear machine and its training
    sub-sample, the state cell 37 leaves from it, and a new kernel in the
    directory cell 37 has left. *)
Definition s_svc : st :=
  mkState
    (<["ytr1" := IntArray1 [3; 8]%Z]> (<["Xtr1" := F64Array2 X_two]>
       (<["svc" := Fitted (SVC Linear) (X_two, [3; 8]%Z)]> ∅))) ∅ tt [] [].
Definition s_svc37 : st := run c37 s_svc.
Definition s_svc_new : st := mkState ∅ (fs s_svc37) tt [] [].

(** A kernel that holds a training set of two samples, its sub-sample and a
    test sub-sample, as cell 31 finds them. *)
Definition s_train : st :=
  mkState
    (<["Xts1" := F64Array2 X_two]> (<["ytr1" := IntArray1 [8; 3]%Z]>
       (<["Xtr1" := F64Array2 (rev X_two)]> (<["ytr" := IntArray1 [3; 8]%Z]>
          (<["Xtr" := F64Array2 X_two]> ∅))))) ∅ tt [] [].


(** A training set of three images, and one of two samples of two pixels
    each. *)
Definition s_three : st :=
  mkState (<["ntr" := PyInt 3]> (<["Xtr" := F64Array2 (take 3 Xtr6)]> ∅)) ∅ tt [] [].

Definition X_two_px : list (list float) :=
  [[rescale_px 0; rescale_px 255]; [rescale_px 1; rescale_px 2]].

Definition s_two_px : st :=
  mkState (<["ntr" := PyInt 2]> (<["Xtr" := F64Array2 X_two_px]> ∅)) ∅ tt [] [].


(** Rows 9 and 7 of the confusion matrix of cell 21 in this run: every
    prediction is 7, and no test label is. *)
Definition row9 : list Z := [0; 0; 0; 0; 0; 0; 0; 1; 0; 0]%Z.
Definition row7 : list Z := [0; 0; 0; 0; 0; 0; 0; 0; 0; 0]%Z.

(** Cells 4 and 6, and cells 31 to 41, in sequence. *)
Definition c4_6 : nb model unit bytes unit :=
  nb_bind model unit bytes c4 (fun _ => c6).
Definition c31_41 : nb model unit bytes unit :=
  nb_bind model unit bytes c31 (fun _ =>
    nb_bind model unit bytes c35 (fun _ =>
      nb_bind model unit bytes c37 (fun _ =>
        nb_bind model unit bytes c39 (fun _ => c41)))).

End Toy.

(** *** The instance meets what the proofs assume of the libraries *)

Lemma toy_permutation_spec (n : nat) (g : unit) :
  Permutation (fst (Toy.permutation n g)) (seq 0 n).
Proof. symmetry. apply Permutation_rev. Qed.

Lemma toy_predict_length (m : Toy.model) (X : list (list float)) :
  length (Toy.predict m X) = length X.
Proof. apply length_map. Qed.

Lemma toy_pickle_roundtrip (vs : list (obj Toy.model)) :
  Toy.pickle_loads (Toy.pickle_dumps vs) = Ok vs.
Proof. reflexivity. Qed.


Lemma pixels_ok_check (a : list (list (list Z))) :
  forallb (forallb (forallb Toy.pixel_in_range)) a = true -> pixels_ok a.
Proof.
  intros H. unfold pixels_ok.
  rewrite forallb_forall in H. apply Forall_forall. intros img Hi.
  apply list_elem_of_In in Hi. apply H in Hi.
  rewrite forallb_forall in Hi. apply Forall_forall. intros row Hr.
  apply list_elem_of_In in Hr. apply Hi in Hr.
  rewrite forallb_forall in Hr. apply Forall_forall. intros p Hp.
  apply list_elem_of_In in Hp. apply Hr in Hp.
  unfold Toy.pixel_in_range in Hp. apply andb_true_iff in Hp as [H1 H2].
  apply Z.leb_le in H1, H2. lia.
Qed.

Lemma toy_Xtr_pixels : pixels_ok Toy.Xtr0.
Proof. apply pixels_ok_check. vm_compute. reflexivity. Qed.

Lemma toy_Xts_pixels : pixels_ok Toy.Xts0.
Proof. apply pixels_ok_check. vm_compute. reflexivity. Qed.

Lemma toy_img_shape (p : Z) :
  length (Toy.img p) = 28 /\ Forall (fun row => length row = 28) (Toy.img p).
Proof.
  unfold Toy.img. split; [apply repeat_length|].
  apply Forall_forall. intros row Hr. apply list_elem_of_In in Hr.
  apply repeat_spec in Hr. subst row. apply repeat_length.
Qed.

Lemma toy_Xtr_shape : shape3 8 28 28 Toy.Xtr0.
Proof. split; [reflexivity|]. unfold Toy.Xtr0. repeat (constructor; [apply toy_img_shape|]). constructor. Qed.

Lemma toy_Xts_shape : shape3 6 28 28 Toy.Xts0.
Proof. split; [reflexivity|]. unfold Toy.Xts0. repeat (constructor; [apply toy_img_shape|]). constructor. Qed.

Lemma toy_s4_env :
  env Toy.s4 !! "Xtr" = Some (U8Array3 Toy.Xtr0) /\
  env Toy.s4 !! "Xts" = Some (U8Array3 Toy.Xts0) /\
  env Toy.s4 !! "ytr" = Some (IntArray1 Toy.ytr0) /\
  env Toy.s4 !! "yts" = Some (IntArray1 Toy.yts0) /\
  env Toy.s4 !! "ntr" = Some (PyInt (Z.of_nat 8)) /\
  env Toy.s4 !! "nts" = Some (PyInt (Z.of_nat 6)) /\
  env Toy.s4 !! "nrow" = Some (PyInt (Z.of_nat 28)) /\
  env Toy.s4 !! "ncol" = Some (PyInt (Z.of_nat 28)).
Proof. repeat split; vm_compute; reflexivity. Qed.

(** C1 at the instance: cell 6 on the state cell 4 leaves. *)
Lemma rescaled_pixels_witness :
  pixels_ok Toy.Xtr0 /\ pixels_ok Toy.Xts0 /\
  exists (s' : Toy.st) (Xtr' Xts' : list (list float)),
    Toy.c6 Toy.s4 = (Ok tt, s') /\
    env s' !! "Xtr" = Some (F64Array2 Xtr') /\
    env s' !! "Xts" = Some (F64Array2 Xts') /\
    Forall (Forall in_unit_range) Xtr' /\
    Forall (Forall in_unit_range) Xts'.
Proof.
  split; [exact toy_Xtr_pixels|]. split; [exact toy_Xts_pixels|].
  destruct toy_s4_env as (H1 & H2 & _ & _ & H5 & H6 & H7 & H8).
  destruct (rescaled_pixels_in_unit_range Toy.model unit Toy.bytes Toy.s4
              Toy.Xtr0 Toy.Xts0 8 6 28 28 H1 H2 H5 H6 H7 H8
              toy_Xtr_shape toy_Xts_shape toy_Xtr_pixels toy_Xts_pixels)
    as (s' & X & X' & E & EX & EX' & _ & _ & R & R' & _).
  exists s', X, X'. repeat split; assumption.
Defined.




Lemma toy_s7_env :
  env Toy.s7 !! "Xtr" = Some (F64Array2 Toy.Xtr6) /\
  env Toy.s7 !! "ytr" = Some (IntArray1 Toy.ytr0) /\
  env Toy.s7 !! "Iperm" = Some (IntArray1 Toy.Iperm7).
Proof. repeat split; vm_compute; reflexivity. Qed.

Lemma toy_Iperm7_valid :
  Forall (fun k => (0 <= k < Z.of_nat (length Toy.Xtr6))%Z) Toy.Iperm7.
Proof. unfold Toy.Iperm7. repeat (constructor; [cbn; lia|]). constructor. Qed.

Lemma toy_s15_env :
  env Toy.s15 !! "Xts" = Some (F64Array2 Toy.Xts6) /\
  env Toy.s15 !! "yts" = Some (IntArray1 Toy.yts0) /\
  env Toy.s15 !! "nts" = Some (PyInt (Z.of_nat (length Toy.Xts6))) /\
  env Toy.s15 !! "logreg" =
    Some (Fitted LogisticRegression (rev Toy.Xtr6, rev Toy.ytr0)).
Proof. repeat split; vm_compute; reflexivity. Qed.

(** C9 at the instance: cell 9 on the state cell 7 leaves, and cell 17 on
    the state cell 15 leaves. *)
Lemma sub_samples_aligned_witness :
  (length Toy.ytr0 = length Toy.Xtr6 /\
   exists (s' : Toy.st) (X1 : list (list float)) (y1 : list Z),
     Toy.c9 Toy.s7 = (Ok tt, s') /\
     env s' !! "Xtr1" = Some (F64Array2 X1) /\
     env s' !! "ytr1" = Some (IntArray1 y1) /\
     length X1 = Nat.min (Z.to_nat 5000) (length Toy.Iperm7) /\
     length y1 = Nat.min (Z.to_nat 5000) (length Toy.Iperm7) /\
     aligned 5000 Toy.Xtr6 Toy.ytr0 Toy.Iperm7 X1 y1) /\
  (length Toy.yts0 = length Toy.Xts6 /\
   exists (s' : Toy.st) (I : list Z) (X1 : list (list float)) (y1 : list Z),
     Toy.c17 Toy.s15 = (Ok tt, s') /\
     env s' !! "Iperm_ts" = Some (IntArray1 I) /\
     env s' !! "Xts1" = Some (F64Array2 X1) /\
     env s' !! "yts1" = Some (IntArray1 y1) /\
     length I = length Toy.Xts6 /\
     length X1 = Nat.min (Z.to_nat 5000) (length I) /\
     length y1 = Nat.min (Z.to_nat 5000) (length I) /\
     aligned 5000 Toy.Xts6 Toy.yts0 I X1 y1).
Proof.
  pose proof (sub_samples_stay_aligned Toy.model Toy.predict unit Toy.permutation
                Toy.bytes toy_permutation_spec toy_predict_length) as [P9 P17].
  destruct toy_s7_env as (H1 & H2 & H3).
  destruct toy_s15_env as (G1 & G2 & G3 & G4).
  split; (split; [reflexivity|]).
  - exact (P9 Toy.s7 Toy.Xtr6 Toy.ytr0 Toy.Iperm7 H1 H2 H3 eq_refl toy_Iperm7_valid).
  - exact (P17 Toy.s15 Toy.Xts6 Toy.yts0 LogisticRegression (rev Toy.Xtr6, rev Toy.ytr0)
             G1 G2 G3 G4 eq_refl).
Defined.

Lemma toy_cell13_finishes : Toy.c13 Toy.s11 = (Ok tt, Toy.s13).
Proof. vm_compute. reflexivity. Qed.

(** C3 at the instance: cell 15 right after cell 13. *)
Lemma load_after_dump_witness :
  Toy.c13 Toy.s11 = (Ok tt, Toy.s13) /\
  exists (vs : list (obj Toy.model)) (s3 : Toy.st),
    bound Toy.model unit Toy.bytes ["logreg"; "Xtr1"; "ytr1"; "Iperm"] vs Toy.s13 /\
    fs Toy.s13 !! "mnist_logreg.p" = Some (Toy.pickle_dumps vs) /\
    Toy.c15 Toy.s13 = (Ok tt, s3) /\
    bound Toy.model unit Toy.bytes ["logreg"; "Xtr1"; "ytr1"; "Iperm"] vs s3 /\
    fs s3 = fs Toy.s13.
Proof.
  split; [exact toy_cell13_finishes|].
  destruct (proj1 (load_after_dump_is_identity Toy.model Toy.fit Toy.predict unit Toy.bytes
                     None Toy.pickle_dumps Toy.pickle_loads toy_pickle_roundtrip)
              Toy.s11 Toy.s13 toy_cell13_finishes) as (vs & Hb & Hf & Hp & Hl).
  destruct (Hl Toy.s13 eq_refl Hp) as (s3 & E & Hb3 & _ & Hfs & _).
  exists vs, s3. auto.
Defined.



Lemma toy_s41_env :
  env Toy.s41 !! "Xtr1" = Some (F64Array2 (rev Toy.Xtr6)) /\
  env Toy.s41 !! "ytr1" = Some (IntArray1 (rev Toy.ytr0)) /\
  env Toy.s41 !! "Xts1" = Some (F64Array2 (rev Toy.Xts6)) /\
  env Toy.s41 !! "yts1" = Some (IntArray1 Toy.yts17) /\
  env Toy.s41 !! "logreg" =
    Some (Fitted LogisticRegression (rev Toy.Xtr6, rev Toy.ytr0)) /\
  env Toy.s41 !! "Iperm" = Some (IntArray1 Toy.Iperm7) /\
  env Toy.s41 !! "yhat_ts" = Some (IntArray1 Toy.yhat41) /\
  env Toy.s41 !! "pickle" = Some (PyModule "pickle").
Proof. repeat split; vm_compute; reflexivity. Qed.

(** C6 at the instance, after cell 41: the snapshot of cell 13 holds the
    fitted classifier and the training sub-sample, the snapshot of cell 43
    the test sub-sample and the predictions. *)
Lemma snapshot_contents_witness :
  writes Toy.model unit Toy.bytes Toy.pickle_dumps Toy.c13 Toy.s41 "mnist_logreg.p"
    [Fitted LogisticRegression (rev Toy.Xtr6, rev Toy.ytr0); F64Array2 (rev Toy.Xtr6);
     IntArray1 (rev Toy.ytr0); IntArray1 Toy.Iperm7] /\
  writes Toy.model unit Toy.bytes Toy.pickle_dumps Toy.c43 Toy.s41 "mnist_svc_test.p"
    [F64Array2 (rev Toy.Xts6); IntArray1 Toy.yts17; IntArray1 Toy.yhat41] /\
  has_classifier Toy.model
    [F64Array2 (rev Toy.Xts6); IntArray1 Toy.yts17; IntArray1 Toy.yhat41] = false.
Proof.
  destruct toy_s41_env as (H1 & H2 & H3 & H4 & H5 & H6 & H7 & H8).
  pose proof (snapshot_contents Toy.model Toy.fit Toy.predict unit Toy.bytes None
                Toy.pickle_dumps Toy.s41 LogisticRegression (rev Toy.Xtr6, rev Toy.ytr0)
                (rev Toy.Xtr6) (rev Toy.Xts6) (rev Toy.ytr0) Toy.Iperm7 Toy.yts17 Toy.yhat41
                H1 H2 H3 H4) as (P13 & _ & _ & P43 & _).
  split; [exact (P13 H5 H6)|]. exact (P43 H7 H8).
Defined.

(** C6 as the specification words it fails on the code: the snapshot cell 43
    writes holds two label arrays and a sample array, and no classifier. *)
Lemma test_snapshot_has_no_classifier :
  ~ dumps_a_classifier Toy.model unit Toy.bytes Toy.pickle_dumps Toy.c43 "mnist_svc_test.p".
Proof.
  intros H.
  assert (E : Toy.c43 Toy.s41 = (Ok tt, Toy.s43)) by (vm_compute; reflexivity).
  destruct (H Toy.s41 Toy.s43 E) as (vs & Hf & Hc).
  vm_compute in Hf. injection Hf as <-.
  vm_compute in Hc. discriminate Hc.
Qed.

(** C7 at the instance: cell 6 on the state cell 4 leaves; 28 x 28 images
    become rows of 784 entries. *)
Lemma pipeline_invariants_witness :
  shape3 8 28 28 Toy.Xtr0 /\ labels_ok Toy.ytr0 /\
  shape3 6 28 28 Toy.Xts0 /\ labels_ok Toy.yts0 /\
  exists (s' : Toy.st) (Xtr' Xts' : list (list float)),
    Toy.c6 Toy.s4 = (Ok tt, s') /\
    env s' !! "npix" = Some (PyInt 784%Z) /\
    env s' !! "Xtr" = Some (F64Array2 Xtr') /\
    env s' !! "ytr" = Some (IntArray1 Toy.ytr0) /\
    env s' !! "Xts" = Some (F64Array2 Xts') /\
    env s' !! "yts" = Some (IntArray1 Toy.yts0) /\
    dataset_ok 8 784 Xtr' Toy.ytr0 /\
    dataset_ok 6 784 Xts' Toy.yts0.
Proof.
  assert (L1 : labels_ok Toy.ytr0)
    by (unfold Toy.ytr0; repeat (constructor; [lia|]); constructor).
  assert (L2 : labels_ok Toy.yts0)
    by (unfold Toy.yts0; repeat (constructor; [lia|]); constructor).
  split; [exact toy_Xtr_shape|]. split; [exact L1|].
  split; [exact toy_Xts_shape|]. split; [exact L2|].
  destruct toy_s4_env as (H1 & H2 & H3 & H4 & H5 & H6 & H7 & H8).
  exact (proj1 (pipeline_keeps_shapes_and_labels Toy.model Toy.fit Toy.predict unit
                  Toy.bytes None Toy.pickle_dumps Toy.pickle_loads toy_pickle_roundtrip)
           Toy.s4 Toy.Xtr0 Toy.Xts0 Toy.ytr0 Toy.yts0 8 6 28 28
           H1 H2 H3 H4 H5 H6 H7 H8 toy_Xtr_shape eq_refl L1 toy_Xts_shape eq_refl L2).
Defined.

Lemma toy_s17_env :
  env Toy.s17 !! "Xts1" = Some (F64Array2 (rev Toy.Xts6)) /\
  env Toy.s17 !! "yts1" = Some (IntArray1 Toy.yts17) /\
  env Toy.s17 !! "yhat" = Some (IntArray1 Toy.yhat17).
Proof. repeat split; vm_compute; reflexivity. Qed.

Lemma toy_confusion_square :
  shape2 10 10 (Toy.confusion_matrix Toy.yts17 Toy.yhat17).
Proof. split; [reflexivity|]. vm_compute. repeat (constructor; [reflexivity|]). constructor. Qed.

(** C8 at the instance: cell 21 after cell 17. *)
Lemma confusion_matrix_witness :
  shape2 10 10 (Toy.confusion_matrix Toy.yts17 Toy.yhat17) /\
  exists (s' : Toy.st) (Cn : list (list float)),
    Toy.c21 Toy.s17 = (Ok tt, s') /\
    env s' !! "Csum" =
      Some (IntArray1 (np_sum_axis1 (Toy.confusion_matrix Toy.yts17 Toy.yhat17))) /\
    env s' !! "C" = Some (F64Array2 Cn) /\
    forall (i j : nat) (ri rj : list Z) (cij : Z),
      Toy.confusion_matrix Toy.yts17 Toy.yhat17 !! i = Some ri -> ri !! j = Some cij ->
      Toy.confusion_matrix Toy.yts17 Toy.yhat17 !! j = Some rj ->
      exists r, Cn !! i = Some r /\
        r !! j = Some (float_of_Z cij / float_of_Z (fold_right Z.add 0%Z rj))%float.
Proof.
  split; [exact toy_confusion_square|].
  destruct toy_s17_env as (_ & H2 & H3).
  exact (proj1 (confusion_matrix_divided_by_row_sum_of_column_index Toy.model
                  Toy.confusion_matrix unit Toy.bytes Toy.s17 Toy.yts17 Toy.yhat17 10
                  H2 H3 toy_confusion_square)).
Defined.

Lemma toy_Xts1_rows : Forall (fun r => length r = 784) (rev Toy.Xts6).
Proof. vm_compute. repeat (constructor; [reflexivity|]). constructor. Qed.

Lemma toy_s_right_env :
  env Toy.s_right !! "Xts1" = Some (F64Array2 Toy.Xts6) /\
  env Toy.s_right !! "yts1" = Some (IntArray1 Toy.yts17) /\
  env Toy.s_right !! "yhat" = Some (IntArray1 Toy.yts17).
Proof. repeat split; vm_compute; reflexivity. Qed.

Lemma toy_Xts6_rows : Forall (fun r => length r = 784) Toy.Xts6.
Proof. vm_compute. repeat (constructor; [reflexivity|]). constructor. Qed.

(** C10 at the instance: cell 19 after cell 17, where all six predictions
    are wrong, and cell 19 on a sub-sample with every prediction right. *)
Lemma error_plots_witness :
  (4 <= n_errors Toy.yts17 Toy.yhat17 /\
   exists s' : Toy.st, Toy.c19 Toy.s17 = (Ok tt, s')) /\
  (n_errors Toy.yts17 Toy.yts17 < 4 /\
   exists s' : Toy.st, Toy.c19 Toy.s_right = (Raise IndexError, s')).
Proof.
  assert (H4 : 4 <= n_errors Toy.yts17 Toy.yhat17) by (vm_compute; lia).
  assert (H0 : n_errors Toy.yts17 Toy.yts17 < 4) by (vm_compute; lia).
  destruct toy_s17_env as (H1 & H2 & H3).
  destruct toy_s_right_env as (G1 & G2 & G3).
  split; (split; [assumption|]).
  - exact (proj1 (proj2 (proj1 (error_plots_need_four_errors Toy.model unit Toy.bytes Toy.s17
                                  (rev Toy.Xts6) Toy.yts17 Toy.yhat17
                                  H1 H2 eq_refl eq_refl toy_Xts1_rows) H3)) H4).
  - exact (proj2 (proj2 (proj1 (error_plots_need_four_errors Toy.model unit Toy.bytes
                                  Toy.s_right Toy.Xts6 Toy.yts17 Toy.yts17
                                  G1 G2 eq_refl eq_refl toy_Xts6_rows) G3)) H0).
Defined.

(** With every prediction right, the error plot of cell 19 stops at its
    first read of [Ierr]. *)
Example error_plot_without_errors :
  fst (Toy.c19 Toy.s_right) = Raise IndexError.
Proof. vm_compute. reflexivity. Qed.

Lemma toy_big_env :
  env Toy.s_big !! "svc" = Some (Estimator (SVC Linear)) /\
  env Toy.s_big !! "Xtr" = Some (F64Array2 Toy.big_X) /\
  env Toy.s_big !! "ytr" = Some (IntArray1 Toy.big_y) /\
  env Toy.s_big !! "Iperm" = Some (IntArray1 Toy.big_I) /\
  env Toy.s_big !! "Xts" = Some (F64Array2 [[rescale_px 0]; [rescale_px 255]]) /\
  env Toy.s_big !! "yts" = Some (IntArray1 [3; 8]%Z) /\
  env Toy.s_big !! "Iperm_ts" = Some (IntArray1 [1; 0]%Z).
Proof.
  unfold Toy.s_big. cbn [env].
  repeat split;
    repeat first [ rewrite lookup_insert_eq | rewrite lookup_insert_ne by done ];
    reflexivity.
Qed.

Lemma toy_big_lengths :
  length Toy.big_X = Toy.big_n /\ length Toy.big_y = Toy.big_n /\
  length Toy.big_I = Toy.big_n.
Proof.
  unfold Toy.big_X, Toy.big_y, Toy.big_I.
  rewrite !length_map, length_rev, length_seq. auto.
Qed.

Lemma toy_big_I_valid :
  Forall (fun k => (0 <= k < Z.of_nat (length Toy.big_X))%Z) Toy.big_I.
Proof.
  destruct toy_big_lengths as (-> & _ & _). unfold Toy.big_I.
  apply Forall_map. apply Forall_forall. intros k Hk.
  apply list_elem_of_In, in_rev, in_seq in Hk. cbn beta. lia.
Qed.

(** C2.  Cells 34 and 35 on 5001 training samples: both cells finish, the
    sub-sample [Xtr1] bound by cell 34 has 5000 rows, and the one fit that
    cell 35 performs is handed [Xtr] and [ytr] themselves, all 5001 rows. *)
Theorem linear_svm_fit_at_5001_samples :
  exists (s' : Toy.st) (X1 : list (list float)) (y1 : list Z),
    Toy.c34_35 Toy.s_big = (Ok tt, s') /\
    env s' !! "Xtr1" = Some (F64Array2 X1) /\
    env s' !! "ytr1" = Some (IntArray1 y1) /\
    Z.of_nat (length X1) = 5000%Z /\
    fit_calls s' = [(SVC Linear, Toy.big_X, Toy.big_y)] /\
    Z.of_nat (length Toy.big_X) = 5001%Z.
Proof.
  destruct toy_big_env as (H1 & H2 & H3 & H4 & H5 & H6 & H7).
  destruct toy_big_lengths as (LX & Ly & LI).
  destruct (linear_svm_fit_on_whole_training_set Toy.model Toy.fit unit Toy.bytes
              Toy.s_big (SVC Linear) Toy.big_X [[rescale_px 0]; [rescale_px 255]]
              Toy.big_y Toy.big_I [3; 8]%Z [1; 0]%Z H1 H2 H3 H4 H5 H6 H7)
    as (s' & X1 & y1 & E & E1 & E2 & L1 & F).
  - congruence.
  - reflexivity.
  - exact toy_big_I_valid.
  - repeat (constructor; [cbn; lia|]). constructor.
  - exists s', X1, y1. split; [exact E|]. split; [exact E1|]. split; [exact E2|].
    split; [rewrite L1, LI; unfold Toy.big_n; lia|].
    split; [exact F|]. rewrite LX. unfold Toy.big_n. lia.
Qed.

(** *** The further properties at the instance *)

(** X1 at a 2 x 3 array. *)
Lemma reshape_round_trip_witness :
  shape2 2 3 [[1; 2; 3]; [4; 5; 6]]%Z /\
  reshape_flat 2 3 (concat [[1; 2; 3]; [4; 5; 6]]%Z) = Ok [[1; 2; 3]; [4; 5; 6]]%Z.
Proof.
  assert (H : shape2 2 3 [[1; 2; 3]; [4; 5; 6]]%Z)
    by (split; [reflexivity | repeat constructor]).
  split; [exact H|].
  exact (proj1 reshape_is_a_round_trip 2 3 [[1; 2; 3]; [4; 5; 6]]%Z H).
Defined.

Lemma toy_s6_env :
  env Toy.s6 !! "Xtr" =
    Some (F64Array2 (map (fun img => map rescale_px (concat img)) Toy.Xtr0)) /\
  env Toy.s6 !! "ntr" = Some (PyInt (Z.of_nat 8)).
Proof. split; vm_compute; reflexivity. Qed.

(** X2 at the instance: cell 7 on the state cell 6 leaves. *)
Lemma first_plot_witness :
  8 <= 8 /\
  exists (s' : Toy.st) (ks : list nat) (imgs : list (list (list float))),
    Toy.c7 Toy.s6 = (Ok tt, s') /\
    env s' !! "Iperm" = Some (IntArray1 (map Z.of_nat ks)) /\
    Permutation ks (seq 0 8) /\
    shown s' = shown Toy.s6 ++ imgs /\
    length imgs = 8 /\
    Forall2 (fun k img => exists a, Toy.Xtr0 !! k = Some a /\ img = map (map rescale_px) a)
      (take 8 ks) imgs.
Proof.
  split; [lia|]. destruct toy_s6_env as [H1 H2].
  exact (first_plot_shows_eight_training_images Toy.model unit Toy.permutation Toy.bytes
           toy_permutation_spec Toy.s6 Toy.Xtr0 8 H1 H2 toy_Xtr_shape (le_n 8)).
Defined.

Lemma toy_three_env :
  env Toy.s_three !! "Xtr" = Some (F64Array2 (take 3 Toy.Xtr6)) /\
  env Toy.s_three !! "ntr" = Some (PyInt (Z.of_nat 3)).
Proof. split; reflexivity. Qed.

Lemma toy_three_shape : shape2 3 784 (take 3 Toy.Xtr6).
Proof. split; [reflexivity|]. vm_compute. repeat (constructor; [reflexivity|]). constructor. Qed.

(** X3 at the instance: cell 7 on a training set of three images. *)
Lemma first_plot_short_witness :
  3 < 8 /\
  exists (s' : Toy.st) (ks : list nat) (imgs : list (list (list float))),
    Toy.c7 Toy.s_three = (Raise IndexError, s') /\
    env s' !! "Iperm" = Some (IntArray1 (map Z.of_nat ks)) /\
    Permutation ks (seq 0 3) /\
    shown s' = shown Toy.s_three ++ imgs /\
    rows_drawn (take 3 Toy.Xtr6) ks imgs.
Proof.
  split; [lia|]. destruct toy_three_env as [H1 H2].
  exact (first_plot_needs_eight_samples Toy.model unit Toy.permutation Toy.bytes
           toy_permutation_spec Toy.s_three (take 3 Toy.Xtr6) 3 H1 H2 toy_three_shape
           ltac:(lia)).
Defined.

Lemma toy_two_px_env :
  env Toy.s_two_px !! "Xtr" = Some (F64Array2 Toy.X_two_px) /\
  env Toy.s_two_px !! "ntr" = Some (PyInt (Z.of_nat 2)).
Proof. split; reflexivity. Qed.

(** X4 at the instance: cell 7 on two samples of two pixels. *)
Lemma first_plot_wrong_size_witness :
  shape2 2 2 Toy.X_two_px /\ 2 <> 784 /\ 0 < 2 /\
  exists (s' : Toy.st) (ks : list nat),
    Toy.c7 Toy.s_two_px = (Raise ValueError, s') /\
    env s' !! "Iperm" = Some (IntArray1 (map Z.of_nat ks)) /\
    Permutation ks (seq 0 2) /\
    shown s' = shown Toy.s_two_px.
Proof.
  assert (H : shape2 2 2 Toy.X_two_px) by (split; [reflexivity | repeat constructor]).
  assert (N : 2 <> 784) by lia.
  assert (P : 0 < 2) by lia.
  split; [exact H|]. split; [exact N|]. split; [exact P|].
  destruct toy_two_px_env as [H1 H2].
  exact (first_plot_needs_784_pixels Toy.model unit Toy.permutation Toy.bytes
           toy_permutation_spec Toy.s_two_px Toy.X_two_px 2 2 H1 H2 H N P).
Defined.

(** X5 at the instance: the labels and predictions of cell 17. *)
Lemma error_positions_witness :
  length Toy.yts17 = length Toy.yhat17 /\
  exists b : list bool,
    ne_elementwise Toy.yts17 Toy.yhat17 = Ok b /\
    (forall k : nat,
       Z.of_nat k ∈ np_where b <->
       exists a c, Toy.yts17 !! k = Some a /\ Toy.yhat17 !! k = Some c /\ a <> c) /\
    Forall (fun k => (0 <= k < Z.of_nat (length Toy.yts17))%Z) (np_where b) /\
    (forall (i j : nat) (a c : Z), i < j ->
       np_where b !! i = Some a -> np_where b !! j = Some c -> (a < c)%Z).
Proof.
  split; [reflexivity|].
  exact (error_positions_are_exact Toy.yts17 Toy.yhat17 eq_refl).
Defined.

(** X6 at the instance: cell 9 on the state cell 7 leaves. *)
Lemma without_replacement_witness :
  length Toy.ytr0 = length Toy.Xtr6 /\
  Permutation (rev (seq 0 8)) (seq 0 (length Toy.Xtr6)) /\
  exists (s' : Toy.st) (X1 : list (list float)) (y1 : list Z),
    Toy.c9 Toy.s7 = (Ok tt, s') /\
    env s' !! "Xtr1" = Some (F64Array2 X1) /\
    env s' !! "ytr1" = Some (IntArray1 y1) /\
    drawn_from Toy.Xtr6 Toy.ytr0 (take (Z.to_nat 5000) (rev (seq 0 8))) X1 y1 /\
    ((Z.of_nat (length Toy.Xtr6) <= 5000)%Z ->
     Permutation (zip X1 y1) (zip Toy.Xtr6 Toy.ytr0)).
Proof.
  assert (P : Permutation (rev (seq 0 8)) (seq 0 (length Toy.Xtr6)))
    by exact (toy_permutation_spec 8 tt).
  split; [reflexivity|]. split; [exact P|].
  destruct toy_s7_env as (H1 & H2 & H3).
  exact (proj1 (sub_samples_are_drawn_without_replacement Toy.model Toy.predict unit
                  Toy.permutation Toy.bytes toy_permutation_spec toy_predict_length)
           Toy.s7 Toy.Xtr6 Toy.ytr0 (rev (seq 0 8)) H1 H2 H3 eq_refl P).
Defined.


Lemma toy_svc_cells :
  Toy.c37 Toy.s_svc = (Ok tt, Toy.s_svc37) /\
  fs Toy.s_svc_new !! "mnist_svc.p" = fs Toy.s_svc37 !! "mnist_svc.p" /\
  is_Some (fs Toy.s_later_new !! "mnist_svc_test.p") /\
  env Toy.s_later_new !! "pickle" = None.
Proof.
  split; [vm_compute; reflexivity|]. split; [vm_compute; reflexivity|].
  split; [vm_compute; eauto | reflexivity].
Qed.

(** X7 at the instance: cell 39 in a new kernel, on the file cell 37 wrote,
    and cell 44 in a new kernel, on the file cell 43 wrote. *)
Lemma loading_in_new_kernel_witness :
  Toy.c37 Toy.s_svc = (Ok tt, Toy.s_svc37) /\
  fs Toy.s_svc_new !! "mnist_svc.p" = fs Toy.s_svc37 !! "mnist_svc.p" /\
  (exists s3 : Toy.st,
     Toy.c39 Toy.s_svc_new = (Ok tt, s3) /\
     (forall x : string, x ∈ ["svc"; "Xtr1"; "ytr1"] ->
        env s3 !! x = env Toy.s_svc37 !! x) /\
     (forall x : string, x ∉ ["pickle"; "fp"; "svc"; "Xtr1"; "ytr1"] ->
        env s3 !! x = env Toy.s_svc_new !! x) /\
     env s3 !! "pickle" = Some (PyModule "pickle") /\
     fs s3 = fs Toy.s_svc_new /\ rng s3 = rng Toy.s_svc_new /\
     fit_calls s3 = fit_calls Toy.s_svc_new /\ shown s3 = shown Toy.s_svc_new) /\
  is_Some (fs Toy.s_later_new !! "mnist_svc_test.p") /\
  env Toy.s_later_new !! "pickle" = None /\
  Toy.c44 Toy.s_later_new =
    (Raise NameError,
     upd_env (<["fp" := PyFile "mnist_svc_test.p" "rb"]>) Toy.s_later_new).
Proof.
  destruct toy_svc_cells as (H1 & H2 & H3 & H4).
  pose proof (loading_snapshots_in_a_new_kernel Toy.model Toy.fit unit Toy.bytes None
                Toy.pickle_dumps Toy.pickle_loads toy_pickle_roundtrip)
    as (P39 & _ & _ & P44 & _).
  split; [exact H1|]. split; [exact H2|].
  split; [exact (P39 Toy.s_svc Toy.s_svc37 Toy.s_svc_new H1 H2)|].
  split; [exact H3|]. split; [exact H4|].
  exact (P44 Toy.s_later_new H3 H4).
Defined.




Lemma toy_confusion_rows :
  Toy.confusion_matrix Toy.yts17 Toy.yhat17 !! 9 = Some Toy.row9 /\
  Toy.row9 !! 7 = Some 1%Z /\
  Toy.confusion_matrix Toy.yts17 Toy.yhat17 !! 7 = Some Toy.row7.
Proof. repeat split; vm_compute; reflexivity. Qed.

(** X11 at the instance: cell 21 after cell 17.  Every prediction is 7 and
    no test label is: row 7 of the confusion matrix is zero, and the entry
    at (9, 7), a count of 1, becomes plus infinity. *)
Lemma nan_or_infinity_witness :
  fold_right Z.add 0%Z Toy.row7 = 0%Z /\
  exists (s' : Toy.st) (Cn : list (list float)) (r : list float) (q : float),
    Toy.c21 Toy.s17 = (Ok tt, s') /\
    env s' !! "C" = Some (F64Array2 Cn) /\
    Cn !! 9 = Some r /\ r !! 7 = Some q /\
    PrimFloat.eqb q PrimFloat.infinity = true.
Proof.
  split; [reflexivity|].
  destruct toy_s17_env as (_ & H2 & H3).
  destruct toy_confusion_rows as (R1 & R2 & R3).
  destruct (class_without_samples_gives_nan_or_infinity Toy.model Toy.confusion_matrix
              unit Toy.bytes Toy.s17 Toy.yts17 Toy.yhat17 10 9 7 Toy.row9 Toy.row7 1%Z
              H2 H3 toy_confusion_square R1 R2 R3 ltac:(lia) eq_refl)
    as (s' & Cn & r & q & E & EC & Er & Eq & _ & Hinf).
  exists s', Cn, r, q. repeat split; try assumption. apply Hinf. discriminate.
Defined.

Lemma toy_weights_rows :
  Forall (fun r => length r = 784) (Toy.coef_ (rev Toy.Xtr6, rev Toy.ytr0)).
Proof. vm_compute. repeat (constructor; [reflexivity|]). constructor. Qed.

(** X12 at the instance: cell 23 after cell 15, with eight weight rows. *)
Lemma weight_grid_witness :
  length (Toy.coef_ (rev Toy.Xtr6, rev Toy.ytr0)) <= 10 /\
  exists s' : Toy.st,
    Toy.c23 Toy.s15 = (Ok tt, s') /\
    shown s' = shown Toy.s15 ++ map (chunks 28 28) (Toy.coef_ (rev Toy.Xtr6, rev Toy.ytr0)).
Proof.
  assert (H : length (Toy.coef_ (rev Toy.Xtr6, rev Toy.ytr0)) <= 10)
    by (vm_compute; lia).
  split; [exact H|].
  destruct toy_s15_env as (_ & _ & _ & G4).
  exact (proj1 (weight_grid_holds_ten_images Toy.model unit Toy.bytes Toy.coef_ Toy.s15
                  LogisticRegression (rev Toy.Xtr6, rev Toy.ytr0) G4 toy_weights_rows) H).
Defined.

(** X13 at the instance: the selection of cell 26 after cell 7. *)
Lemma digit_selection_witness :
  exists (s' : Toy.st) (Id Ino : list Z),
    Toy.c26 Toy.s7 = (Ok tt, s') /\
    env s' !! "Idig" = Some (IntArray1 Id) /\
    env s' !! "Inodig" = Some (IntArray1 Ino) /\
    NoDup Id /\ NoDup Ino /\
    Forall (fun k => (0 <= k < Z.of_nat (length Toy.ytr0))%Z) (Id ++ Ino) /\
    (forall k : nat, Z.of_nat k ∈ Id <-> Toy.ytr0 !! k = Some 2%Z) /\
    (forall k : nat, Z.of_nat k ∈ Ino <-> exists l, Toy.ytr0 !! k = Some l /\ l <> 2%Z) /\
    length Id + length Ino = length Toy.ytr0.
Proof.
  exact (digit_selection_splits_the_training_set Toy.model unit Toy.permutation Toy.bytes
           toy_permutation_spec Toy.s7 Toy.ytr0 (proj1 (proj2 toy_s7_env))).
Defined.

Lemma toy_s41_svc :
  env Toy.s41 !! "svc" = Some (Fitted (SVC Linear) (Toy.Xtr6, Toy.ytr0)).
Proof. vm_compute. reflexivity. Qed.

Lemma toy_support_rows :
  Forall (fun r => length r = 784) (Toy.support_vectors_ (Toy.Xtr6, Toy.ytr0)).
Proof. vm_compute. repeat (constructor; [reflexivity|]). constructor. Qed.

(** X14 at the instance: cells 48 and 50 after cell 41, with eight support
    vectors. *)
Lemma support_vector_plot_witness :
  4 <= length (Toy.support_vectors_ (Toy.Xtr6, Toy.ytr0)) /\
  exists s1 : Toy.st,
    Toy.c48 Toy.s41 = (Ok tt, s1) /\
    env s1 !! "S" = Some (F64Array2 (Toy.support_vectors_ (Toy.Xtr6, Toy.ytr0))) /\
    exists (s' : Toy.st) (ks : list nat) (imgs : list (list (list float))),
      Toy.c50 s1 = (Ok tt, s') /\
      Permutation ks (seq 0 (length (Toy.support_vectors_ (Toy.Xtr6, Toy.ytr0)))) /\
      shown s' = shown Toy.s41 ++ imgs /\
      rows_drawn (Toy.support_vectors_ (Toy.Xtr6, Toy.ytr0)) (take 4 ks) imgs.
Proof.
  assert (H : 4 <= length (Toy.support_vectors_ (Toy.Xtr6, Toy.ytr0)))
    by (vm_compute; lia).
  split; [exact H|].
  destruct (proj1 (support_vector_plots_need_four Toy.model unit Toy.permutation
                     Toy.bytes Toy.support_vectors_ toy_permutation_spec Toy.s41
                     (SVC Linear) (Toy.Xtr6, Toy.ytr0) toy_support_rows) toy_s41_svc)
    as (s1 & E & HS & Hok & _).
  exists s1. split; [exact E|]. split; [exact HS | exact (Hok H)].
Defined.

Lemma toy_s_train_env :
  env Toy.s_train !! "Xtr" = Some (F64Array2 Toy.X_two) /\
  env Toy.s_train !! "ytr" = Some (IntArray1 [3; 8]%Z) /\
  env Toy.s_train !! "Xtr1" = Some (F64Array2 (rev Toy.X_two)) /\
  env Toy.s_train !! "ytr1" = Some (IntArray1 [8; 3]%Z) /\
  env Toy.s_train !! "Xts1" = Some (F64Array2 Toy.X_two).
Proof. repeat split; vm_compute; reflexivity. Qed.

(** X15 at the instance: cells 31 to 41 on a training set of two samples. *)
Lemma predictions_witness :
  exists s' : Toy.st,
    Toy.c31_41 Toy.s_train = (Ok tt, s') /\
    env s' !! "yhat_ts" =
      Some (IntArray1 (Toy.predict (Toy.fit (SVC Linear) Toy.X_two [3; 8]%Z) Toy.X_two)).
Proof.
  destruct toy_s_train_env as (H1 & H2 & H3 & H4 & H5).
  exact (proj1 (proj2 (predictions_come_from_the_machine_fitted_before Toy.model Toy.fit
                         Toy.predict unit Toy.permutation Toy.bytes None Toy.pickle_dumps
                         Toy.pickle_loads toy_permutation_spec toy_predict_length
                         toy_pickle_roundtrip))
           Toy.s_train Toy.X_two (rev Toy.X_two) Toy.X_two [3; 8]%Z [8; 3]%Z
           H1 H2 H3 H4 H5).
Defined.

(** X16 at the instance: cell 19 after cell 17, where all six predictions
    are wrong. *)
Lemma error_images_witness :
  4 <= n_errors Toy.yts17 Toy.yhat17 /\
  exists (s' : Toy.st) (ks : list nat) (imgs : list (list (list float))),
    Toy.c19 Toy.s17 = (Ok tt, s') /\
    map Z.of_nat ks =
      take 4 (np_where (zip_with (fun x y => negb (Z.eqb x y)) Toy.yts17 Toy.yhat17)) /\
    shown s' = shown Toy.s17 ++ imgs /\
    rows_drawn (rev Toy.Xts6) ks imgs /\
    Forall (fun k => exists l l',
              Toy.yts17 !! k = Some l /\ Toy.yhat17 !! k = Some l' /\ l <> l') ks.
Proof.
  assert (H4 : 4 <= n_errors Toy.yts17 Toy.yhat17) by (vm_compute; lia).
  split; [exact H4|].
  destruct toy_s17_env as (H1 & H2 & H3).
  exact (proj1 (error_plots_show_the_first_four_errors Toy.model unit Toy.bytes Toy.s17
                  (rev Toy.Xts6) Toy.yts17 Toy.yhat17 H1 H2 eq_refl eq_refl toy_Xts1_rows)
           H3 H4).
Defined.

(** X17 at the instance: cells 4 and 6 in a new kernel. *)
Lemma loading_then_rescaling_witness :
  Toy.load_data = ((Toy.Xtr0, Toy.ytr0), (Toy.Xts0, Toy.yts0)) /\
  0 < 8 /\ 0 < 28 /\
  exists s' : Toy.st,
    Toy.c4_6 Toy.s0 = (Ok tt, s') /\
    env s' !! "npix" = Some (PyInt (Z.of_nat 28 * Z.of_nat 28)) /\
    env s' !! "Xtr" = Some (F64Array2 Toy.Xtr6) /\
    env s' !! "Xts" = Some (F64Array2 Toy.Xts6) /\
    env s' !! "ytr" = Some (IntArray1 Toy.ytr0) /\
    env s' !! "yts" = Some (IntArray1 Toy.yts0).
Proof.
  assert (P8 : 0 < 8) by lia. assert (P28 : 0 < 28) by lia.
  split; [reflexivity|]. split; [exact P8|]. split; [exact P28|].
  exact (proj1 (loading_then_rescaling Toy.model Toy.load_data unit Toy.bytes Toy.s0
                  Toy.Xtr0 Toy.Xts0 Toy.ytr0 Toy.yts0 8 6 28 28 eq_refl toy_Xtr_shape
                  P8 P28) toy_Xts_shape).
Defined.

Lemma toy_s15_train :
  env Toy.s15 !! "Xtr" = Some (F64Array2 Toy.Xtr6) /\
  env Toy.s15 !! "ytr" = Some (IntArray1 Toy.ytr0) /\
  env Toy.s15 !! "Iperm" = Some (IntArray1 Toy.Iperm7).
Proof. repeat split; vm_compute; reflexivity. Qed.

(** X18 at the instance: cells 9, 17 and 34 on the state cell 15 leaves. *)
Lemma repeated_sub_sampling_witness :
  length Toy.ytr0 = length Toy.Xtr6 /\
  length Toy.yts0 = length Toy.Xts6 /\
  exists s1 s2 : Toy.st,
    Toy.c9 Toy.s15 = (Ok tt, s1) /\ Toy.c17 s1 = (Ok tt, s2) /\ Toy.c34 s2 = (Ok tt, s2).
Proof.
  split; [reflexivity|]. split; [reflexivity|].
  destruct toy_s15_train as (H1 & H2 & H3).
  destruct toy_s15_env as (G1 & G2 & G3 & G4).
  exact (cell34_repeats_the_sub_sampling Toy.model Toy.predict unit Toy.permutation
           Toy.bytes toy_permutation_spec toy_predict_length Toy.s15 Toy.Xtr6 Toy.Xts6
           Toy.ytr0 Toy.Iperm7 Toy.yts0 LogisticRegression (rev Toy.Xtr6, rev Toy.ytr0)
           H1 H2 H3 G1 G2 G3 G4 eq_refl eq_refl toy_Iperm7_valid).
Defined.
